(** * FanPyControl: a shallow embedding of [fanpycontrol.py]

    The development follows the layout of the Python module: the numeric
    helpers, the text-file handles the daemon keeps open on the kernel's
    device files, the three configuration classes with their methods, the
    control loop of one fan run against a concurrent [shutdown], and the
    signal handler of [main].

    Conventions of the embedding.
    - Python [int] is [Z].  A Python [float] is idealised as an exact
      rational [Q]: the interpolation fraction and the interpolated value
      are computed without rounding error.
    - A raised exception is [None]; a method that mutates its object returns
      the new object.
    - [str] of an integer is its decimal numeral; [str] of a [PWMMode]
      member is the numeral of its value (the [IntEnum] behaviour of
      Python 3.11 and later, the only one under which the kernel accepts
      what [set_mode] writes). *)

From Stdlib Require Import ZArith QArith Qround Lia Lqa Bool List.
From Stdlib Require Import Ascii String DecimalString DecimalPos DecimalZ.
Import ListNotations.

Local Open Scope Z_scope.

(* ================================================================== *)
(** ** Numeric helpers *)
(* ================================================================== *)

(** Modelled from the spec: [imath.clamp] is imported from a third-party
    package whose code is not part of the repository; the spec calls it
    "clamp the result into [min, max]".  The comparison order is the one of
    the Imath library: below the lower bound gives the lower bound, else
    above the upper bound gives the upper bound, else the value. *)
Definition clamp (a l h : Z) : Z :=
  if a <? l then l else if h <? a then h else a.

(** Modelled from the spec: [imath.lerp] is imported from the same
    package; the spec calls it "linearly interpolate between min and max by
    fraction".  Imath computes [(1 - t) * a + t * b]. *)
Definition lerp (a b : Z) (t : Q) : Q :=
  ((1 - t) * inject_Z a + t * inject_Z b)%Q.

(** Python's built-in [round] with one argument: the nearest integer, a tie
    going to the even neighbour. *)
Definition py_round (x : Q) : Z :=
  let f := Qfloor x in
  match ((x - inject_Z f) ?= (1 # 2))%Q with
  | Lt => f
  | Gt => f + 1
  | Eq => if Z.even f then f else f + 1
  end.

Definition clamped_linear_interpolation (minimum maximum : Z) (percentage : Q) : Z :=
  clamp (py_round (lerp minimum maximum percentage)) minimum maximum.

Definition pwm_clamp (pwm_value : Z) : Z := clamp pwm_value 0 255.

(* ------------------------------------------------------------------ *)
(** *** Facts about the helpers *)

Lemma clamp_range a l h : l <= h -> l <= clamp a l h <= h.
Proof.
  intros Hlh. unfold clamp.
  destruct (Z.ltb_spec a l); [lia|].
  destruct (Z.ltb_spec h a); lia.
Qed.

Lemma clamp_id a l h : l <= a <= h -> clamp a l h = a.
Proof.
  intros [Hl Hh]. unfold clamp.
  destruct (Z.ltb_spec a l); [lia|].
  destruct (Z.ltb_spec h a); lia.
Qed.

Lemma clamp_low a l h : a <= l -> l <= h -> clamp a l h = l.
Proof.
  intros Hal Hlh. unfold clamp.
  destruct (Z.ltb_spec a l); [reflexivity|].
  destruct (Z.ltb_spec h a); lia.
Qed.

Lemma clamp_high a l h : h <= a -> l <= h -> clamp a l h = h.
Proof.
  intros Hha Hlh. unfold clamp.
  destruct (Z.ltb_spec a l); [lia|].
  destruct (Z.ltb_spec h a); lia.
Qed.

Lemma pwm_clamp_range x : 0 <= pwm_clamp x <= 255.
Proof. apply clamp_range. lia. Qed.

Lemma pwm_clamp_id x : 0 <= x <= 255 -> pwm_clamp x = x.
Proof. apply clamp_id. Qed.

Lemma py_round_bounds x : Qfloor x <= py_round x <= Qfloor x + 1.
Proof.
  unfold py_round.
  destruct (_ ?= _)%Q; [destruct (Z.even _)| |]; lia.
Qed.

Lemma Qcompare_half x f :
  match (x - inject_Z f ?= 1 # 2)%Q with
  | Lt => (x < inject_Z f + (1 # 2))%Q
  | Eq => (x == inject_Z f + (1 # 2))%Q
  | Gt => (inject_Z f + (1 # 2) < x)%Q
  end.
Proof.
  destruct (x - inject_Z f ?= 1 # 2)%Q eqn:C.
  - apply Qeq_alt in C. lra.
  - apply Qlt_alt in C. lra.
  - apply Qgt_alt in C. lra.
Qed.

Lemma py_round_Z (n : Z) : py_round (inject_Z n) = n.
Proof.
  unfold py_round. rewrite Qfloor_Z.
  pose proof (Qcompare_half (inject_Z n) n) as C.
  destruct (_ ?= _)%Q; [lra | reflexivity | lra].
Qed.

(** [round] never passes an integer that bounds its argument. *)
Lemma py_round_le_Z x (n : Z) : (x <= inject_Z n)%Q -> py_round x <= n.
Proof.
  intros Hx.
  pose proof (Qfloor_resp_le _ _ Hx) as Hf. rewrite Qfloor_Z in Hf.
  destruct (Z.eq_dec (Qfloor x) n) as [E|NE].
  - unfold py_round.
    pose proof (Qcompare_half x (Qfloor x)) as C. rewrite E in *.
    destruct (_ ?= _)%Q; [lra | lia | lra].
  - pose proof (py_round_bounds x). lia.
Qed.

Lemma py_round_ge_Z x (n : Z) : (inject_Z n <= x)%Q -> n <= py_round x.
Proof.
  intros Hx.
  pose proof (Qfloor_resp_le _ _ Hx) as Hf. rewrite Qfloor_Z in Hf.
  pose proof (py_round_bounds x). lia.
Qed.

(** [round] is a nearest integer: it is at most one half away. *)
Lemma py_round_nearest x :
  (inject_Z (py_round x) - (1 # 2) <= x <= inject_Z (py_round x) + (1 # 2))%Q.
Proof.
  pose proof (Qfloor_le x) as Hlo.
  pose proof (Qlt_floor x) as Hhi. rewrite inject_Z_plus in Hhi.
  unfold py_round.
  pose proof (Qcompare_half x (Qfloor x)) as C.
  destruct (_ ?= _)%Q; [destruct (Z.even _)| |];
    rewrite ?inject_Z_plus; change (inject_Z 1) with 1%Q in *; lra.
Qed.

(** A tie goes to the even neighbour. *)
Lemma py_round_tie (n : Z) :
  py_round (inject_Z n + (1 # 2)) = if Z.even n then n else n + 1.
Proof.
  assert (F : Qfloor (inject_Z n + (1 # 2)) = n).
  { pose proof (Qfloor_le (inject_Z n + (1 # 2))) as Hlo.
    pose proof (Qlt_floor (inject_Z n + (1 # 2))) as Hhi.
    rewrite inject_Z_plus in Hhi. change (inject_Z 1) with 1%Q in Hhi.
    assert (H1 : (inject_Z (Qfloor (inject_Z n + (1 # 2))) < inject_Z (n + 1))%Q).
    { rewrite inject_Z_plus. change (inject_Z 1) with 1%Q. lra. }
    assert (H2 : (inject_Z (n - 1) < inject_Z (Qfloor (inject_Z n + (1 # 2))))%Q).
    { replace (n - 1) with (n + -1) by lia.
      rewrite inject_Z_plus. change (inject_Z (-1)) with (-1 # 1)%Q. lra. }
    rewrite <- Zlt_Qlt in H1, H2. lia. }
  unfold py_round. rewrite F.
  pose proof (Qcompare_half (inject_Z n + (1 # 2)) n) as C.
  destruct (_ ?= _)%Q; [reflexivity | lra | lra].
Qed.

Lemma py_round_Qeq x y : (x == y)%Q -> py_round x = py_round y.
Proof.
  intros E. unfold py_round.
  assert (F : Qfloor x = Qfloor y) by now rewrite E.
  rewrite F.
  assert (C : (x - inject_Z (Qfloor y) ?= 1 # 2)%Q = (y - inject_Z (Qfloor y) ?= 1 # 2)%Q)
    by now rewrite E.
  now rewrite C.
Qed.

Lemma lerp_affine a b t :
  (lerp a b t == inject_Z a + t * (inject_Z b - inject_Z a))%Q.
Proof. unfold lerp. ring. Qed.

Lemma lerp_below a b t : a <= b -> (t <= 0)%Q -> (lerp a b t <= inject_Z a)%Q.
Proof.
  intros Hab Ht. rewrite lerp_affine.
  rewrite Zle_Qle in Hab.
  assert (H : (0 <= (- t) * (inject_Z b - inject_Z a))%Q)
    by (apply Qmult_le_0_compat; lra).
  lra.
Qed.

Lemma lerp_above a b t : a <= b -> (1 <= t)%Q -> (inject_Z b <= lerp a b t)%Q.
Proof.
  intros Hab Ht. rewrite lerp_affine.
  rewrite Zle_Qle in Hab.
  assert (H : (0 <= (t - 1) * (inject_Z b - inject_Z a))%Q)
    by (apply Qmult_le_0_compat; lra).
  lra.
Qed.

Lemma lerp_between a b t :
  a <= b -> (0 <= t <= 1)%Q -> (inject_Z a <= lerp a b t <= inject_Z b)%Q.
Proof.
  intros Hab [H0 H1]. rewrite lerp_affine.
  rewrite Zle_Qle in Hab.
  assert (Ha : (0 <= t * (inject_Z b - inject_Z a))%Q)
    by (apply Qmult_le_0_compat; lra).
  assert (Hb : (0 <= (1 - t) * (inject_Z b - inject_Z a))%Q)
    by (apply Qmult_le_0_compat; lra).
  lra.
Qed.

(** Inside the unit interval the final clamp does nothing: the rounded
    interpolation already lies between the bounds. *)
Lemma clamped_linear_interpolation_inside minimum maximum fraction :
  minimum <= maximum -> (0 <= fraction <= 1)%Q ->
  clamped_linear_interpolation minimum maximum fraction
  = py_round (lerp minimum maximum fraction).
Proof.
  intros Hmm Hf. unfold clamped_linear_interpolation.
  destruct (lerp_between _ _ _ Hmm Hf) as [Hlo Hhi].
  apply clamp_id. split.
  - now apply py_round_ge_Z.
  - now apply py_round_le_Z.
Qed.

(** C3. For integers [minimum <= maximum] and any fraction:
    a fraction in [0,1] gives a result in [minimum, maximum]; a negative
    fraction gives exactly [minimum]; a fraction above one gives exactly
    [maximum].  The interpolation saturates, it never extrapolates. *)
Theorem clamped_linear_interpolation_saturates (minimum maximum : Z) (fraction : Q) :
  minimum <= maximum ->
  ((0 <= fraction <= 1)%Q ->
     minimum <= clamped_linear_interpolation minimum maximum fraction <= maximum) /\
  ((fraction < 0)%Q ->
     clamped_linear_interpolation minimum maximum fraction = minimum) /\
  ((1 < fraction)%Q ->
     clamped_linear_interpolation minimum maximum fraction = maximum).
Proof.
  intros Hmm. unfold clamped_linear_interpolation. repeat split.
  - now apply clamp_range.
  - now apply clamp_range.
  - intros Hf. apply clamp_low; [|exact Hmm].
    apply py_round_le_Z, lerp_below; [exact Hmm | lra].
  - intros Hf. apply clamp_high; [|exact Hmm].
    apply py_round_ge_Z, lerp_above; [exact Hmm | lra].
Qed.

Lemma clamped_linear_interpolation_saturates_witness :
  50 <= 255 /\
  50 <= clamped_linear_interpolation 50 255 (1 # 3) <= 255 /\
  clamped_linear_interpolation 50 255 (-1 # 6) = 50 /\
  clamped_linear_interpolation 50 255 (7 # 6) = 255.
Proof.
  assert (H : 50 <= 255) by lia.
  split; [exact H|].
  destruct (clamped_linear_interpolation_saturates 50 255 (1 # 3) H) as [A _].
  destruct (clamped_linear_interpolation_saturates 50 255 (-1 # 6) H) as [_ [B _]].
  destruct (clamped_linear_interpolation_saturates 50 255 (7 # 6) H) as [_ [_ C]].
  split; [apply A; split; discriminate|].
  split; [apply B; reflexivity | apply C; reflexivity].
Defined.

(* ================================================================== *)
(** ** Text: [str], [int] and lines *)
(* ================================================================== *)

Local Open Scope string_scope.

Definition nl : ascii := "010"%char.

Definition line (s : string) : string := s ++ String nl "".

(** [str(z)] for a Python [int]. *)
Definition str (z : Z) : string := NilZero.string_of_int (Z.to_int z).

(** The characters that [int()] and [str.strip] count as white space. *)
Definition is_space (c : ascii) : bool :=
  let n := nat_of_ascii c in
  ((9 <=? n) && (n <=? 13) || (28 <=? n) && (n <=? 32))%nat.

Fixpoint lstrip (s : string) : string :=
  match s with
  | String c s' => if is_space c then lstrip s' else s
  | EmptyString => EmptyString
  end.

Fixpoint rstrip (s : string) : string :=
  match s with
  | EmptyString => EmptyString
  | String c s' =>
      match rstrip s' with
      | EmptyString => if is_space c then EmptyString else String c EmptyString
      | r => String c r
      end
  end.

Definition strip (s : string) : string := lstrip (rstrip s).

(** Python's [int(s)] on a string: surrounding white space is dropped, one
    sign is allowed, and what remains must be a non-empty run of decimal
    digits; anything else raises [ValueError].  (Digit-group underscores,
    which Python also accepts, are not recognised here; the kernel's
    attribute files never contain them.) *)
Definition py_int (s : string) : option Z :=
  match strip s with
  | EmptyString => None
  | String c s' =>
      if (c =? "+")%char then
        match s' with
        | EmptyString => None
        | _ => option_map (fun d => Z.of_int (Decimal.Pos d)) (NilEmpty.uint_of_string s')
        end
      else if (c =? "-")%char then
        match s' with
        | EmptyString => None
        | _ => option_map (fun d => Z.of_int (Decimal.Neg d)) (NilEmpty.uint_of_string s')
        end
      else option_map (fun d => Z.of_int (Decimal.Pos d)) (NilEmpty.uint_of_string (String c s'))
  end.

(** The text of one [readline()]: up to and including the first newline,
    or up to the end of the data. *)
Fixpoint read_line (s : string) : string :=
  match s with
  | EmptyString => EmptyString
  | String c s' => if (c =? nl)%char then String c EmptyString else String c (read_line s')
  end.

Fixpoint string_take (n : nat) (s : string) : string :=
  match n, s with
  | S n', String c s' => String c (string_take n' s')
  | _, _ => EmptyString
  end.

Fixpoint string_drop (n : nat) (s : string) : string :=
  match n, s with
  | S n', String _ s' => string_drop n' s'
  | _, _ => s
  end.

Fixpoint zeros (n : nat) : string :=
  match n with
  | O => EmptyString
  | S n' => String zero (zeros n')
  end.

(** Writing [data] at offset [p] of a file holding [c]: the bytes under the
    data are replaced, the file grows when the data runs past its end, and a
    gap between the old end and [p] reads as zero bytes. *)
Definition overwrite (c : string) (p : nat) (data : string) : string :=
  string_take p (c ++ zeros (p - String.length c))
  ++ data ++ string_drop (p + String.length data) c.

(* ------------------------------------------------------------------ *)
(** *** Facts about text *)

(** A string all of whose characters are decimal digits or a minus sign. *)
Definition is_numeral_char (c : ascii) : bool :=
  let n := nat_of_ascii c in
  ((48 <=? n) && (n <=? 57) || (n =? 45))%nat.

Fixpoint numeral_chars (s : string) : bool :=
  match s with
  | EmptyString => true
  | String c s' => is_numeral_char c && numeral_chars s'
  end.

Lemma numeral_chars_uint d : numeral_chars (NilEmpty.string_of_uint d) = true.
Proof. induction d; simpl; auto. Qed.

Lemma numeral_chars_str z : numeral_chars (str z) = true.
Proof.
  unfold str. destruct (Z.to_int z) as [d|d]; simpl.
  - destruct d; try reflexivity; apply (numeral_chars_uint (_ d)).
  - destruct d; try reflexivity; apply (numeral_chars_uint (_ d)).
Qed.

Lemma numeral_char_not_space c : is_numeral_char c = true -> is_space c = false.
Proof.
  unfold is_numeral_char, is_space.
  generalize (nat_of_ascii c). intros n H.
  apply orb_true_iff in H.
  apply orb_false_iff.
  rewrite !andb_false_iff, !Nat.leb_gt.
  destruct H as [H|H].
  - apply andb_true_iff in H. rewrite !Nat.leb_le in H. lia.
  - apply Nat.eqb_eq in H. lia.
Qed.

Lemma numeral_char_not_nl c : is_numeral_char c = true -> (c =? nl)%char = false.
Proof.
  intros H. apply Ascii.eqb_neq. intros ->. discriminate H.
Qed.

Lemma str_nonempty z : str z <> EmptyString.
Proof.
  unfold str. destruct (Z.to_int z) as [d|d]; simpl.
  - destruct d; discriminate.
  - discriminate.
Qed.

Lemma str_length_pos z : (1 <= String.length (str z))%nat.
Proof.
  pose proof (str_nonempty z). destruct (str z); [congruence | simpl; lia].
Qed.

Lemma rstrip_line d : numeral_chars d = true -> rstrip (line d) = d.
Proof.
  induction d as [|c d IH]; intros H.
  - reflexivity.
  - simpl in H. apply andb_true_iff in H. destruct H as [Hc Hd].
    unfold line in *. simpl. rewrite (IH Hd).
    destruct d; [|reflexivity].
    now rewrite (numeral_char_not_space c Hc).
Qed.

Lemma lstrip_numeral d : numeral_chars d = true -> lstrip d = d.
Proof.
  destruct d as [|c d]; intros H; [reflexivity|].
  simpl in H. apply andb_true_iff in H. destruct H as [Hc _].
  simpl. now rewrite (numeral_char_not_space c Hc).
Qed.

Lemma strip_line_str z : strip (line (str z)) = str z.
Proof.
  unfold strip. rewrite rstrip_line by apply numeral_chars_str.
  apply lstrip_numeral, numeral_chars_str.
Qed.

Lemma py_int_digits d :
  d <> Decimal.Nil ->
  match NilEmpty.string_of_uint d with
  | EmptyString => None
  | String c s' =>
      if (c =? "+")%char then None
      else if (c =? "-")%char then None
      else option_map (fun d => Z.of_int (Decimal.Pos d))
                      (NilEmpty.uint_of_string (String c s'))
  end = Some (Z.of_int (Decimal.Pos d)).
Proof.
  intros Hd.
  pose proof (NilEmpty.usu d) as U.
  destruct d; [congruence| ..];
    cbn [NilEmpty.string_of_uint] in *; cbn [Ascii.eqb Bool.eqb];
    rewrite U; reflexivity.
Qed.

(** [int(str(z) + newline)] is [z]: what the kernel prints for an integer
    attribute parses back to that integer. *)
Lemma py_int_line_str z : py_int (line (str z)) = Some z.
Proof.
  unfold py_int. rewrite strip_line_str.
  rewrite <- (DecimalZ.of_to z) at 2.
  unfold str. destruct z as [|p|p]; [reflexivity| |].
  - cbn [Z.to_int NilZero.string_of_int].
    pose proof (DecimalPos.Unsigned.to_uint_nonnil p) as Hn.
    pose proof (py_int_digits _ Hn) as D.
    unfold NilZero.string_of_uint.
    destruct (Pos.to_uint p) eqn:E; [congruence| ..];
      cbn [NilEmpty.string_of_uint] in *; cbn [Ascii.eqb Bool.eqb] in *; exact D.
  - cbn [Z.to_int NilZero.string_of_int].
    pose proof (DecimalPos.Unsigned.to_uint_nonnil p) as Hn.
    pose proof (NilEmpty.usu (Pos.to_uint p)) as U.
    unfold NilZero.string_of_uint.
    cbn [Ascii.eqb Bool.eqb].
    destruct (Pos.to_uint p) eqn:E; [congruence| ..];
      cbn [NilEmpty.string_of_uint] in *; rewrite U; reflexivity.
Qed.

Lemma string_drop_0 s : string_drop 0 s = s.
Proof. now destruct s. Qed.

Lemma string_take_0 s : string_take 0 s = EmptyString.
Proof. now destruct s. Qed.

Lemma string_drop_app d rest : string_drop (String.length d) (d ++ rest) = rest.
Proof. induction d; simpl; [apply string_drop_0 | assumption]. Qed.

(** Writing at the start replaces a prefix and keeps the tail. *)
Lemma overwrite_start c data :
  overwrite c 0 data = data ++ string_drop (String.length data) c.
Proof. unfold overwrite. now rewrite string_take_0. Qed.

(** A text whose first character was replaced gets its leading numeral
    back when the numeral is written over the start again. *)
Lemma overwrite_restore d rest (ch : ascii) :
  (1 <= String.length d)%nat ->
  overwrite (String ch (string_drop 1 (d ++ rest))) 0 d = d ++ rest.
Proof.
  intros L. destruct d as [|a d]; [simpl in L; lia|].
  rewrite overwrite_start. simpl.
  rewrite ?string_drop_0. now rewrite string_drop_app.
Qed.

Lemma read_line_of_line d : numeral_chars d = true -> read_line (line d) = line d.
Proof.
  induction d as [|c d IH]; intros H.
  - reflexivity.
  - simpl in H. apply andb_true_iff in H. destruct H as [Hc Hd].
    unfold line in *. simpl. rewrite (numeral_char_not_nl c Hc).
    f_equal. now apply IH.
Qed.

(** Reading the line the kernel prints for [z] gives [z]. *)
Lemma py_int_read_line z : py_int (read_line (line (str z))) = Some z.
Proof.
  rewrite read_line_of_line by apply numeral_chars_str.
  apply py_int_line_str.
Qed.

(* ================================================================== *)
(** ** Open text files *)
(* ================================================================== *)

Local Close Scope string_scope.
Local Open Scope list_scope.

(** An operation performed on an open file, with the offset at which it
    took place.  The record of operations is ghost state: no method reads
    it, it only lets the theorems speak about what was done and in which
    order. *)
Inductive FileOp : Type :=
| OpSeek (offset : nat)
| OpReadline (offset : nat)
| OpWrite (offset : nat) (data : string).

(** A Python [TextIO] object: the text of the underlying file as this
    handle sees it, and the stream position.  Python keeps what [write] is
    given in the handle until [seek] or [close] flushes it; [content] is
    the text of the file with that data applied, which is what the file
    itself holds from the next [seek] on. *)
Record TextIO : Type := mkTextIO {
  name : string;
  content : string;
  pos : nat;
  ops : list FileOp
}.

Definition seek (offset : nat) (f : TextIO) : TextIO :=
  {| name := name f; content := content f; pos := offset;
     ops := ops f ++ [OpSeek offset] |}.

Definition readline (f : TextIO) : string * TextIO :=
  let l := read_line (string_drop (pos f) (content f)) in
  (l, {| name := name f; content := content f;
         pos := pos f + String.length l;
         ops := ops f ++ [OpReadline (pos f)] |}).

Definition write (data : string) (f : TextIO) : TextIO :=
  {| name := name f;
     content := overwrite (content f) (pos f) data;
     pos := pos f + String.length data;
     ops := ops f ++ [OpWrite (pos f) data] |}.

(** The kernel refreshing what a device file shows; the handle and its
    position are untouched. *)
Definition refresh (c : string) (f : TextIO) : TextIO :=
  {| name := name f; content := c; pos := pos f; ops := ops f |}.

(** The data of the writes recorded in a list of operations, oldest first. *)
Fixpoint written (l : list FileOp) : list string :=
  match l with
  | [] => []
  | OpWrite _ data :: l' => data :: written l'
  | _ :: l' => written l'
  end.

(** The device files, by path. *)
Definition FileSystem : Type := string -> option string.

Inductive OpenMode : Type := ModeR | ModeW | ModeRPlus.

(** [open(p, mode)] on a path that exists; mode ["w"] truncates. *)
Definition open_existing (p : string) (c : string) (mode : OpenMode) : TextIO :=
  {| name := p;
     content := match mode with ModeW => EmptyString | _ => c end;
     pos := 0; ops := [] |}.

(** The built-in [open]: only mode ["w"] creates a missing file, the other
    modes raise [FileNotFoundError]. *)
Definition py_open (fs : FileSystem) (path : string) (mode : OpenMode) : option TextIO :=
  match fs path, mode with
  | Some c, _ => Some (open_existing path c mode)
  | None, ModeW => Some (open_existing path EmptyString ModeW)
  | None, _ => None
  end.

(** Paths reach the core already resolved, so [_resolve_path] is the
    identity here.  A missing file ends the process ([exit(1)]). *)
Definition resolve_and_validate_path (fs : FileSystem) (path : string) (mode : OpenMode)
  : option TextIO :=
  match fs path with
  | None => None
  | Some _ => py_open fs path mode
  end.

Notation "x <- e ;; k" :=
  (match e with Some x => k | None => None end)
  (at level 61, e at next level, right associativity, only parsing).
Notation "' p <- e ;; k" :=
  (match e with Some p => k | None => None end)
  (at level 61, p pattern, e at next level, right associativity, only parsing).

(* ================================================================== *)
(** ** [PWMMode] and [PWMConfiguration] *)
(* ================================================================== *)

Inductive PWMMode : Type := MANUAL | AUTO.

Definition PWMMode_value (m : PWMMode) : Z :=
  match m with MANUAL => 1 | AUTO => 5 end.

(** [str(mode)] for a member of the [IntEnum]. *)
Definition PWMMode_str (m : PWMMode) : string := str (PWMMode_value m).

Module PWMConfiguration.

Record t : Type := mk {
  minimum : Z;
  maximum : Z;
  fan_stop : Z;
  fan_start : Z
}.

(** The ["pwm"] object of the configuration file. *)
Record json : Type := mk_json {
  data_minimum : Z;
  data_maximum : Z;
  data_fan_stop : Z;
  data_fan_start : Z
}.

Definition from_json (data : json) : t :=
  mk (pwm_clamp (data_minimum data))
     (pwm_clamp (data_maximum data))
     (pwm_clamp (data_fan_stop data))
     (pwm_clamp (data_fan_start data)).

End PWMConfiguration.

(* ================================================================== *)
(** ** [collections.deque] with a maximum length, and [statistics.mean] *)
(* ================================================================== *)

Record deque : Type := mk_deque {
  items : list Z;
  maxlen : nat
}.

Definition deque_new (n : nat) : deque := mk_deque [] n.

(** [d.append(x)]: the item goes in at the right; a deque longer than its
    maximum drops one item at the left. *)
Definition deque_append (d : deque) (x : Z) : deque :=
  let l := items d ++ [x] in
  mk_deque (if (maxlen d <? List.length l)%nat then tl l else l) (maxlen d).

Definition sum (l : list Z) : Z := fold_right Z.add 0 l.

(** [statistics.mean]: [StatisticsError] on no data, else the quotient of
    the sum by the count, which the library computes exactly before it
    converts it. *)
Definition mean (l : list Z) : option Q :=
  match l with
  | [] => None
  | _ => Some (sum l # Pos.of_nat (List.length l))%Q
  end.

(* ================================================================== *)
(** ** [TemperatureConfiguration] *)
(* ================================================================== *)

Module TemperatureConfiguration.

Record t : Type := mk {
  input : TextIO;
  minimum : Z;
  maximum : Z;
  previous_temperatures : deque
}.

(** The generated [__init__] followed by [__post_init__]: [deque] refuses
    a negative maximum length with [ValueError], and one that does not fit
    the signed machine word, from [2 ^ 63] on in a 64-bit interpreter,
    with [OverflowError]. *)
Definition __post_init__ (input : TextIO) (minimum maximum average : Z) : option t :=
  if (average <? 0) || (2 ^ 63 <=? average) then None
  else Some (mk input minimum maximum (deque_new (Z.to_nat average))).

(** The ["temperature"] object of the configuration file. *)
Record json : Type := mk_json {
  data_input : string;
  data_minimum : Z;
  data_maximum : Z
}.

Definition from_json (fs : FileSystem) (data : json) (average : Z) : option t :=
  f <- resolve_and_validate_path fs (data_input data) ModeR ;;
  __post_init__ f (data_minimum data) (data_maximum data) average.

(** [int(int(line) / 1000)]: the float quotient is truncated towards zero,
    which for the magnitudes a sensor shows (below [2 ^ 53]) is the
    integer quotient truncated towards zero. *)
Definition _read_temperature (self : t) : option (Z * t) :=
  let '(l, f) := readline (seek 0 (input self)) in
  raw <- py_int l ;;
  Some (Z.quot raw 1000,
        mk f (minimum self) (maximum self) (previous_temperatures self)).

Definition get_temperature (self : t) : option (Z * t) :=
  '(r, self1) <- _read_temperature self ;;
  let d := deque_append (previous_temperatures self1) r in
  m <- mean (items d) ;;
  Some (py_round m, mk (input self1) (minimum self1) (maximum self1) d).

Definition delta (self : t) : Z := maximum self - minimum self.

(** The sensor showing a new value. *)
Definition sensor_shows (c : string) (self : t) : t :=
  mk (refresh c (input self)) (minimum self) (maximum self)
     (previous_temperatures self).

End TemperatureConfiguration.

(* ================================================================== *)
(** ** [FanConfiguration] *)
(* ================================================================== *)

Module FanConfiguration.

Record t : Type := mk {
  pwm_file : TextIO;
  fan_input : option TextIO;
  temperature : TemperatureConfiguration.t;
  pwm : PWMConfiguration.t;
  mode_file : TextIO;
  is_running : bool;
  original_mode : Z
}.

Definition with_pwm_file (self : t) (f : TextIO) : t :=
  mk f (fan_input self) (temperature self) (pwm self)
     (mode_file self) (is_running self) (original_mode self).

Definition with_fan_input (self : t) (f : TextIO) : t :=
  mk (pwm_file self) (Some f) (temperature self) (pwm self)
     (mode_file self) (is_running self) (original_mode self).

Definition with_temperature (self : t) (tc : TemperatureConfiguration.t) : t :=
  mk (pwm_file self) (fan_input self) tc (pwm self)
     (mode_file self) (is_running self) (original_mode self).

Definition with_mode_file (self : t) (f : TextIO) : t :=
  mk (pwm_file self) (fan_input self) (temperature self) (pwm self)
     f (is_running self) (original_mode self).

Definition with_is_running (self : t) (b : bool) : t :=
  mk (pwm_file self) (fan_input self) (temperature self) (pwm self)
     (mode_file self) b (original_mode self).

(** The generated [__init__] followed by [__post_init__]: the mode file
    is the PWM file's path with [_enable] appended; its integer is read
    between two seeks to the start. *)
Definition __post_init__ (fs : FileSystem) (pwm_file : TextIO) (fan_input : option TextIO)
    (temperature : TemperatureConfiguration.t) (pwm : PWMConfiguration.t) : option t :=
  mf <- py_open fs (name pwm_file ++ "_enable")%string ModeRPlus ;;
  let '(l, mf1) := readline (seek 0 mf) in
  m <- py_int l ;;
  Some (mk pwm_file fan_input temperature pwm (seek 0 mf1) true m).

(** One entry of the ["controls"] object of the configuration file. *)
Record json : Type := mk_json {
  data_fan_input : option string;
  data_temperature : TemperatureConfiguration.json;
  data_average : Z;
  data_pwm : PWMConfiguration.json
}.

Definition from_json (fs : FileSystem) (data : json) (pwm_file : string) : option t :=
  pf <- resolve_and_validate_path fs pwm_file ModeW ;;
  fi <- match data_fan_input data with
        | Some p => option_map Some (resolve_and_validate_path fs p ModeR)
        | None => Some None
        end ;;
  tc <- TemperatureConfiguration.from_json fs (data_temperature data) (data_average data) ;;
  __post_init__ fs pf fi tc (PWMConfiguration.from_json (data_pwm data)).

Definition set_mode (mode : PWMMode) (self : t) : t :=
  with_mode_file self (seek 0 (write (PWMMode_str mode) (mode_file self))).

Definition write_pwm (pwm : Z) (self : t) : t :=
  with_pwm_file self (write (str pwm) (seek 0 (pwm_file self))).

(** Without a fan input the attribute is [None] and the call raises. *)
Definition read_fan_input (self : t) : option (Z * t) :=
  fi <- fan_input self ;;
  let '(l, fi1) := readline (seek 0 fi) in
  v <- py_int l ;;
  Some (v, with_fan_input self fi1).

(** The division raises [ZeroDivisionError] when the two temperature
    bounds coincide; the sample has been taken by then. *)
Definition get_temperature_percentage (self : t) : option (Q * t) :=
  '(temp, tc) <- TemperatureConfiguration.get_temperature (temperature self) ;;
  if (TemperatureConfiguration.delta tc =? 0)%Z then None
  else Some ((inject_Z (temp - TemperatureConfiguration.minimum tc)
              / inject_Z (TemperatureConfiguration.delta tc))%Q,
             with_temperature self tc).

Definition get_current_pwm (self : t) : option (Z * t) :=
  '(p, self1) <- get_temperature_percentage self ;;
  Some (clamped_linear_interpolation
          (PWMConfiguration.minimum (pwm self1))
          (PWMConfiguration.maximum (pwm self1)) p,
        self1).

Definition shutdown (self : t) : t :=
  with_is_running
    (with_mode_file self (seek 0 (write (str (original_mode self)) (mode_file self))))
    false.

(** The sensor of this fan showing a new value. *)
Definition sensor_shows (c : string) (self : t) : t :=
  with_temperature self (TemperatureConfiguration.sensor_shows c (temperature self)).

End FanConfiguration.

(* ================================================================== *)
(** ** [Configuration] and the signal handler of [main] *)
(* ================================================================== *)

Module Configuration.

Record t : Type := mk {
  interval : Q;
  controls : list FanConfiguration.t
}.

Record json : Type := mk_json {
  data_interval : Q;
  data_controls : list (string * FanConfiguration.json)
}.

Fixpoint controls_from_json (fs : FileSystem) (l : list (string * FanConfiguration.json))
  : option (list FanConfiguration.t) :=
  match l with
  | [] => Some []
  | (pwm_file, pwm_config) :: l' =>
      c <- FanConfiguration.from_json fs pwm_config pwm_file ;;
      cs <- controls_from_json fs l' ;;
      Some (c :: cs)
  end.

Definition from_json (fs : FileSystem) (data : json) : option t :=
  cs <- controls_from_json fs (data_controls data) ;;
  Some (mk (data_interval data) cs).

End Configuration.





(* ================================================================== *)
(** ** Sequences of method calls on one fan *)
(* ================================================================== *)

(** What can happen to a [FanConfiguration] after its construction: a call
    of one of its methods, or the sensor showing a new temperature. *)
Inductive Call : Type :=
| CallSetMode (mode : PWMMode)
| CallWritePwm (pwm : Z)
| CallReadFanInput
| CallGetTemperaturePercentage
| CallGetCurrentPwm
| CallShutdown
| SensorShows (c : string).

(** The object after the call, or [None] when the call raises. *)
Definition call (c : Call) (self : FanConfiguration.t) : option FanConfiguration.t :=
  match c with
  | CallSetMode mode => Some (FanConfiguration.set_mode mode self)
  | CallWritePwm pwm => Some (FanConfiguration.write_pwm pwm self)
  | CallReadFanInput => option_map snd (FanConfiguration.read_fan_input self)
  | CallGetTemperaturePercentage =>
      option_map snd (FanConfiguration.get_temperature_percentage self)
  | CallGetCurrentPwm => option_map snd (FanConfiguration.get_current_pwm self)
  | CallShutdown => Some (FanConfiguration.shutdown self)
  | SensorShows c => Some (FanConfiguration.sensor_shows c self)
  end.

Fixpoint calls (l : list Call) (self : FanConfiguration.t) : option FanConfiguration.t :=
  match l with
  | [] => Some self
  | c :: l' => self1 <- call c self ;; calls l' self1
  end.

(* ================================================================== *)
(** ** [FanConfiguration.run] against the signal handler *)
(* ================================================================== *)

(** [run] executes on a thread of its own while the handler calls
    [shutdown] on the main thread.  The loop is cut at its statements: the
    call of [set_mode], the test of [is_running], the body's
    [write_pwm(get_current_pwm())], and the end of [sleep].  A schedule
    decides who moves next; a method call is one move. *)

Inductive Thread : Type := Loop | Handler.

Inductive Device : Type := DevMode | DevPwm | DevTemperature.

Inductive Event : Type :=
| EvIO (who : Thread) (dev : Device) (op : FileOp)
| EvTest (running : bool)
| EvSleep
| EvRaise
| EvStopped.

(** Where the thread running [run] stands. *)
Inductive RunPC : Type :=
| AtEntry      (* before [set_mode(PWMMode.MANUAL)] *)
| AtTest       (* at [while self.is_running] *)
| InBody       (* the test passed, before the body *)
| Sleeping     (* inside [sleep(interval)] *)
| Returned     (* the loop has ended *)
| Raised.      (* an exception ended the thread *)

Record World : Type := mkWorld {
  fan : FanConfiguration.t;
  pc : RunPC;
  trace : list Event
}.

Inductive Actor : Type :=
| ALoop
| AHandler
| ASensor (c : string).

(** The operations a handle has recorded since an earlier state of it. *)
Definition new_ops (before after : TextIO) : list FileOp :=
  skipn (List.length (ops before)) (ops after).

(** [FanConfiguration.run], one statement at a time. *)
Definition run_step (w : World) : World :=
  let f := fan w in
  match pc w with
  | AtEntry =>
      let f1 := FanConfiguration.set_mode MANUAL f in
      mkWorld f1 AtTest
        (trace w ++ map (EvIO Loop DevMode)
           (new_ops (FanConfiguration.mode_file f) (FanConfiguration.mode_file f1)))
  | AtTest =>
      mkWorld f (if FanConfiguration.is_running f then InBody else Returned)
        (trace w ++ [EvTest (FanConfiguration.is_running f)])
  | InBody =>
      match FanConfiguration.get_current_pwm f with
      | None => mkWorld f Raised (trace w ++ [EvRaise])
      | Some (p, f1) =>
          let f2 := FanConfiguration.write_pwm p f1 in
          mkWorld f2 Sleeping
            (trace w
             ++ map (EvIO Loop DevTemperature)
                  (new_ops (TemperatureConfiguration.input (FanConfiguration.temperature f))
                           (TemperatureConfiguration.input (FanConfiguration.temperature f1)))
             ++ map (EvIO Loop DevPwm)
                  (new_ops (FanConfiguration.pwm_file f1) (FanConfiguration.pwm_file f2)))
      end
  | Sleeping => mkWorld f AtTest (trace w ++ [EvSleep])
  | Returned => w
  | Raised => w
  end.

(** The handler's call of [shutdown] on this fan. *)
Definition handler_step (w : World) : World :=
  let f := fan w in
  let f1 := FanConfiguration.shutdown f in
  mkWorld f1 (pc w)
    (trace w
     ++ map (EvIO Handler DevMode)
          (new_ops (FanConfiguration.mode_file f) (FanConfiguration.mode_file f1))
     ++ [EvStopped]).

Definition step (a : Actor) (w : World) : World :=
  match a with
  | ALoop => run_step w
  | AHandler => handler_step w
  | ASensor c => mkWorld (FanConfiguration.sensor_shows c (fan w)) (pc w) (trace w)
  end.

Fixpoint run_schedule (sched : list Actor) (w : World) : World :=
  match sched with
  | [] => w
  | a :: sched' => run_schedule sched' (step a w)
  end.

(** The thread has just been started on [run]. *)
Definition start (f : FanConfiguration.t) : World := mkWorld f AtEntry [].

Definition is_pwm_write (e : Event) : bool :=
  match e with
  | EvIO _ DevPwm (OpWrite _ _) => true
  | _ => false
  end.

Definition is_sleep (e : Event) : bool :=
  match e with
  | EvSleep => true
  | _ => false
  end.

Definition is_loop_move (a : Actor) : bool :=
  match a with
  | ALoop => true
  | _ => false
  end.

Definition count {A : Type} (p : A -> bool) (l : list A) : nat :=
  List.length (filter p l).

(** The writes of the loop thread, oldest first: device and data. *)
Fixpoint loop_writes (tr : list Event) : list (Device * string) :=
  match tr with
  | [] => []
  | EvIO Loop dev (OpWrite _ data) :: tr' => (dev, data) :: loop_writes tr'
  | _ :: tr' => loop_writes tr'
  end.

Definition is_DevPwm (d : Device) : bool :=
  match d with
  | DevPwm => true
  | _ => false
  end.

(* ================================================================== *)
(** ** A concrete machine to evaluate on *)
(* ================================================================== *)

Module Demo.

Definition pwm_path : string := "/sys/class/hwmon/hwmon2/pwm1"%string.
Definition temp_path : string := "/sys/class/hwmon/hwmon1/temp1_input"%string.

(** A file system in which the PWM attribute shows [128], its mode
    attribute shows [mode] and the sensor shows [millidegrees]. *)
Definition fs (mode millidegrees : Z) : FileSystem :=
  fun p =>
    if String.eqb p pwm_path then Some (line (str 128))
    else if String.eqb p (pwm_path ++ "_enable")%string then Some (line (str mode))
    else if String.eqb p temp_path then Some (line (str millidegrees))
    else None.

(** Temperatures from 20 to 80 degrees mapped to duty cycles from 50 to
    255, over a window of [average] samples. *)
Definition fan_json (average : Z) : FanConfiguration.json :=
  FanConfiguration.mk_json None
    (TemperatureConfiguration.mk_json temp_path 20 80)
    average
    (PWMConfiguration.mk_json 50 255 0 0).

Definition fan_from (mode millidegrees average : Z) : option FanConfiguration.t :=
  FanConfiguration.from_json (fs mode millidegrees) (fan_json average) pwm_path.

End Demo.

(* ================================================================== *)
(** ** What the methods leave alone *)
(* ================================================================== *)

Lemma get_temperature_percentage_inv self p self1 :
  FanConfiguration.get_temperature_percentage self = Some (p, self1) ->
  exists temp tc,
    TemperatureConfiguration.get_temperature (FanConfiguration.temperature self)
      = Some (temp, tc)
    /\ TemperatureConfiguration.delta tc <> 0
    /\ p = (inject_Z (temp - TemperatureConfiguration.minimum tc)
            / inject_Z (TemperatureConfiguration.delta tc))%Q
    /\ self1 = FanConfiguration.with_temperature self tc.
Proof.
  unfold FanConfiguration.get_temperature_percentage.
  destruct (TemperatureConfiguration.get_temperature _) as [[temp tc]|]; [|discriminate].
  destruct (Z.eqb_spec (TemperatureConfiguration.delta tc) 0); [discriminate|].
  intros [= <- <-]. now exists temp, tc.
Qed.

Lemma get_current_pwm_inv self v self1 :
  FanConfiguration.get_current_pwm self = Some (v, self1) ->
  exists p,
    FanConfiguration.get_temperature_percentage self = Some (p, self1)
    /\ v = clamped_linear_interpolation
             (PWMConfiguration.minimum (FanConfiguration.pwm self))
             (PWMConfiguration.maximum (FanConfiguration.pwm self)) p.
Proof.
  unfold FanConfiguration.get_current_pwm.
  destruct (FanConfiguration.get_temperature_percentage self) as [[p f1]|] eqn:E;
    [|discriminate].
  intros [= <- <-]. exists p. split; [reflexivity|].
  apply get_temperature_percentage_inv in E.
  destruct E as (temp & tc & _ & _ & _ & ->). reflexivity.
Qed.

Lemma read_fan_input_inv self v self1 :
  FanConfiguration.read_fan_input self = Some (v, self1) ->
  exists fi, self1 = FanConfiguration.with_fan_input self fi.
Proof.
  unfold FanConfiguration.read_fan_input.
  destruct (FanConfiguration.fan_input self) as [fi|]; [|discriminate].
  destruct (readline (seek 0 fi)) as [l fi1].
  destruct (py_int l); [|discriminate].
  intros [= <- <-]. now exists fi1.
Qed.

(** Every call is one of seven shapes of record update. *)
Lemma call_shape c self self1 :
  call c self = Some self1 ->
  (exists mode, c = CallSetMode mode /\ self1 = FanConfiguration.set_mode mode self)
  \/ (c = CallShutdown /\ self1 = FanConfiguration.shutdown self)
  \/ (exists f, self1 = FanConfiguration.with_pwm_file self f)
  \/ (exists f, self1 = FanConfiguration.with_fan_input self f)
  \/ (exists tc, self1 = FanConfiguration.with_temperature self tc).
Proof.
  destruct c; simpl; intros H.
  - injection H as <-. left. now exists mode.
  - injection H as <-. right; right; left. now eexists.
  - destruct (FanConfiguration.read_fan_input self) as [[v f]|] eqn:E; [|discriminate].
    injection H as <-. apply read_fan_input_inv in E.
    right; right; right; left. exact E.
  - destruct (FanConfiguration.get_temperature_percentage self) as [[v f]|] eqn:E;
      [|discriminate].
    injection H as <-. apply get_temperature_percentage_inv in E.
    destruct E as (temp & tc & _ & _ & _ & ->).
    right; right; right; right. now exists tc.
  - destruct (FanConfiguration.get_current_pwm self) as [[v f]|] eqn:E; [|discriminate].
    injection H as <-. apply get_current_pwm_inv in E.
    destruct E as (p & E & _). apply get_temperature_percentage_inv in E.
    destruct E as (temp & tc & _ & _ & _ & ->).
    right; right; right; right. now exists tc.
  - injection H as <-. right; left. now split.
  - injection H as <-. right; right; right; right. now eexists.
Qed.

Lemma call_pwm c self self1 :
  call c self = Some self1 -> FanConfiguration.pwm self1 = FanConfiguration.pwm self.
Proof.
  intros H. apply call_shape in H.
  destruct H as [(m & _ & ->)|[(_ & ->)|[(f & ->)|[(f & ->)|(tc & ->)]]]]; reflexivity.
Qed.

Lemma call_original_mode c self self1 :
  call c self = Some self1 ->
  FanConfiguration.original_mode self1 = FanConfiguration.original_mode self.
Proof.
  intros H. apply call_shape in H.
  destruct H as [(m & _ & ->)|[(_ & ->)|[(f & ->)|[(f & ->)|(tc & ->)]]]]; reflexivity.
Qed.

Lemma calls_pwm l : forall self self1,
  calls l self = Some self1 -> FanConfiguration.pwm self1 = FanConfiguration.pwm self.
Proof.
  induction l as [|c l IH]; simpl; intros self self1 H.
  - now injection H as <-.
  - destruct (call c self) as [f|] eqn:E; [|discriminate].
    rewrite (IH _ _ H). now apply call_pwm in E.
Qed.

Lemma calls_original_mode l : forall self self1,
  calls l self = Some self1 ->
  FanConfiguration.original_mode self1 = FanConfiguration.original_mode self.
Proof.
  induction l as [|c l IH]; simpl; intros self self1 H.
  - now injection H as <-.
  - destruct (call c self) as [f|] eqn:E; [|discriminate].
    rewrite (IH _ _ H). now apply call_original_mode in E.
Qed.

Lemma post_init_inv fs pf fi tc pw self :
  FanConfiguration.__post_init__ fs pf fi tc pw = Some self ->
  exists c m,
    fs (name pf ++ "_enable")%string = Some c
    /\ py_int (read_line c) = Some m
    /\ self = FanConfiguration.mk pf fi tc pw
         (mkTextIO (name pf ++ "_enable")%string c 0
                   [OpSeek 0; OpReadline 0; OpSeek 0])
         true m.
Proof.
  unfold FanConfiguration.__post_init__, py_open.
  destruct (fs _) as [c|]; [|discriminate].
  cbn -[py_int]. rewrite ?string_drop_0.
  destruct (py_int (read_line c)) as [m|] eqn:E; [|discriminate].
  intros [= <-]. exists c, m. repeat split. exact E.
Qed.

Lemma from_json_inv fs data pwm_file self :
  FanConfiguration.from_json fs data pwm_file = Some self ->
  exists pf fi tc,
    FanConfiguration.__post_init__ fs pf fi tc
      (PWMConfiguration.from_json (FanConfiguration.data_pwm data)) = Some self
    /\ name pf = pwm_file.
Proof.
  unfold FanConfiguration.from_json, resolve_and_validate_path, py_open.
  destruct (fs pwm_file) as [c|]; [|discriminate].
  destruct (match FanConfiguration.data_fan_input data with
            | Some p => _ | None => _ end) as [fi|]; [|discriminate].
  destruct (TemperatureConfiguration.from_json _ _ _) as [tc|]; [|discriminate].
  intros H. eexists _, fi, tc. split; [exact H | reflexivity].
Qed.

(* ================================================================== *)
(** ** The target duty cycle *)
(* ================================================================== *)

Lemma pwm_clamp_clamp a l h :
  0 <= l <= 255 -> 0 <= h <= 255 -> pwm_clamp (clamp a l h) = clamp a l h.
Proof.
  intros Hl Hh. apply pwm_clamp_id. unfold clamp.
  destruct (Z.ltb_spec a l); [lia|].
  destruct (Z.ltb_spec h a); lia.
Qed.

Lemma from_json_pwm_range data :
  let p := PWMConfiguration.from_json data in
  0 <= PWMConfiguration.minimum p <= 255 /\ 0 <= PWMConfiguration.maximum p <= 255.
Proof. simpl. split; apply pwm_clamp_range. Qed.

(** With both bounds inside the hardware range, the extra [pwm_clamp] of
    the spec changes nothing. *)
Lemma get_current_pwm_clamped_bounds self :
  0 <= PWMConfiguration.minimum (FanConfiguration.pwm self) <= 255 ->
  0 <= PWMConfiguration.maximum (FanConfiguration.pwm self) <= 255 ->
  FanConfiguration.get_current_pwm self
  = match FanConfiguration.get_temperature_percentage self with
    | Some (p, self1) =>
        Some (pwm_clamp (clamped_linear_interpolation
                           (PWMConfiguration.minimum (FanConfiguration.pwm self))
                           (PWMConfiguration.maximum (FanConfiguration.pwm self)) p),
              self1)
    | None => None
    end.
Proof.
  intros Hl Hh. unfold FanConfiguration.get_current_pwm.
  destruct (FanConfiguration.get_temperature_percentage self) as [[p f1]|] eqn:E;
    [|reflexivity].
  apply get_temperature_percentage_inv in E.
  destruct E as (temp & tc & _ & _ & _ & ->). cbn [FanConfiguration.pwm FanConfiguration.with_temperature].
  unfold clamped_linear_interpolation. now rewrite pwm_clamp_clamp.
Qed.

(** C1, as worded, fails: [get_current_pwm] applies no [pwm_clamp].  A
    fan constructed directly, [FanConfiguration(pwm_file, None,
    temperature, PWMConfiguration(300, 400, 0, 0))], with its sensor at 50
    degrees in a range of 20 to 80, returns 350, where the worded result
    [pwm_clamp] of the interpolation is 255. *)
Lemma get_current_pwm_unclamped_counterexample :
  exists self,
    FanConfiguration.__post_init__ (Demo.fs 5 50000)
      (open_existing Demo.pwm_path EmptyString ModeW) None
      (TemperatureConfiguration.mk
         (open_existing Demo.temp_path (line (str 50000)) ModeR) 20 80 (deque_new 3))
      (PWMConfiguration.mk 300 400 0 0)
    = Some self
    /\ option_map fst (FanConfiguration.get_current_pwm self) = Some 350
    /\ option_map
         (fun r => pwm_clamp (clamped_linear_interpolation
                                (PWMConfiguration.minimum (FanConfiguration.pwm self))
                                (PWMConfiguration.maximum (FanConfiguration.pwm self))
                                (fst r)))
         (FanConfiguration.get_temperature_percentage self)
       = Some 255
    /\ FanConfiguration.get_current_pwm self
       <> match FanConfiguration.get_temperature_percentage self with
          | Some (p, self1) =>
              Some (pwm_clamp (clamped_linear_interpolation
                                 (PWMConfiguration.minimum (FanConfiguration.pwm self))
                                 (PWMConfiguration.maximum (FanConfiguration.pwm self)) p),
                    self1)
          | None => None
          end.
Proof.
  eexists. split; [vm_compute; reflexivity|].
  split; [vm_compute; reflexivity|].
  split; [vm_compute; reflexivity|].
  intros E. apply (f_equal (option_map fst)) in E.
  vm_compute in E. discriminate E.
Qed.

(** C1, amended. For every fan built from its configuration entry, at any
    later point of its life: both PWM bounds lie in [0, 255], because
    [PWMConfiguration.from_json] has clamped them; [get_current_pwm]
    returns the clamped linear interpolation between the two bounds by the
    fraction [get_temperature_percentage] returns, and raises exactly when
    that call raises; the value returned lies in [0, 255], so that it
    equals [pwm_clamp] of the interpolation although the method itself
    applies no [pwm_clamp]. *)
Theorem get_current_pwm_is_pwm_clamped
    (fs : FileSystem) (data : FanConfiguration.json) (pwm_file : string)
    (self0 : FanConfiguration.t) (l : list Call) (self : FanConfiguration.t) :
  FanConfiguration.from_json fs data pwm_file = Some self0 ->
  calls l self0 = Some self ->
  (0 <= PWMConfiguration.minimum (FanConfiguration.pwm self) <= 255
   /\ 0 <= PWMConfiguration.maximum (FanConfiguration.pwm self) <= 255)
  /\ FanConfiguration.get_current_pwm self
     = match FanConfiguration.get_temperature_percentage self with
       | Some (p, self1) =>
           Some (pwm_clamp (clamped_linear_interpolation
                              (PWMConfiguration.minimum (FanConfiguration.pwm self))
                              (PWMConfiguration.maximum (FanConfiguration.pwm self)) p),
                 self1)
       | None => None
       end
  /\ (forall v self1,
        FanConfiguration.get_current_pwm self = Some (v, self1) ->
        0 <= v <= 255
        /\ exists p,
            FanConfiguration.get_temperature_percentage self = Some (p, self1)
            /\ v = clamped_linear_interpolation
                     (PWMConfiguration.minimum (FanConfiguration.pwm self))
                     (PWMConfiguration.maximum (FanConfiguration.pwm self)) p).
Proof.
  intros Hb Hc.
  apply from_json_inv in Hb. destruct Hb as (pf & fi & tc & Hp & _).
  apply post_init_inv in Hp. destruct Hp as (c & m & _ & _ & ->).
  apply calls_pwm in Hc. cbn [FanConfiguration.pwm] in Hc.
  destruct (from_json_pwm_range (FanConfiguration.data_pwm data)) as [Hl Hh].
  rewrite <- Hc in Hl, Hh.
  pose proof (get_current_pwm_clamped_bounds self Hl Hh) as E.
  split; [split; assumption|]. split; [exact E|].
  intros v self1 G. rewrite G in E.
  destruct (FanConfiguration.get_temperature_percentage self) as [[p f1]|];
    [|discriminate E].
  injection E as Ev Ef. subst f1.
  split; [rewrite Ev; apply pwm_clamp_range|].
  exists p. split; [reflexivity|].
  rewrite Ev. unfold clamped_linear_interpolation. now apply pwm_clamp_clamp.
Qed.

Lemma get_current_pwm_is_pwm_clamped_witness :
  let data :=
    FanConfiguration.mk_json None
      (TemperatureConfiguration.mk_json Demo.temp_path 20 80) 3
      (PWMConfiguration.mk_json (-20) 400 0 0) in
  exists self0 self,
    FanConfiguration.from_json (Demo.fs 5 95000) data Demo.pwm_path = Some self0
    /\ calls [CallSetMode MANUAL; CallGetCurrentPwm; SensorShows (line (str 52500))] self0
       = Some self
    /\ PWMConfiguration.minimum (FanConfiguration.pwm self) = 0
    /\ PWMConfiguration.maximum (FanConfiguration.pwm self) = 255
    /\ option_map fst (FanConfiguration.get_current_pwm self) = Some 230
    /\ forall v self1,
        FanConfiguration.get_current_pwm self = Some (v, self1) -> 0 <= v <= 255.
Proof.
  cbv zeta. eexists. eexists.
  split; [vm_compute; reflexivity|].
  split; [vm_compute; reflexivity|].
  split; [vm_compute; reflexivity|].
  split; [vm_compute; reflexivity|].
  split; [vm_compute; reflexivity|].
  intros v self1 G.
  refine (proj1 (proj2 (proj2
            (get_current_pwm_is_pwm_clamped
               (Demo.fs 5 95000)
               (FanConfiguration.mk_json None
                  (TemperatureConfiguration.mk_json Demo.temp_path 20 80) 3
                  (PWMConfiguration.mk_json (-20) 400 0 0))
               Demo.pwm_path _
               [CallSetMode MANUAL; CallGetCurrentPwm; SensorShows (line (str 52500))]
               _ _ _)) v self1 G));
    vm_compute; reflexivity.
Defined.

(* ================================================================== *)
(** ** The mode file: cursor, restoration, frame *)
(* ================================================================== *)

Lemma new_ops_app f l f' : ops f' = ops f ++ l -> new_ops f f' = l.
Proof.
  intros E. unfold new_ops. rewrite E.
  rewrite skipn_app, skipn_all, Nat.sub_diag. reflexivity.
Qed.

Lemma new_ops_write_seek data f :
  new_ops f (seek 0 (write data f)) = [OpWrite (pos f) data; OpSeek 0].
Proof. apply new_ops_app. simpl. now rewrite <- app_assoc. Qed.

Lemma new_ops_seek_write data f :
  new_ops f (write data (seek 0 f)) = [OpSeek 0; OpWrite 0 data].
Proof. apply new_ops_app. simpl. now rewrite <- app_assoc. Qed.

(** A property of the fan that construction establishes and that every
    call keeps holds at every later point. *)
Lemma calls_invariant (P : FanConfiguration.t -> Prop) :
  (forall c self self1, P self -> call c self = Some self1 -> P self1) ->
  forall l self self1, P self -> calls l self = Some self1 -> P self1.
Proof.
  intros Hstep. induction l as [|c l IH]; simpl; intros self self1 HP H.
  - now injection H as <-.
  - destruct (call c self) as [f|] eqn:E; [|discriminate].
    eapply IH; [|exact H]. eapply Hstep; eassumption.
Qed.

Definition mode_cursor_at_start (self : FanConfiguration.t) : Prop :=
  pos (FanConfiguration.mode_file self) = 0%nat.

Lemma call_mode_cursor c self self1 :
  mode_cursor_at_start self -> call c self = Some self1 -> mode_cursor_at_start self1.
Proof.
  unfold mode_cursor_at_start. intros HP H. apply call_shape in H.
  destruct H as [(m & _ & ->)|[(_ & ->)|[(f & ->)|[(f & ->)|(tc & ->)]]]];
    simpl; auto.
Qed.

Lemma built_mode_cursor fs data pwm_file self :
  FanConfiguration.from_json fs data pwm_file = Some self -> mode_cursor_at_start self.
Proof.
  intros H. apply from_json_inv in H. destruct H as (pf & fi & tc & H & _).
  apply post_init_inv in H. destruct H as (c & m & _ & _ & ->). reflexivity.
Qed.

(** C9. From construction on, after any sequence of method calls, the
    cursor of the mode file stands at offset 0; [set_mode] and [shutdown]
    each write and then seek to 0, so the write of [shutdown], which comes
    before its seek, lands at offset 0 and replaces the start of the file. *)
Theorem mode_file_cursor_invariant
    (fs : FileSystem) (data : FanConfiguration.json) (pwm_file : string)
    (self0 : FanConfiguration.t) (l : list Call) (self : FanConfiguration.t) :
  FanConfiguration.from_json fs data pwm_file = Some self0 ->
  calls l self0 = Some self ->
  pos (FanConfiguration.mode_file self) = 0%nat
  /\ (forall mode,
        new_ops (FanConfiguration.mode_file self)
                (FanConfiguration.mode_file (FanConfiguration.set_mode mode self))
        = [OpWrite 0 (PWMMode_str mode); OpSeek 0])
  /\ new_ops (FanConfiguration.mode_file self)
             (FanConfiguration.mode_file (FanConfiguration.shutdown self))
     = [OpWrite 0 (str (FanConfiguration.original_mode self)); OpSeek 0]
  /\ content (FanConfiguration.mode_file (FanConfiguration.shutdown self))
     = (str (FanConfiguration.original_mode self)
        ++ string_drop (String.length (str (FanConfiguration.original_mode self)))
             (content (FanConfiguration.mode_file self)))%string
  /\ pos (FanConfiguration.mode_file (FanConfiguration.shutdown self)) = 0%nat.
Proof.
  intros Hb Hc.
  assert (P : mode_cursor_at_start self).
  { eapply (calls_invariant mode_cursor_at_start); [| |exact Hc].
    - intros c f f1. apply call_mode_cursor.
    - eapply built_mode_cursor; exact Hb. }
  unfold mode_cursor_at_start in P.
  split; [exact P|].
  split; [intros mode; simpl; rewrite new_ops_write_seek, P; reflexivity|].
  split; [simpl; rewrite new_ops_write_seek, P; reflexivity|].
  split; [|reflexivity].
  simpl. rewrite P. apply overwrite_start.
Qed.

Lemma mode_file_cursor_invariant_witness :
  exists self0 self,
    FanConfiguration.from_json (Demo.fs 5 50000) (Demo.fan_json 3) Demo.pwm_path = Some self0
    /\ calls [CallSetMode MANUAL; CallGetCurrentPwm; CallWritePwm 152] self0 = Some self
    /\ pos (FanConfiguration.mode_file self) = 0%nat
    /\ new_ops (FanConfiguration.mode_file self)
               (FanConfiguration.mode_file (FanConfiguration.shutdown self))
       = [OpWrite 0 (str 5); OpSeek 0]
    /\ content (FanConfiguration.mode_file self) = line (str 1)
    /\ content (FanConfiguration.mode_file (FanConfiguration.shutdown self)) = line (str 5).
Proof.
  eexists. eexists.
  split; [vm_compute; reflexivity|].
  split; [vm_compute; reflexivity|].
  pose proof (mode_file_cursor_invariant
                (Demo.fs 5 50000) (Demo.fan_json 3) Demo.pwm_path _
                [CallSetMode MANUAL; CallGetCurrentPwm; CallWritePwm 152] _
                eq_refl eq_refl) as (P & _ & W & _ & _).
  split; [exact P|].
  split; [exact W|].
  split; vm_compute; reflexivity.
Defined.

(** What holds of the mode file of a fan built over a mode attribute that
    showed [m]: the cursor is at the start, [m] is remembered, and at most
    the first character of the text differs from the original. *)
Definition restorable (m : Z) (self : FanConfiguration.t) : Prop :=
  pos (FanConfiguration.mode_file self) = 0%nat
  /\ FanConfiguration.original_mode self = m
  /\ exists ch, content (FanConfiguration.mode_file self)
                = String ch (string_drop 1 (line (str m))).

Lemma PWMMode_str_one_char mode : exists ch, PWMMode_str mode = String ch EmptyString.
Proof. destruct mode; eexists; reflexivity. Qed.

Lemma line_str_cons m : exists ch, line (str m) = String ch (string_drop 1 (line (str m))).
Proof.
  pose proof (str_nonempty m) as H. unfold line.
  destruct (str m) as [|a d]; [congruence|].
  exists a. simpl. now rewrite ?string_drop_0.
Qed.

Lemma shutdown_restorable m self :
  restorable m self ->
  content (FanConfiguration.mode_file (FanConfiguration.shutdown self)) = line (str m).
Proof.
  intros (P & O & ch & C). simpl. rewrite P, O, C.
  apply overwrite_restore, str_length_pos.
Qed.

Lemma call_restorable m c self self1 :
  restorable m self -> call c self = Some self1 -> restorable m self1.
Proof.
  intros R H. pose proof R as (P & O & ch & C).
  apply call_shape in H.
  destruct H as [(mode & _ & ->)|[(_ & ->)|[(f & ->)|[(f & ->)|(tc & ->)]]]];
    try exact R.
  - split; [reflexivity|]. split; [exact O|].
    destruct (PWMMode_str_one_char mode) as [ch' E].
    exists ch'. simpl. rewrite P, C, E, overwrite_start. simpl.
    now rewrite ?string_drop_0.
  - split; [reflexivity|]. split; [exact O|].
    rewrite (shutdown_restorable m self R). apply line_str_cons.
Qed.

Lemma built_restorable fs data pwm_file m self :
  fs (pwm_file ++ "_enable")%string = Some (line (str m)) ->
  FanConfiguration.from_json fs data pwm_file = Some self ->
  restorable m self /\ content (FanConfiguration.mode_file self) = line (str m).
Proof.
  intros Hfs H. apply from_json_inv in H. destruct H as (pf & fi & tc & H & N).
  apply post_init_inv in H. destruct H as (c & m' & Hc & Hm & ->).
  rewrite N, Hfs in Hc. injection Hc as <-.
  rewrite py_int_read_line in Hm. injection Hm as <-.
  split; [|reflexivity].
  split; [reflexivity|]. split; [reflexivity|]. apply line_str_cons.
Qed.

(** The wording of the spec for [shutdown]: reposition the cursor to the
    start first, then write the original mode, then clear the flag.  It is
    here for comparison with [FanConfiguration.shutdown] only. *)
Definition shutdown_seek_first (self : FanConfiguration.t) : FanConfiguration.t :=
  FanConfiguration.with_is_running
    (FanConfiguration.with_mode_file self
       (write (str (FanConfiguration.original_mode self))
              (seek 0 (FanConfiguration.mode_file self))))
    false.

(** The same invariant for any original text [c0] of the mode file: the
    cursor is at the start, [m] is remembered, and at most the first
    character of the text differs from [c0]. *)
Definition restorable_to (c0 : string) (m : Z) (self : FanConfiguration.t) : Prop :=
  pos (FanConfiguration.mode_file self) = 0%nat
  /\ FanConfiguration.original_mode self = m
  /\ exists ch, content (FanConfiguration.mode_file self)
                = String ch (string_drop 1 c0).

Lemma string_cons_drop (s : string) :
  s <> EmptyString -> exists ch, s = String ch (string_drop 1 s).
Proof.
  destruct s as [|a d]; [congruence|]. intros _.
  exists a. simpl. now rewrite ?string_drop_0.
Qed.

Lemma str_app_nonempty m rest : (str m ++ rest)%string <> EmptyString.
Proof.
  pose proof (str_nonempty m) as H.
  destruct (str m); [congruence | discriminate].
Qed.

Lemma shutdown_restorable_to m rest self :
  restorable_to (str m ++ rest) m self ->
  content (FanConfiguration.mode_file (FanConfiguration.shutdown self))
  = (str m ++ rest)%string.
Proof.
  intros (P & O & ch & C). simpl. rewrite P, O, C.
  apply overwrite_restore, str_length_pos.
Qed.

Lemma call_restorable_to m rest c self self1 :
  restorable_to (str m ++ rest) m self -> call c self = Some self1 ->
  restorable_to (str m ++ rest) m self1.
Proof.
  intros R H. pose proof R as (P & O & ch & C).
  apply call_shape in H.
  destruct H as [(mode & _ & ->)|[(_ & ->)|[(f & ->)|[(f & ->)|(tc & ->)]]]];
    try exact R.
  - split; [reflexivity|]. split; [exact O|].
    destruct (PWMMode_str_one_char mode) as [ch' E].
    exists ch'. simpl. rewrite P, C, E, overwrite_start. simpl.
    now rewrite ?string_drop_0.
  - split; [reflexivity|]. split; [exact O|].
    rewrite (shutdown_restorable_to m rest self R).
    apply string_cons_drop, str_app_nonempty.
Qed.

(** What [shutdown] leaves in the mode file of a fan whose cursor is at
    the start: the numeral of the original mode, then the old text beyond
    it. *)
Lemma shutdown_content self :
  pos (FanConfiguration.mode_file self) = 0%nat ->
  content (FanConfiguration.mode_file (FanConfiguration.shutdown self))
  = (str (FanConfiguration.original_mode self)
     ++ string_drop (String.length (str (FanConfiguration.original_mode self)))
          (content (FanConfiguration.mode_file self)))%string.
Proof. intros P. simpl. rewrite P. apply overwrite_start. Qed.

(** The file system of the examples with another text in the mode file. *)
Definition fs_with_mode_text (text : string) : FileSystem :=
  fun p =>
    if String.eqb p (Demo.pwm_path ++ "_enable")%string then Some text
    else Demo.fs 5 50000 p.

(** C2, as worded, fails twice.  On the fan built over mode 5, [shutdown]
    writes first and seeks afterwards, where the claim has the seek before
    the write; the two leave the handle in different states.  And the
    text is not always what it was at construction: a mode file holding
    [05] and a newline is read as mode 5, and [shutdown] leaves [55] and a
    newline in it. *)
Lemma shutdown_seek_before_write_counterexample :
  (exists self,
     Demo.fan_from 5 50000 3 = Some self
     /\ new_ops (FanConfiguration.mode_file self)
                (FanConfiguration.mode_file (FanConfiguration.shutdown self))
        = [OpWrite 0 (str 5); OpSeek 0]
     /\ new_ops (FanConfiguration.mode_file self)
                (FanConfiguration.mode_file (shutdown_seek_first self))
        = [OpSeek 0; OpWrite 0 (str 5)]
     /\ pos (FanConfiguration.mode_file (FanConfiguration.shutdown self)) = 0%nat
     /\ pos (FanConfiguration.mode_file (shutdown_seek_first self)) = 1%nat
     /\ FanConfiguration.shutdown self <> shutdown_seek_first self)
  /\ (exists self,
        FanConfiguration.from_json (fs_with_mode_text (line "05")) (Demo.fan_json 3)
          Demo.pwm_path = Some self
        /\ FanConfiguration.original_mode self = 5
        /\ content (FanConfiguration.mode_file self) = line "05"
        /\ content (FanConfiguration.mode_file (FanConfiguration.shutdown self))
           = line "55"
        /\ content (FanConfiguration.mode_file (FanConfiguration.shutdown self))
           <> content (FanConfiguration.mode_file self)).
Proof.
  split.
  - eexists. split; [vm_compute; reflexivity|].
    repeat (split; [vm_compute; reflexivity|]).
    intros E. apply (f_equal (fun f => pos (FanConfiguration.mode_file f))) in E.
    vm_compute in E. discriminate E.
  - eexists. split; [vm_compute; reflexivity|].
    repeat (split; [vm_compute; reflexivity|]).
    vm_compute. discriminate.
Qed.

(** C2, amended. For every built fan, at any later point of its life:
    [shutdown] writes the numeral of the original mode at the cursor, which
    stands at offset 0, then seeks to 0, then clears [is_running].
    Afterwards the mode file holds again the text it held at construction
    exactly when that text began with the numeral of the mode read from
    it, as a file holding [5], with or without a newline, does. *)
Theorem shutdown_restores_mode_file
    (fs : FileSystem) (data : FanConfiguration.json) (pwm_file : string)
    (self0 : FanConfiguration.t) (l : list Call) (self : FanConfiguration.t) :
  FanConfiguration.from_json fs data pwm_file = Some self0 ->
  calls l self0 = Some self ->
  FanConfiguration.original_mode self = FanConfiguration.original_mode self0
  /\ new_ops (FanConfiguration.mode_file self)
             (FanConfiguration.mode_file (FanConfiguration.shutdown self))
     = [OpWrite 0 (str (FanConfiguration.original_mode self0)); OpSeek 0]
  /\ FanConfiguration.is_running (FanConfiguration.shutdown self) = false
  /\ (content (FanConfiguration.mode_file (FanConfiguration.shutdown self))
      = content (FanConfiguration.mode_file self0)
      <-> exists rest,
          content (FanConfiguration.mode_file self0)
          = (str (FanConfiguration.original_mode self0) ++ rest)%string).
Proof.
  intros Hb Hc.
  pose proof (calls_original_mode _ _ _ Hc) as O.
  assert (P : mode_cursor_at_start self).
  { eapply (calls_invariant mode_cursor_at_start); [| |exact Hc].
    - intros c f f1. apply call_mode_cursor.
    - eapply built_mode_cursor; exact Hb. }
  unfold mode_cursor_at_start in P.
  split; [exact O|].
  split; [simpl; rewrite new_ops_write_seek, P, O; reflexivity|].
  split; [reflexivity|].
  split.
  - intros E. rewrite (shutdown_content self P), O in E.
    eexists. symmetry. exact E.
  - intros [rest C0].
    set (m := FanConfiguration.original_mode self0) in *.
    assert (R0 : restorable_to (str m ++ rest) m self0).
    { split; [eapply built_mode_cursor; exact Hb|]. split; [reflexivity|].
      rewrite C0. apply string_cons_drop, str_app_nonempty. }
    assert (R : restorable_to (str m ++ rest) m self).
    { eapply (calls_invariant (restorable_to (str m ++ rest) m)); [|exact R0|exact Hc].
      intros c f f1. apply call_restorable_to. }
    rewrite C0. now apply shutdown_restorable_to.
Qed.

Lemma shutdown_restores_mode_file_witness :
  exists self0 self,
    FanConfiguration.from_json (fs_with_mode_text (str 5)) (Demo.fan_json 3) Demo.pwm_path
    = Some self0
    /\ calls [CallSetMode MANUAL; CallGetCurrentPwm; CallWritePwm 152] self0 = Some self
    /\ content (FanConfiguration.mode_file self0) = str 5
    /\ content (FanConfiguration.mode_file self) = str 1
    /\ content (FanConfiguration.mode_file (FanConfiguration.shutdown self))
       = content (FanConfiguration.mode_file self0)
    /\ FanConfiguration.is_running (FanConfiguration.shutdown self) = false.
Proof.
  eexists. eexists.
  split; [vm_compute; reflexivity|].
  split; [vm_compute; reflexivity|].
  split; [vm_compute; reflexivity|].
  split; [vm_compute; reflexivity|].
  pose proof (shutdown_restores_mode_file
                (fs_with_mode_text (str 5)) (Demo.fan_json 3) Demo.pwm_path _
                [CallSetMode MANUAL; CallGetCurrentPwm; CallWritePwm 152] _
                eq_refl eq_refl) as (_ & _ & F & C).
  split; [|exact F].
  apply C. exists EmptyString. vm_compute. reflexivity.
Defined.

(** C10. [shutdown] touches the mode file and the running flag and nothing
    else: the PWM file (its text, cursor and record of operations), the fan
    input, the temperature configuration with its history of samples, the
    PWM configuration and the remembered original mode are what they were;
    the mode file keeps its name and gains one write and one seek. *)
Theorem shutdown_frame (self : FanConfiguration.t) :
  let self1 := FanConfiguration.shutdown self in
  FanConfiguration.pwm_file self1 = FanConfiguration.pwm_file self
  /\ content (FanConfiguration.pwm_file self1) = content (FanConfiguration.pwm_file self)
  /\ written (ops (FanConfiguration.pwm_file self1))
     = written (ops (FanConfiguration.pwm_file self))
  /\ FanConfiguration.fan_input self1 = FanConfiguration.fan_input self
  /\ FanConfiguration.temperature self1 = FanConfiguration.temperature self
  /\ items (TemperatureConfiguration.previous_temperatures
              (FanConfiguration.temperature self1))
     = items (TemperatureConfiguration.previous_temperatures
                (FanConfiguration.temperature self))
  /\ FanConfiguration.pwm self1 = FanConfiguration.pwm self
  /\ FanConfiguration.original_mode self1 = FanConfiguration.original_mode self
  /\ name (FanConfiguration.mode_file self1) = name (FanConfiguration.mode_file self)
  /\ new_ops (FanConfiguration.mode_file self) (FanConfiguration.mode_file self1)
     = [OpWrite (pos (FanConfiguration.mode_file self))
                (str (FanConfiguration.original_mode self));
        OpSeek 0].
Proof.
  cbv zeta. repeat (split; [reflexivity|]).
  simpl. apply new_ops_write_seek.
Qed.

(* ================================================================== *)
(** ** The signal handler *)
(* ================================================================== *)




(* ================================================================== *)
(** ** The moving average *)
(* ================================================================== *)

(** The last [n] items of a list (all of them when there are fewer). *)
Definition lastn (n : nat) (l : list Z) : list Z := skipn (List.length l - n) l.

(** [round(mean(l))] for a non-empty [l]. *)
Definition average (l : list Z) : Z := py_round (sum l # Pos.of_nat (List.length l))%Q.

(** What the kernel prints for an integer attribute. *)
Definition kernel_line (raw : Z) : string := line (str raw).

(** The unit conversion of [_read_temperature]. *)
Definition degrees (raw : Z) : Z := Z.quot raw 1000.

(** One [get_temperature] per sensor value, in order; the returned values
    are collected. *)
Fixpoint sample_all (shown : list string) (self : TemperatureConfiguration.t)
  : option (list Z * TemperatureConfiguration.t) :=
  match shown with
  | [] => Some ([], self)
  | c :: shown' =>
      '(v, self1) <- TemperatureConfiguration.get_temperature
                       (TemperatureConfiguration.sensor_shows c self) ;;
      '(vs, self2) <- sample_all shown' self1 ;;
      Some (v :: vs, self2)
  end.

(** The averages a window of [n] reports while [readings] arrive after
    [earlier] ones: after each arrival, the rounded mean of the last [n]
    readings so far. *)
Fixpoint windowed_averages (n : nat) (earlier readings : list Z) : list Z :=
  match readings with
  | [] => []
  | x :: readings' =>
      average (lastn n (earlier ++ [x])) :: windowed_averages n (earlier ++ [x]) readings'
  end.

Lemma tl_skipn {A : Type} (k : nat) (l : list A) : tl (skipn k l) = skipn (S k) l.
Proof.
  revert l. induction k as [|k IH]; intros [|a l]; simpl; auto.
Qed.

Lemma lastn_length n l : List.length (lastn n l) = Nat.min n (List.length l).
Proof. unfold lastn. rewrite length_skipn. lia. Qed.

Lemma lastn_exact n k l : List.length l = (n + k)%nat -> lastn n l = skipn k l.
Proof. intros E. unfold lastn. f_equal. lia. Qed.

(** Appending to a full window drops its oldest item; appending to a
    window that is not yet full keeps everything. *)
Lemma deque_append_lastn n l x :
  (1 <= n)%nat ->
  deque_append (mk_deque (lastn n l) n) x = mk_deque (lastn n (l ++ [x])) n.
Proof.
  intros Hn. unfold deque_append. cbn [items maxlen]. f_equal.
  rewrite length_app, lastn_length. cbn [List.length].
  unfold lastn. rewrite length_app. cbn [List.length].
  destruct (Nat.ltb_spec n (Nat.min n (List.length l) + 1)) as [Hfull|Hroom].
  - assert (Hl : (n <= List.length l)%nat) by lia.
    replace (List.length l + 1 - n)%nat with (S (List.length l - n)) by lia.
    rewrite skipn_app.
    replace (S (List.length l - n) - List.length l)%nat with 0%nat by lia.
    change (skipn 0 [x]) with [x]. rewrite <- tl_skipn.
    destruct (skipn (List.length l - n) l) eqn:E; [|reflexivity].
    apply (f_equal (@List.length Z)) in E. rewrite length_skipn in E. simpl in E. lia.
  - replace (List.length l - n)%nat with 0%nat by lia.
    replace (List.length l + 1 - n)%nat with 0%nat by lia.
    reflexivity.
Qed.

Lemma lastn_snoc_nonempty n l x : (1 <= n)%nat -> lastn n (l ++ [x]) <> [].
Proof.
  intros Hn E. apply (f_equal (@List.length Z)) in E.
  rewrite lastn_length, length_app in E. simpl in E. lia.
Qed.

Lemma mean_average l : l <> [] -> option_map py_round (mean l) = Some (average l).
Proof. destruct l; [congruence | reflexivity]. Qed.

(** Reading a sensor that shows the kernel's line for [raw]. *)
Lemma read_temperature_kernel_line raw self :
  TemperatureConfiguration._read_temperature
    (TemperatureConfiguration.sensor_shows (kernel_line raw) self)
  = Some (degrees raw,
          TemperatureConfiguration.mk
            (snd (readline (seek 0 (refresh (kernel_line raw)
                                      (TemperatureConfiguration.input self)))))
            (TemperatureConfiguration.minimum self)
            (TemperatureConfiguration.maximum self)
            (TemperatureConfiguration.previous_temperatures self)).
Proof.
  unfold TemperatureConfiguration._read_temperature, TemperatureConfiguration.sensor_shows.
  cbn [TemperatureConfiguration.input TemperatureConfiguration.minimum
       TemperatureConfiguration.maximum TemperatureConfiguration.previous_temperatures].
  unfold readline at 1. cbn [pos content seek refresh].
  rewrite string_drop_0. unfold kernel_line at 1 2.
  rewrite py_int_read_line. reflexivity.
Qed.

Lemma get_temperature_kernel_line n l raw self :
  (1 <= n)%nat ->
  TemperatureConfiguration.previous_temperatures self = mk_deque (lastn n l) n ->
  exists self1,
    TemperatureConfiguration.get_temperature
      (TemperatureConfiguration.sensor_shows (kernel_line raw) self)
    = Some (average (lastn n (l ++ [degrees raw])), self1)
    /\ TemperatureConfiguration.previous_temperatures self1
       = mk_deque (lastn n (l ++ [degrees raw])) n
    /\ TemperatureConfiguration.minimum self1 = TemperatureConfiguration.minimum self
    /\ TemperatureConfiguration.maximum self1 = TemperatureConfiguration.maximum self.
Proof.
  intros Hn Hd. unfold TemperatureConfiguration.get_temperature.
  rewrite read_temperature_kernel_line.
  cbn [TemperatureConfiguration.previous_temperatures TemperatureConfiguration.input
       TemperatureConfiguration.minimum TemperatureConfiguration.maximum].
  rewrite Hd, deque_append_lastn by exact Hn. cbn [items].
  pose proof (mean_average _ (lastn_snoc_nonempty n l (degrees raw) Hn)) as M.
  destruct (mean (lastn n (l ++ [degrees raw]))) as [q|]; [|discriminate M].
  injection M as M. rewrite M.
  eexists. split; [reflexivity|]. repeat split.
Qed.

Lemma sample_all_windowed n (Hn : (1 <= n)%nat) raws : forall l self,
  TemperatureConfiguration.previous_temperatures self = mk_deque (lastn n l) n ->
  exists self1,
    sample_all (map kernel_line raws) self
    = Some (windowed_averages n l (map degrees raws), self1)
    /\ TemperatureConfiguration.previous_temperatures self1
       = mk_deque (lastn n (l ++ map degrees raws)) n.
Proof.
  induction raws as [|raw raws IH]; intros l self Hd.
  - exists self. simpl. rewrite app_nil_r. now split.
  - cbn [map sample_all windowed_averages].
    destruct (get_temperature_kernel_line n l raw self Hn Hd) as (s1 & G & D1 & _ & _).
    rewrite G.
    destruct (IH (l ++ [degrees raw]) s1 D1) as (s2 & S2 & D2).
    rewrite S2. exists s2. split; [reflexivity|].
    rewrite D2. now rewrite <- app_assoc.
Qed.

Lemma windowed_averages_length n readings : forall earlier,
  List.length (windowed_averages n earlier readings) = List.length readings.
Proof. induction readings; simpl; auto. Qed.

Lemma windowed_averages_last n readings : forall earlier d,
  readings <> [] ->
  last (windowed_averages n earlier readings) d = average (lastn n (earlier ++ readings)).
Proof.
  induction readings as [|x r IH]; intros earlier d H; [congruence|].
  destruct r as [|y r].
  - reflexivity.
  - change (last (windowed_averages n earlier (x :: y :: r)) d)
      with (last (windowed_averages n (earlier ++ [x]) (y :: r)) d).
    rewrite IH by discriminate. now rewrite <- app_assoc.
Qed.

(** C4. A sampler built with window [N >= 1] is fed [N + k] sensor values.
    Every call of [get_temperature] returns, and the value it returns is
    the rounded mean of the last [N] converted readings seen so far (of all
    of them while fewer than [N] have arrived).  After the [N + k] calls
    the buffer holds exactly the last [N] readings, the first [k] having
    been dropped oldest first, and the value returned last is their mean
    rounded to a nearest integer.  At no point does the buffer hold more
    than [N] items. *)
Theorem get_temperature_moving_average
    (N k : nat) (input : TextIO) (minimum maximum : Z) (raws : list Z)
    (self0 : TemperatureConfiguration.t) :
  (1 <= N)%nat ->
  List.length raws = (N + k)%nat ->
  TemperatureConfiguration.__post_init__ input minimum maximum (Z.of_nat N) = Some self0 ->
  exists results self,
    sample_all (map kernel_line raws) self0 = Some (results, self)
    /\ results = windowed_averages N [] (map degrees raws)
    /\ List.length results = (N + k)%nat
    /\ items (TemperatureConfiguration.previous_temperatures self)
       = skipn k (map degrees raws)
    /\ List.length (items (TemperatureConfiguration.previous_temperatures self)) = N
    /\ last results 0
       = py_round (sum (skipn k (map degrees raws)) # Pos.of_nat N)%Q
    /\ (inject_Z (last results 0%Z) - (1 # 2)
        <= sum (skipn k (map degrees raws)) # Pos.of_nat N
        <= inject_Z (last results 0%Z) + (1 # 2))%Q
    /\ (forall p q, raws = p ++ q ->
        exists res s,
          sample_all (map kernel_line p) self0 = Some (res, s)
          /\ (List.length (items (TemperatureConfiguration.previous_temperatures s))
              <= N)%nat).
Proof.
  intros HN Hlen Hinit.
  unfold TemperatureConfiguration.__post_init__ in Hinit.
  destruct ((Z.of_nat N <? 0) || (2 ^ 63 <=? Z.of_nat N)); [discriminate Hinit|].
  injection Hinit as <-. rewrite Nat2Z.id.
  set (self0 := TemperatureConfiguration.mk input minimum maximum (deque_new N)).
  assert (D0 : TemperatureConfiguration.previous_temperatures self0
               = mk_deque (lastn N []) N) by reflexivity.
  destruct (sample_all_windowed N HN raws [] self0 D0) as (self & S & D).
  cbn [app] in D.
  assert (Hm : List.length (map degrees raws) = (N + k)%nat) by now rewrite length_map.
  assert (W : lastn N (map degrees raws) = skipn k (map degrees raws))
    by now apply lastn_exact.
  assert (L : List.length (skipn k (map degrees raws)) = N)
    by (rewrite length_skipn; lia).
  assert (Hne : map degrees raws <> []).
  { intros E. rewrite E in Hm. simpl in Hm. lia. }
  assert (R : last (windowed_averages N [] (map degrees raws)) 0
              = py_round (sum (skipn k (map degrees raws)) # Pos.of_nat N)%Q).
  { rewrite windowed_averages_last by exact Hne.
    cbn [app]. rewrite W. unfold average. now rewrite L. }
  exists (windowed_averages N [] (map degrees raws)), self.
  split; [exact S|]. split; [reflexivity|].
  split; [now rewrite windowed_averages_length|].
  split; [now rewrite D, W|].
  split; [now rewrite D, W|].
  split; [exact R|].
  split; [rewrite R; apply py_round_nearest|].
  intros p q _.
  destruct (sample_all_windowed N HN p [] self0 D0) as (s & Sp & Dp).
  eexists _, s. split; [exact Sp|].
  rewrite Dp. cbn [items]. rewrite lastn_length. lia.
Qed.

Lemma get_temperature_moving_average_witness :
  exists self0 results self,
    TemperatureConfiguration.__post_init__
      (open_existing Demo.temp_path (kernel_line 0) ModeR) 20 80 (Z.of_nat 3) = Some self0
    /\ sample_all (map kernel_line [21000; 22500; 30999; 40000; 42999]) self0
       = Some (results, self)
    /\ results = [21; 22; 24; 31; 37]
    /\ items (TemperatureConfiguration.previous_temperatures self) = [30; 40; 42]
    /\ last results 0 = 37.
Proof.
  destruct (get_temperature_moving_average 3 2
              (open_existing Demo.temp_path (kernel_line 0) ModeR) 20 80
              [21000; 22500; 30999; 40000; 42999]
              (TemperatureConfiguration.mk
                 (open_existing Demo.temp_path (kernel_line 0) ModeR) 20 80 (deque_new 3)))
    as (results & self & S & R & _ & I & _ & L & _);
    [lia | reflexivity | reflexivity |].
  eexists _, results, self.
  split; [reflexivity|]. split; [exact S|].
  split; [rewrite R; vm_compute; reflexivity|].
  split; [rewrite I; vm_compute; reflexivity|].
  rewrite L. vm_compute. reflexivity.
Defined.

(* ================================================================== *)
(** ** A sustained reading *)
(* ================================================================== *)

Lemma sum_all_equal t l : Forall (eq t) l -> sum l = t * Z.of_nat (List.length l).
Proof.
  induction 1 as [|x l Hx _ IH]; [simpl; lia|].
  subst x. cbn [sum fold_right List.length] in *. fold (sum l). rewrite IH. lia.
Qed.

(** The rounded mean of a buffer filled with one value is that value. *)
Lemma average_all_equal t l : l <> [] -> Forall (eq t) l -> average l = t.
Proof.
  intros Hne Hall. unfold average. rewrite (sum_all_equal t l Hall).
  rewrite <- (py_round_Z t) at 2. apply py_round_Qeq.
  unfold Qeq. cbn [Qnum Qden inject_Z].
  destruct l as [|x l]; [congruence|].
  assert (E : Z.pos (Pos.of_nat (List.length (x :: l))) = Z.of_nat (List.length (x :: l))).
  { cbn [List.length]. rewrite <- Pos.of_nat_succ. now rewrite Zpos_P_of_succ_nat, Nat2Z.inj_succ. }
  rewrite E. lia.
Qed.

Lemma Forall_skipn_eq (t : Z) k l : Forall (eq t) l -> Forall (eq t) (skipn k l).
Proof.
  revert l. induction k as [|k IH]; intros l H; [exact H|].
  destruct H; simpl; auto.
Qed.

(** With the history filled with [t] and the sensor showing [t] again, the
    target comes from the fraction of [t] in the temperature range. *)
Lemma get_current_pwm_sustained self (n j : nat) (raw t : Z) :
  (1 <= n)%nat -> (j <= n)%nat ->
  TemperatureConfiguration.previous_temperatures (FanConfiguration.temperature self)
  = mk_deque (repeat t j) n ->
  degrees raw = t ->
  TemperatureConfiguration.delta (FanConfiguration.temperature self) <> 0 ->
  option_map fst
    (FanConfiguration.get_current_pwm (FanConfiguration.sensor_shows (kernel_line raw) self))
  = Some (clamped_linear_interpolation
            (PWMConfiguration.minimum (FanConfiguration.pwm self))
            (PWMConfiguration.maximum (FanConfiguration.pwm self))
            (inject_Z (t - TemperatureConfiguration.minimum (FanConfiguration.temperature self))
             / inject_Z (TemperatureConfiguration.delta (FanConfiguration.temperature self)))%Q).
Proof.
  intros Hn Hj Hd Hraw Hdelta.
  assert (Hl : repeat t j = lastn n (repeat t j)).
  { unfold lastn. rewrite repeat_length.
    replace (j - n)%nat with 0%nat by lia. reflexivity. }
  rewrite Hl in Hd.
  destruct (get_temperature_kernel_line n (repeat t j) raw
              (FanConfiguration.temperature self) Hn Hd) as (tc & G & _ & Emin & Emax).
  rewrite Hraw in G.
  rewrite (average_all_equal t) in G.
  - unfold FanConfiguration.get_current_pwm, FanConfiguration.get_temperature_percentage.
    cbn [FanConfiguration.temperature FanConfiguration.sensor_shows
         FanConfiguration.with_temperature].
    rewrite G.
    assert (Ed : TemperatureConfiguration.delta tc
                 = TemperatureConfiguration.delta (FanConfiguration.temperature self))
      by (unfold TemperatureConfiguration.delta; now rewrite Emin, Emax).
    rewrite Ed, Emin.
    destruct (Z.eqb_spec (TemperatureConfiguration.delta (FanConfiguration.temperature self)) 0);
      [contradiction|].
    reflexivity.
  - now apply lastn_snoc_nonempty.
  - apply Forall_skipn_eq, Forall_app. split.
    + apply Forall_forall. intros x Hx. symmetry. now apply repeat_spec in Hx.
    + now constructor.
Qed.

(** C8. For a fan with temperatures 20..80 mapped to duty cycles 50..255,
    a window of any size [n >= 1] whose history holds [j <= n] copies of
    one temperature [t], and a sensor showing [t] once more:
    [t = 20] gives target 50, [t = 80] gives 255, and [t = 50] gives 152.
    The interpolated value for 50 degrees is 152.5 and [round] sends that
    tie to the even neighbour 152. *)
Theorem sustained_reading_targets
    (self : FanConfiguration.t) (n j : nat) (raw t : Z) :
  TemperatureConfiguration.minimum (FanConfiguration.temperature self) = 20 ->
  TemperatureConfiguration.maximum (FanConfiguration.temperature self) = 80 ->
  PWMConfiguration.minimum (FanConfiguration.pwm self) = 50 ->
  PWMConfiguration.maximum (FanConfiguration.pwm self) = 255 ->
  (1 <= n)%nat -> (j <= n)%nat ->
  TemperatureConfiguration.previous_temperatures (FanConfiguration.temperature self)
  = mk_deque (repeat t j) n ->
  degrees raw = t ->
  let target :=
    option_map fst
      (FanConfiguration.get_current_pwm
         (FanConfiguration.sensor_shows (kernel_line raw) self)) in
  (t = 20 -> target = Some 50)
  /\ (t = 80 -> target = Some 255)
  /\ (t = 50 -> target = Some 152)
  /\ (lerp 50 255 (1 # 2) == 305 # 2)%Q
  /\ py_round (lerp 50 255 (1 # 2)) = 152.
Proof.
  intros Tmin Tmax Pmin Pmax Hn Hj Hd Hraw target.
  assert (Hdelta : TemperatureConfiguration.delta (FanConfiguration.temperature self) <> 0)
    by (unfold TemperatureConfiguration.delta; rewrite Tmin, Tmax; discriminate).
  pose proof (get_current_pwm_sustained self n j raw t Hn Hj Hd Hraw Hdelta) as G.
  fold target in G. unfold TemperatureConfiguration.delta in G.
  rewrite Tmin, Tmax, Pmin, Pmax in G.
  split; [intros ->; rewrite G; reflexivity|].
  split; [intros ->; rewrite G; reflexivity|].
  split; [intros ->; rewrite G; reflexivity|].
  split; reflexivity.
Qed.

Lemma sustained_reading_targets_witness :
  exists self,
    (f <- Demo.fan_from 5 50000 3 ;; calls (repeat CallGetCurrentPwm 3) f) = Some self
    /\ items (TemperatureConfiguration.previous_temperatures
                (FanConfiguration.temperature self)) = [50; 50; 50]
    /\ option_map fst
         (FanConfiguration.get_current_pwm
            (FanConfiguration.sensor_shows (kernel_line 50999) self))
       = Some 152.
Proof.
  eexists. split; [vm_compute; reflexivity|].
  split; [vm_compute; reflexivity|].
  assert (H1 : (1 <= 3)%nat) by lia.
  assert (H2 : (3 <= 3)%nat) by lia.
  refine (proj1 (proj2 (proj2
            (sustained_reading_targets _ 3 3 50999 50 _ _ _ _ H1 H2 _ _)))
          eq_refl); reflexivity.
Defined.

(* ================================================================== *)
(** ** The loop and the handler *)
(* ================================================================== *)

Lemma count_app {A : Type} (p : A -> bool) (l1 l2 : list A) :
  count p (l1 ++ l2) = (count p l1 + count p l2)%nat.
Proof. unfold count. now rewrite filter_app, length_app. Qed.

Lemma loop_writes_app tr1 tr2 :
  loop_writes (tr1 ++ tr2) = loop_writes tr1 ++ loop_writes tr2.
Proof.
  induction tr1 as [|e tr1 IH]; [reflexivity|].
  destruct e as [[|] dev [| |] | | | |]; simpl; rewrite ?IH; reflexivity.
Qed.

Lemma get_temperature_input self v self1 :
  TemperatureConfiguration.get_temperature self = Some (v, self1) ->
  TemperatureConfiguration.input self1
  = snd (readline (seek 0 (TemperatureConfiguration.input self))).
Proof.
  unfold TemperatureConfiguration.get_temperature,
         TemperatureConfiguration._read_temperature.
  destruct (readline (seek 0 (TemperatureConfiguration.input self))) as [l f].
  destruct (py_int l); [|discriminate].
  cbn [TemperatureConfiguration.previous_temperatures TemperatureConfiguration.input
       TemperatureConfiguration.minimum TemperatureConfiguration.maximum].
  destruct (mean _); [|discriminate].
  now intros [= _ <-].
Qed.

(** What one run of the loop body does to the files: a seek and a readline
    on the sensor, then a seek and a write of the target on the PWM file. *)
Lemma body_io self p self1 :
  FanConfiguration.get_current_pwm self = Some (p, self1) ->
  new_ops (TemperatureConfiguration.input (FanConfiguration.temperature self))
          (TemperatureConfiguration.input (FanConfiguration.temperature self1))
  = [OpSeek 0; OpReadline 0]
  /\ new_ops (FanConfiguration.pwm_file self1)
             (FanConfiguration.pwm_file (FanConfiguration.write_pwm p self1))
     = [OpSeek 0; OpWrite 0 (str p)]
  /\ FanConfiguration.is_running (FanConfiguration.write_pwm p self1)
     = FanConfiguration.is_running self.
Proof.
  intros H. apply get_current_pwm_inv in H. destruct H as (q & H & _).
  apply get_temperature_percentage_inv in H.
  destruct H as (temp & tc & G & _ & _ & ->).
  apply get_temperature_input in G.
  cbn [FanConfiguration.temperature FanConfiguration.with_temperature
       FanConfiguration.pwm_file FanConfiguration.write_pwm
       FanConfiguration.with_pwm_file FanConfiguration.is_running].
  rewrite G. split; [|split; [apply new_ops_seek_write | reflexivity]].
  apply new_ops_app. simpl. now rewrite <- app_assoc.
Qed.

(** Where the loop thread stands decides what it has written so far:
    nothing before [set_mode], and from then on the manual mode once,
    followed by duty cycles only. *)
Definition manual_once (w : World) : Prop :=
  match pc w with
  | AtEntry => loop_writes (trace w) = []
  | _ => exists rest,
      loop_writes (trace w) = (DevMode, PWMMode_str MANUAL) :: rest
      /\ forallb (fun x => is_DevPwm (fst x)) rest = true
  end.

Lemma manual_once_extend w f tr pc' :
  pc w <> AtEntry -> pc' <> AtEntry ->
  manual_once w ->
  forallb (fun x => is_DevPwm (fst x)) (loop_writes tr) = true ->
  manual_once (mkWorld f pc' (trace w ++ tr)).
Proof.
  unfold manual_once. cbn [pc trace]. intros Hpc Hpc' H Htr.
  assert (exists rest,
            loop_writes (trace w) = (DevMode, PWMMode_str MANUAL) :: rest
            /\ forallb (fun x => is_DevPwm (fst x)) rest = true) as (rest & E & F)
    by (destruct (pc w); [congruence|exact H..]).
  assert (exists rest',
            loop_writes (trace w ++ tr) = (DevMode, PWMMode_str MANUAL) :: rest'
            /\ forallb (fun x => is_DevPwm (fst x)) rest' = true) as G.
  { exists (rest ++ loop_writes tr). rewrite loop_writes_app, E. split; [reflexivity|].
    rewrite forallb_app, F, Htr. reflexivity. }
  destruct pc'; [congruence|exact G..].
Qed.

Lemma step_manual_once a w : manual_once w -> manual_once (step a w).
Proof.
  intros H. destruct a as [| |c].
  - (* the loop moves *)
    unfold step, run_step. destruct (pc w) eqn:Epc.
    + unfold manual_once in *. rewrite Epc in H. cbn [pc trace].
      exists []. split; [|reflexivity].
      rewrite loop_writes_app, H. simpl. rewrite new_ops_write_seek. reflexivity.
    + destruct (FanConfiguration.is_running (fan w));
        apply manual_once_extend; try congruence; reflexivity.
    + destruct (FanConfiguration.get_current_pwm (fan w)) as [[p f1]|] eqn:G.
      * apply manual_once_extend; try congruence.
        destruct (body_io _ _ _ G) as (-> & -> & _). reflexivity.
      * apply manual_once_extend; try congruence. reflexivity.
    + apply manual_once_extend; try congruence. reflexivity.
    + exact H.
    + exact H.
  - (* the handler moves *)
    unfold step, handler_step.
    assert (L : loop_writes
                  (map (EvIO Handler DevMode)
                     (new_ops (FanConfiguration.mode_file (fan w))
                        (FanConfiguration.mode_file (FanConfiguration.shutdown (fan w))))
                   ++ [EvStopped]) = []).
    { simpl. rewrite new_ops_write_seek. reflexivity. }
    unfold manual_once in *. cbn [pc trace].
    rewrite loop_writes_app, L, app_nil_r. exact H.
  - exact H.
Qed.

Lemma run_schedule_invariant (P : World -> Prop) :
  (forall a w, P w -> P (step a w)) ->
  forall sched w, P w -> P (run_schedule sched w).
Proof.
  intros Hstep. induction sched as [|a sched IH]; simpl; auto.
Qed.

Lemma count_cons {A : Type} (p : A -> bool) a l :
  count p (a :: l) = ((if p a then 1 else 0) + count p l)%nat.
Proof. unfold count. simpl. now destruct (p a). Qed.

(** The loop thread stands before [set_mode] exactly as long as it has
    not moved. *)
Lemma step_at_entry a w :
  pc (step a w) = AtEntry <-> pc w = AtEntry /\ is_loop_move a = false.
Proof.
  destruct a as [| |c]; cbn [step is_loop_move pc].
  - unfold run_step. split; [|intros [_ H]; discriminate H].
    destruct (pc w) eqn:E; cbn [pc]; try discriminate; try congruence.
    + destruct (FanConfiguration.is_running (fan w)); discriminate.
    + destruct (FanConfiguration.get_current_pwm (fan w)) as [[p f1]|]; discriminate.
  - unfold handler_step. cbn [pc]. tauto.
  - tauto.
Qed.

Lemma run_schedule_at_entry sched : forall w,
  pc (run_schedule sched w) = AtEntry
  <-> pc w = AtEntry /\ count is_loop_move sched = 0%nat.
Proof.
  induction sched as [|a sched IH]; intros w.
  - simpl. unfold count. simpl. tauto.
  - cbn [run_schedule]. rewrite IH, step_at_entry, count_cons.
    destruct (is_loop_move a); cbn [Nat.add]; split.
    + intros [[_ H] _]. discriminate H.
    + intros [_ H]. discriminate H.
    + intros [[H1 _] H2]. now split.
    + intros [H1 H2]. now repeat split.
Qed.

Lemma written_app l1 l2 : written (l1 ++ l2) = written l1 ++ written l2.
Proof.
  induction l1 as [|op l1 IH]; [reflexivity|].
  destruct op; simpl; rewrite ?IH; reflexivity.
Qed.

(** What the mode file has received since the thread was started: once
    the loop thread has left its entry, the manual mode is among the data
    written. *)
Definition manual_written (self : FanConfiguration.t) (w : World) : Prop :=
  exists l,
    ops (FanConfiguration.mode_file (fan w))
    = ops (FanConfiguration.mode_file self) ++ l
    /\ (pc w <> AtEntry -> In (PWMMode_str MANUAL) (written l)).

Lemma step_manual_written self a w :
  manual_written self w -> manual_written self (step a w).
Proof.
  intros (l & E & H). destruct a as [| |c].
  - unfold step, run_step. destruct (pc w) eqn:Epc.
    + exists (l ++ [OpWrite (pos (FanConfiguration.mode_file (fan w))) (PWMMode_str MANUAL);
                    OpSeek 0]).
      cbn [fan pc]. split.
      * simpl. rewrite E, <- !app_assoc. reflexivity.
      * intros _. rewrite written_app. apply in_or_app. right. left. reflexivity.
    + exists l. cbn [fan pc]. split; [exact E|]. intros _. apply H. discriminate.
    + destruct (FanConfiguration.get_current_pwm (fan w)) as [[p f1]|] eqn:G.
      * exists l. cbn [fan pc]. split; [|intros _; apply H; discriminate].
        apply get_current_pwm_inv in G. destruct G as (q & G & _).
        apply get_temperature_percentage_inv in G.
        destruct G as (temp & tc & _ & _ & _ & ->). exact E.
      * exists l. cbn [fan pc]. split; [exact E|]. intros _. apply H. discriminate.
    + exists l. cbn [fan pc]. split; [exact E|]. intros _. apply H. discriminate.
    + exists l. rewrite Epc. split; [exact E | exact H].
    + exists l. rewrite Epc. split; [exact E | exact H].
  - unfold step, handler_step. cbn [fan pc].
    exists (l ++ [OpWrite (pos (FanConfiguration.mode_file (fan w)))
                          (str (FanConfiguration.original_mode (fan w)));
                  OpSeek 0]).
    split.
    + simpl. rewrite E, <- !app_assoc. reflexivity.
    + intros Hpc. rewrite written_app. apply in_or_app. left. now apply H.
  - unfold step. cbn [fan pc]. exists l. split; [exact E | exact H].
Qed.

(** C7. However the loop thread is scheduled against the handler and the
    sensor, and for every fan: the text [set_mode] writes for the manual
    mode is ["1"]; the loop thread stands before its [set_mode] exactly as
    long as it has made no move, and has written nothing until then; its
    first move writes the manual mode, which the mode file receives, and
    from then on its writes are the manual mode, once and first, followed
    by writes to the PWM file only. *)
Theorem run_writes_manual_once (self : FanConfiguration.t) (sched : list Actor) :
  let w := run_schedule sched (start self) in
  PWMMode_str MANUAL = "1"%string
  /\ match pc w with
     | AtEntry => loop_writes (trace w) = []
     | _ => exists rest,
         loop_writes (trace w) = (DevMode, "1"%string) :: rest
         /\ forallb (fun x => is_DevPwm (fst x)) rest = true
     end
  /\ (pc w = AtEntry <-> count is_loop_move sched = 0%nat)
  /\ ((1 <= count is_loop_move sched)%nat ->
      exists rest,
        loop_writes (trace w) = (DevMode, "1"%string) :: rest
        /\ forallb (fun x => is_DevPwm (fst x)) rest = true)
  /\ exists l,
      ops (FanConfiguration.mode_file (fan w))
      = ops (FanConfiguration.mode_file self) ++ l
      /\ ((1 <= count is_loop_move sched)%nat -> In "1"%string (written l)).
Proof.
  cbv zeta.
  assert (M : manual_once (run_schedule sched (start self)))
    by (apply (run_schedule_invariant manual_once step_manual_once sched (start self));
        reflexivity).
  assert (A : pc (run_schedule sched (start self)) = AtEntry
              <-> count is_loop_move sched = 0%nat).
  { rewrite run_schedule_at_entry. cbn [start pc]. tauto. }
  split; [reflexivity|]. split; [exact M|]. split; [exact A|].
  split.
  - intros H1. unfold manual_once in M.
    destruct (pc (run_schedule sched (start self))); try exact M.
    assert (count is_loop_move sched = 0%nat) by (apply A; reflexivity). lia.
  - assert (W : manual_written self (run_schedule sched (start self))).
    { apply (run_schedule_invariant (manual_written self) (step_manual_written self)).
      exists []. cbn [start fan pc]. split; [now rewrite app_nil_r|].
      intros H. congruence. }
    destruct W as (l & E & H). exists l. split; [exact E|].
    intros H1. apply H. intros Hpc. apply A in Hpc. lia.
Qed.

Lemma run_writes_manual_once_witness :
  exists self,
    Demo.fan_from 5 50000 3 = Some self
    /\ let sched := [ALoop; ALoop; ALoop; AHandler; ALoop; ALoop] in
       let w := run_schedule sched (start self) in
       loop_writes (trace w) = [(DevMode, "1"%string); (DevPwm, str 152)]
       /\ written (ops (FanConfiguration.mode_file (fan w))) = ["1"%string; str 5]
       /\ (pc w = AtEntry <-> count is_loop_move sched = 0%nat)
       /\ pc w = Returned.
Proof.
  eexists. split; [vm_compute; reflexivity|]. cbv zeta.
  split; [vm_compute; reflexivity|].
  split; [vm_compute; reflexivity|].
  split; [|vm_compute; reflexivity].
  match goal with
  | |- pc (run_schedule ?s (start ?f)) = _ <-> _ =>
      exact (proj1 (proj2 (proj2 (run_writes_manual_once f s))))
  end.
Defined.

(** Once the flag is cleared: how many more PWM writes, sleeps and moves
    the loop thread has before it ends, by where it stands. *)
Definition writes_left (p : RunPC) : nat :=
  match p with
  | InBody => 1
  | _ => 0
  end.

Definition sleeps_left (p : RunPC) : nat :=
  match p with
  | InBody | Sleeping => 1
  | _ => 0
  end.

Definition moves_left (p : RunPC) : nat :=
  match p with
  | InBody => 3
  | AtEntry | Sleeping => 2
  | AtTest => 1
  | Returned | Raised => 0
  end.

Lemma count_io_mode p who l :
  (forall op, p (EvIO who DevMode op) = false) ->
  count p (map (EvIO who DevMode) l) = 0%nat.
Proof.
  intros Hp. unfold count. induction l as [|op l IH]; [reflexivity|].
  simpl. now rewrite Hp.
Qed.

(** One move of anybody, with the flag cleared: the flag stays cleared and
    the budgets of the loop thread never grow; a move of the loop thread
    uses up one of its remaining moves. *)
Ltac budget Hr :=
  repeat split; unfold count; simpl; first [exact Hr | lia].

Lemma step_stopped a w :
  FanConfiguration.is_running (fan w) = false ->
  let w1 := step a w in
  FanConfiguration.is_running (fan w1) = false
  /\ (count is_pwm_write (trace w1) + writes_left (pc w1)
      <= count is_pwm_write (trace w) + writes_left (pc w))%nat
  /\ (count is_sleep (trace w1) + sleeps_left (pc w1)
      <= count is_sleep (trace w) + sleeps_left (pc w))%nat
  /\ (moves_left (pc w1) + (if is_loop_move a then 1 else 0)
      <= Nat.max (moves_left (pc w)) (if is_loop_move a then 1 else 0))%nat.
Proof.
  intros Hr. cbv zeta. destruct a as [| |c].
  - unfold step, run_step. destruct (pc w) eqn:Epc.
    + cbn [fan pc trace]. rewrite !count_app, !count_io_mode by reflexivity.
      budget Hr.
    + rewrite Hr. cbn [fan pc trace]. rewrite !count_app.
      budget Hr.
    + destruct (FanConfiguration.get_current_pwm (fan w)) as [[p f1]|] eqn:G.
      * destruct (body_io _ _ _ G) as (E1 & E2 & E3).
        cbn [fan pc trace]. rewrite E1, E2, E3, !count_app.
        budget Hr.
      * cbn [fan pc trace]. rewrite !count_app.
        budget Hr.
    + cbn [fan pc trace]. rewrite !count_app.
      budget Hr.
    + rewrite Epc. budget Hr.
    + rewrite Epc. budget Hr.
  - unfold step, handler_step. cbn [fan pc trace].
    rewrite !count_app, !count_io_mode by reflexivity.
    budget Hr.
  - unfold step. cbn [fan pc trace]. budget Hr.
Qed.

Lemma run_schedule_stopped sched : forall w,
  FanConfiguration.is_running (fan w) = false ->
  let w1 := run_schedule sched w in
  FanConfiguration.is_running (fan w1) = false
  /\ (count is_pwm_write (trace w1) + writes_left (pc w1)
      <= count is_pwm_write (trace w) + writes_left (pc w))%nat
  /\ (count is_sleep (trace w1) + sleeps_left (pc w1)
      <= count is_sleep (trace w) + sleeps_left (pc w))%nat
  /\ (moves_left (pc w1) + count is_loop_move sched
      <= Nat.max (moves_left (pc w)) (count is_loop_move sched))%nat.
Proof.
  induction sched as [|a sched IH]; intros w Hr; cbv zeta.
  - budget Hr.
  - destruct (step_stopped a w Hr) as (R1 & W1 & S1 & M1).
    destruct (IH (step a w) R1) as (R2 & W2 & S2 & M2).
    cbn [run_schedule].
    split; [exact R2|]. split; [lia|]. split; [lia|].
    change (count is_loop_move (a :: sched))
      with (List.length (filter is_loop_move (a :: sched))).
    cbn [filter]. fold (count is_loop_move sched) in *.
    destruct (is_loop_move a); cbn [List.length]; fold (count is_loop_move sched); lia.
Qed.

(** C5, as worded, fails: the loop thread passes the test of the flag,
    the handler then completes [shutdown], and the loop thread still
    carries out the body it had entered, writing a duty cycle after the
    flag was cleared and the mode restored. *)
Lemma pwm_write_after_shutdown_counterexample :
  exists self,
    Demo.fan_from 5 50000 3 = Some self
    /\ let w := run_schedule [ALoop; ALoop; AHandler] (start self) in
       FanConfiguration.is_running (fan w) = false
       /\ content (FanConfiguration.mode_file (fan w)) = line (str 5)
       /\ trace w = [EvIO Loop DevMode (OpWrite 0 (str 1)); EvIO Loop DevMode (OpSeek 0);
                     EvTest true;
                     EvIO Handler DevMode (OpWrite 0 (str 5));
                     EvIO Handler DevMode (OpSeek 0); EvStopped]
       /\ trace (step ALoop w)
          = trace w ++ [EvIO Loop DevTemperature (OpSeek 0);
                        EvIO Loop DevTemperature (OpReadline 0);
                        EvIO Loop DevPwm (OpSeek 0);
                        EvIO Loop DevPwm (OpWrite 0 (str 152))]
       /\ count is_pwm_write (trace (step ALoop w))
          = S (count is_pwm_write (trace w)).
Proof.
  eexists. split; [vm_compute; reflexivity|].
  cbv zeta. repeat split; vm_compute; reflexivity.
Qed.

(** C5, amended. Once [shutdown] has cleared the flag, and however the
    threads are scheduled from there on: the flag stays cleared; the loop
    thread writes at most one more duty cycle, and none unless it had
    already passed the test of the flag and not yet carried out the body;
    it sleeps at most once more; and after three of its own moves at the
    latest it has ended.  The loop reads the flag once per iteration, after
    the sleep and before the write. *)
Theorem loop_after_shutdown (w : World) (sched : list Actor) :
  FanConfiguration.is_running (fan w) = false ->
  let w1 := run_schedule sched w in
  FanConfiguration.is_running (fan w1) = false
  /\ (count is_pwm_write (trace w1) <= count is_pwm_write (trace w) + 1)%nat
  /\ (pc w <> InBody -> count is_pwm_write (trace w1) = count is_pwm_write (trace w))
  /\ (count is_sleep (trace w1) <= count is_sleep (trace w) + 1)%nat
  /\ ((3 <= count is_loop_move sched)%nat -> pc w1 = Returned \/ pc w1 = Raised)
  /\ (pc w = AtTest -> pc (step ALoop w) = Returned)
  /\ (pc w = Sleeping -> pc (step ALoop w) = AtTest).
Proof.
  intros Hr. cbv zeta.
  destruct (run_schedule_stopped sched w Hr) as (R & W & S & M).
  split; [exact R|].
  assert (Mono : (count is_pwm_write (trace w)
                  <= count is_pwm_write (trace (run_schedule sched w)))%nat).
  { clear. revert w. induction sched as [|a sched IH]; intros w; [simpl; lia|].
    cbn [run_schedule]. etransitivity; [|apply IH].
    destruct a as [| |c]; unfold step, run_step, handler_step;
      [destruct (pc w); [| |destruct (FanConfiguration.get_current_pwm (fan w))
                              as [[p f1]|]| | | ]| |];
      cbn [trace]; rewrite ?count_app; lia. }
  split; [destruct (pc w); simpl in W; lia|].
  split; [intros Hpc; destruct (pc w); simpl in W; try congruence; lia|].
  split; [destruct (pc w); simpl in S; lia|].
  split.
  - intros H3.
    assert (Z : moves_left (pc (run_schedule sched w)) = 0%nat)
      by (destruct (pc w); cbn [moves_left] in M; lia).
    destruct (pc (run_schedule sched w)); simpl in Z; try lia; auto.
  - split; intros Hpc; unfold step, run_step; rewrite Hpc; [rewrite Hr|]; reflexivity.
Qed.

Lemma loop_after_shutdown_witness :
  exists self,
    Demo.fan_from 5 50000 3 = Some self
    /\ let w := run_schedule [ALoop; ALoop; ALoop; AHandler] (start self) in
       let w1 := run_schedule [ALoop; ASensor (kernel_line 70000); ALoop; ALoop] w in
       FanConfiguration.is_running (fan w) = false
       /\ pc w = Sleeping
       /\ count is_pwm_write (trace w1) = count is_pwm_write (trace w)
       /\ pc w1 = Returned.
Proof.
  eexists. split; [vm_compute; reflexivity|].
  cbv zeta.
  match goal with
  | |- _ /\ _ /\ count _ (trace (run_schedule ?s ?w)) = _ /\ _ =>
      assert (Hr : FanConfiguration.is_running (fan w) = false)
        by (vm_compute; reflexivity);
      pose proof (loop_after_shutdown w s Hr) as (_ & _ & N & _ & _ & _ & _)
  end.
  split; [vm_compute; reflexivity|].
  split; [vm_compute; reflexivity|].
  split; [apply N; vm_compute; discriminate|].
  vm_compute. reflexivity.
Defined.

(* ================================================================== *)
(** ** More about the numeric helpers *)
(* ================================================================== *)

Lemma py_round_monotone x y : (x <= y)%Q -> py_round x <= py_round y.
Proof.
  intros Hxy.
  pose proof (Qfloor_resp_le _ _ Hxy) as Hf.
  destruct (Z.eq_dec (Qfloor x) (Qfloor y)) as [E|NE].
  - unfold py_round.
    pose proof (Qcompare_half x (Qfloor x)) as Cx.
    pose proof (Qcompare_half y (Qfloor y)) as Cy.
    rewrite <- E in *.
    destruct (x - inject_Z (Qfloor x) ?= 1 # 2)%Q;
      destruct (y - inject_Z (Qfloor x) ?= 1 # 2)%Q;
      try destruct (Z.even (Qfloor x)); try lia; lra.
  - pose proof (py_round_bounds x). pose proof (py_round_bounds y). lia.
Qed.

Lemma lerp_monotone a b t1 t2 :
  a <= b -> (t1 <= t2)%Q -> (lerp a b t1 <= lerp a b t2)%Q.
Proof.
  intros Hab Ht. rewrite !lerp_affine.
  rewrite Zle_Qle in Hab.
  assert (H : (0 <= (t2 - t1) * (inject_Z b - inject_Z a))%Q)
    by (apply Qmult_le_0_compat; lra).
  lra.
Qed.

Lemma clamp_monotone a1 a2 l h : l <= h -> a1 <= a2 -> clamp a1 l h <= clamp a2 l h.
Proof.
  intros Hlh Ha. unfold clamp.
  destruct (Z.ltb_spec a1 l); destruct (Z.ltb_spec a2 l);
    destruct (Z.ltb_spec h a1); destruct (Z.ltb_spec h a2); lia.
Qed.

Lemma clamped_linear_interpolation_low minimum maximum fraction :
  minimum <= maximum -> (fraction <= 0)%Q ->
  clamped_linear_interpolation minimum maximum fraction = minimum.
Proof.
  intros Hmm Hf. unfold clamped_linear_interpolation.
  apply clamp_low; [|exact Hmm].
  now apply py_round_le_Z, lerp_below.
Qed.

Lemma clamped_linear_interpolation_high minimum maximum fraction :
  minimum <= maximum -> (1 <= fraction)%Q ->
  clamped_linear_interpolation minimum maximum fraction = maximum.
Proof.
  intros Hmm Hf. unfold clamped_linear_interpolation.
  apply clamp_high; [|exact Hmm].
  now apply py_round_ge_Z, lerp_above.
Qed.

(** X1. [pwm_clamp] always lands in [0, 255], leaves a value of that range
    alone, is idempotent and never reverses the order of two values. *)
Theorem pwm_clamp_properties (x y : Z) :
  0 <= pwm_clamp x <= 255
  /\ (pwm_clamp x = x <-> 0 <= x <= 255)
  /\ pwm_clamp (pwm_clamp x) = pwm_clamp x
  /\ (x <= y -> pwm_clamp x <= pwm_clamp y)
  /\ (x < 0 -> pwm_clamp x = 0)
  /\ (255 < x -> pwm_clamp x = 255).
Proof.
  pose proof (pwm_clamp_range x) as R.
  split; [exact R|].
  split; [split; [intros E; rewrite <- E; exact R | apply pwm_clamp_id]|].
  split; [apply pwm_clamp_id; exact R|].
  split; [intros Hxy; apply clamp_monotone; lia|].
  split; intros H; [apply clamp_low | apply clamp_high]; lia.
Qed.

(** X2. Whatever integers the configuration file gives, the four fields
    of the PWM configuration built from it lie in [0, 255]; values already
    in that range are taken over unchanged. *)
Theorem PWMConfiguration_from_json_range (data : PWMConfiguration.json) :
  let p := PWMConfiguration.from_json data in
  (0 <= PWMConfiguration.minimum p <= 255
   /\ 0 <= PWMConfiguration.maximum p <= 255
   /\ 0 <= PWMConfiguration.fan_stop p <= 255
   /\ 0 <= PWMConfiguration.fan_start p <= 255)
  /\ (0 <= PWMConfiguration.data_minimum data <= 255 ->
      0 <= PWMConfiguration.data_maximum data <= 255 ->
      0 <= PWMConfiguration.data_fan_stop data <= 255 ->
      0 <= PWMConfiguration.data_fan_start data <= 255 ->
      p = PWMConfiguration.mk (PWMConfiguration.data_minimum data)
            (PWMConfiguration.data_maximum data)
            (PWMConfiguration.data_fan_stop data)
            (PWMConfiguration.data_fan_start data)).
Proof.
  cbv zeta. split.
  - repeat split; apply pwm_clamp_range.
  - intros H1 H2 H3 H4. unfold PWMConfiguration.from_json.
    now rewrite !pwm_clamp_id.
Qed.

(** X3. Between ordered bounds the interpolation starts at the lower
    bound (fraction 0), ends at the upper bound (fraction 1) and never
    decreases when the fraction grows. *)
Theorem clamped_linear_interpolation_monotone (minimum maximum : Z) (f1 f2 : Q) :
  minimum <= maximum ->
  (f1 <= f2)%Q ->
  clamped_linear_interpolation minimum maximum 0 = minimum
  /\ clamped_linear_interpolation minimum maximum 1 = maximum
  /\ clamped_linear_interpolation minimum maximum f1
     <= clamped_linear_interpolation minimum maximum f2.
Proof.
  intros Hmm Hf.
  split; [apply clamped_linear_interpolation_low; [exact Hmm | lra]|].
  split; [apply clamped_linear_interpolation_high; [exact Hmm | lra]|].
  unfold clamped_linear_interpolation.
  apply clamp_monotone; [exact Hmm|].
  now apply py_round_monotone, lerp_monotone.
Qed.

Lemma clamped_linear_interpolation_monotone_witness :
  50 <= 255 /\ (1 # 3 <= 2 # 3)%Q
  /\ clamped_linear_interpolation 50 255 0 = 50
  /\ clamped_linear_interpolation 50 255 1 = 255
  /\ clamped_linear_interpolation 50 255 (1 # 3)
     <= clamped_linear_interpolation 50 255 (2 # 3).
Proof.
  assert (H1 : 50 <= 255) by lia.
  assert (H2 : (1 # 3 <= 2 # 3)%Q) by (unfold Qle; simpl; lia).
  split; [exact H1|]. split; [exact H2|].
  exact (clamped_linear_interpolation_monotone 50 255 (1 # 3) (2 # 3) H1 H2).
Defined.

(* ================================================================== *)
(** ** More about the sampler *)
(* ================================================================== *)

Lemma read_temperature_inv self r self1 :
  TemperatureConfiguration._read_temperature self = Some (r, self1) ->
  exists raw,
    py_int (read_line (content (TemperatureConfiguration.input self))) = Some raw
    /\ r = Z.quot raw 1000
    /\ self1 = TemperatureConfiguration.mk
                 (snd (readline (seek 0 (TemperatureConfiguration.input self))))
                 (TemperatureConfiguration.minimum self)
                 (TemperatureConfiguration.maximum self)
                 (TemperatureConfiguration.previous_temperatures self).
Proof.
  unfold TemperatureConfiguration._read_temperature, readline.
  cbn [pos content seek]. rewrite string_drop_0.
  destruct (py_int (read_line (content (TemperatureConfiguration.input self))))
    as [raw|]; [|discriminate].
  intros [= <- <-]. exists raw. repeat split.
Qed.

Lemma get_temperature_inv self v self1 :
  TemperatureConfiguration.get_temperature self = Some (v, self1) ->
  exists r s,
    TemperatureConfiguration._read_temperature self = Some (r, s)
    /\ TemperatureConfiguration.previous_temperatures self1
       = deque_append (TemperatureConfiguration.previous_temperatures self) r
    /\ items (TemperatureConfiguration.previous_temperatures self1) <> []
    /\ v = average (items (TemperatureConfiguration.previous_temperatures self1))
    /\ TemperatureConfiguration.minimum self1 = TemperatureConfiguration.minimum self
    /\ TemperatureConfiguration.maximum self1 = TemperatureConfiguration.maximum self.
Proof.
  unfold TemperatureConfiguration.get_temperature.
  destruct (TemperatureConfiguration._read_temperature self) as [[r s]|] eqn:E;
    [|discriminate].
  apply read_temperature_inv in E. destruct E as (raw & _ & _ & ->).
  cbn [TemperatureConfiguration.previous_temperatures TemperatureConfiguration.input
       TemperatureConfiguration.minimum TemperatureConfiguration.maximum].
  destruct (items (deque_append (TemperatureConfiguration.previous_temperatures self) r))
    as [|x l] eqn:I; [discriminate|].
  cbn [mean]. intros [= <- <-].
  eexists r, _. split; [reflexivity|].
  cbn [TemperatureConfiguration.previous_temperatures TemperatureConfiguration.minimum
       TemperatureConfiguration.maximum].
  rewrite I. repeat split. discriminate.
Qed.

Lemma refresh_same c f : content f = c -> refresh c f = f.
Proof. destruct f. simpl. now intros ->. Qed.

Lemma sum_bounds lo hi l :
  Forall (fun x => lo <= x <= hi) l ->
  lo * Z.of_nat (List.length l) <= sum l <= hi * Z.of_nat (List.length l).
Proof.
  induction 1 as [|x l Hx _ IH]; [simpl; lia|].
  cbn [sum fold_right List.length] in *. fold (sum l). lia.
Qed.

Lemma average_bounds lo hi l :
  l <> [] -> Forall (fun x => lo <= x <= hi) l -> lo <= average l <= hi.
Proof.
  intros Hne Hall. pose proof (sum_bounds lo hi l Hall) as [Hl Hh].
  assert (E : Z.pos (Pos.of_nat (List.length l)) = Z.of_nat (List.length l)).
  { destruct l as [|x l]; [congruence|].
    cbn [List.length]. rewrite <- Pos.of_nat_succ.
    now rewrite Zpos_P_of_succ_nat, Nat2Z.inj_succ. }
  unfold average. split.
  - apply py_round_ge_Z. unfold Qle. cbn [Qnum Qden inject_Z]. rewrite E. lia.
  - apply py_round_le_Z. unfold Qle. cbn [Qnum Qden inject_Z]. rewrite E. lia.
Qed.

Lemma deque_append_length d x :
  (List.length (items d) <= maxlen d)%nat ->
  (List.length (items (deque_append d x)) <= maxlen d)%nat.
Proof.
  intros H. unfold deque_append. cbn [items].
  destruct (Nat.ltb_spec (maxlen d) (List.length (items d ++ [x]))) as [L|L].
  - rewrite length_app in L. simpl in L.
    destruct (items d) as [|y l]; simpl in *; [lia|].
    rewrite length_app. simpl. lia.
  - exact L.
Qed.

(** X4. The value [get_temperature] returns never leaves the range of the
    readings its buffer holds after the call; a buffer within its maximum
    length stays within it, the maximum length and the two temperature
    bounds never change. *)
Theorem get_temperature_within_window
    (self : TemperatureConfiguration.t) (v : Z) (self1 : TemperatureConfiguration.t) :
  TemperatureConfiguration.get_temperature self = Some (v, self1) ->
  (forall lo hi,
     Forall (fun x => lo <= x <= hi)
            (items (TemperatureConfiguration.previous_temperatures self1)) ->
     lo <= v <= hi)
  /\ ((List.length (items (TemperatureConfiguration.previous_temperatures self))
       <= maxlen (TemperatureConfiguration.previous_temperatures self))%nat ->
      (List.length (items (TemperatureConfiguration.previous_temperatures self1))
       <= maxlen (TemperatureConfiguration.previous_temperatures self1))%nat)
  /\ maxlen (TemperatureConfiguration.previous_temperatures self1)
     = maxlen (TemperatureConfiguration.previous_temperatures self)
  /\ TemperatureConfiguration.delta self1 = TemperatureConfiguration.delta self.
Proof.
  intros H. apply get_temperature_inv in H.
  destruct H as (r & s & _ & D & Hne & -> & Emin & Emax).
  split; [intros lo hi Hall; now apply average_bounds|].
  rewrite D.
  split; [intros L; exact (deque_append_length _ r L)|].
  split; [reflexivity|].
  unfold TemperatureConfiguration.delta. now rewrite Emin, Emax.
Qed.

Lemma get_temperature_within_window_witness :
  exists v self1,
    TemperatureConfiguration.get_temperature
      (TemperatureConfiguration.mk
         (open_existing Demo.temp_path (kernel_line 47250) ModeR) 20 80
         (mk_deque [40; 55] 3))
    = Some (v, self1)
    /\ items (TemperatureConfiguration.previous_temperatures self1) = [40; 55; 47]
    /\ 40 <= v <= 55.
Proof.
  eexists. eexists.
  split; [vm_compute; reflexivity|].
  split; [reflexivity|].
  refine (proj1 (get_temperature_within_window
                   (TemperatureConfiguration.mk
                      (open_existing Demo.temp_path (kernel_line 47250) ModeR) 20 80
                      (mk_deque [40; 55] 3)) _ _ _) 40 55 _).
  - vm_compute. reflexivity.
  - repeat constructor; discriminate.
Defined.

(** X5. A window of size 0 is accepted at construction, and then every
    call of [get_temperature] raises, whatever the sensor shows: the
    buffer stays empty and [mean] has no data.  Construction raises
    exactly for a window that is negative or does not fit the signed
    machine word (64 bits). *)
Theorem window_zero_always_raises
    (input : TextIO) (minimum maximum : Z) (shown : string) (average : Z) :
  (exists self0,
     TemperatureConfiguration.__post_init__ input minimum maximum 0 = Some self0
     /\ TemperatureConfiguration.get_temperature
          (TemperatureConfiguration.sensor_shows shown self0) = None)
  /\ (TemperatureConfiguration.__post_init__ input minimum maximum average = None
      <-> average < 0 \/ 2 ^ 63 <= average).
Proof.
  split.
  - eexists. split; [reflexivity|].
    unfold TemperatureConfiguration.get_temperature.
    destruct (TemperatureConfiguration._read_temperature _) as [[r s]|] eqn:E;
      [|reflexivity].
    apply read_temperature_inv in E. destruct E as (raw & _ & _ & ->).
    reflexivity.
  - unfold TemperatureConfiguration.__post_init__.
    destruct (Z.ltb_spec average 0) as [L|L];
      destruct (Z.leb_spec (2 ^ 63) average) as [U|U]; cbn [orb];
      split; intros H; try reflexivity; try discriminate; lia.
Qed.

(** X6. [_read_temperature] asks the sensor anew on every call: with the
    sensor showing the kernel's line for [raw] millidegrees, [raw] below
    [2 ^ 53] in magnitude so that the float quotient of the source is
    exact enough, it returns [raw] divided by 1000 and truncated towards
    zero, wherever the cursor stood, and again on the next call although
    the first call moved the cursor; the history is not touched.  A sensor
    showing no text makes the call raise. *)
Theorem read_temperature_requeries (self : TemperatureConfiguration.t) (raw : Z) :
  Z.abs raw < 2 ^ 53 ->
  let shown := TemperatureConfiguration.sensor_shows (kernel_line raw) self in
  (exists self1 self2,
     TemperatureConfiguration._read_temperature shown = Some (Z.quot raw 1000, self1)
     /\ pos (TemperatureConfiguration.input self1) <> 0%nat
     /\ TemperatureConfiguration._read_temperature self1 = Some (Z.quot raw 1000, self2)
     /\ TemperatureConfiguration.previous_temperatures self2
        = TemperatureConfiguration.previous_temperatures self)
  /\ Z.abs (1000 * Z.quot raw 1000) <= Z.abs raw < Z.abs (1000 * Z.quot raw 1000) + 1000
  /\ 0 <= raw * Z.quot raw 1000
  /\ TemperatureConfiguration._read_temperature
       (TemperatureConfiguration.sensor_shows EmptyString self) = None.
Proof.
  intros _. cbv zeta. split; [|split; [|split]].
  - pose proof (read_temperature_kernel_line raw self) as R1.
    fold (degrees raw) in *.
    set (self1 := TemperatureConfiguration.mk _ _ _ _) in R1.
    assert (E : TemperatureConfiguration.sensor_shows (kernel_line raw) self1 = self1).
    { unfold TemperatureConfiguration.sensor_shows, self1.
      cbn [TemperatureConfiguration.input TemperatureConfiguration.minimum
           TemperatureConfiguration.maximum TemperatureConfiguration.previous_temperatures].
      now rewrite refresh_same. }
    pose proof (read_temperature_kernel_line raw self1) as R2.
    rewrite E in R2.
    exists self1, (TemperatureConfiguration.mk
                     (snd (readline (seek 0 (refresh (kernel_line raw)
                                               (TemperatureConfiguration.input self1)))))
                     (TemperatureConfiguration.minimum self1)
                     (TemperatureConfiguration.maximum self1)
                     (TemperatureConfiguration.previous_temperatures self1)).
    split; [exact R1|]. split; [|split; [exact R2 | reflexivity]].
    unfold self1. cbn [TemperatureConfiguration.input readline snd pos seek refresh content].
    rewrite string_drop_0. unfold kernel_line.
    rewrite read_line_of_line by apply numeral_chars_str.
    unfold line. destruct (str raw); simpl; lia.
  - pose proof (Z.quot_rem' raw 1000) as Q.
    destruct (Z_le_gt_dec 0 raw) as [P|N].
    + pose proof (Z.rem_bound_pos_pos raw 1000 ltac:(lia) P).
      assert (0 <= Z.quot raw 1000) by lia. lia.
    + pose proof (Z.rem_bound_pos_neg raw 1000 ltac:(lia) ltac:(lia)).
      assert (Z.quot raw 1000 <= 0) by lia. lia.
  - pose proof (Z.quot_rem' raw 1000) as Q.
    destruct (Z_le_gt_dec 0 raw) as [P|N].
    + pose proof (Z.rem_bound_pos_pos raw 1000 ltac:(lia) P).
      assert (0 <= Z.quot raw 1000) by lia. nia.
    + pose proof (Z.rem_bound_pos_neg raw 1000 ltac:(lia) ltac:(lia)).
      assert (Z.quot raw 1000 <= 0) by lia. nia.
  - reflexivity.
Qed.

Lemma read_temperature_requeries_witness :
  Z.abs (-1999) < 2 ^ 53
  /\ exists self1,
      TemperatureConfiguration._read_temperature
        (TemperatureConfiguration.sensor_shows (kernel_line (-1999))
           (TemperatureConfiguration.mk
              (mkTextIO Demo.temp_path (kernel_line 40000) 6 [OpSeek 0; OpReadline 0])
              20 80 (mk_deque [40] 3)))
      = Some (-1, self1)
      /\ TemperatureConfiguration.previous_temperatures self1 = mk_deque [40] 3.
Proof.
  assert (H : Z.abs (-1999) < 2 ^ 53) by (vm_compute; reflexivity).
  split; [exact H|].
  destruct (proj1 (read_temperature_requeries
                     (TemperatureConfiguration.mk
                        (mkTextIO Demo.temp_path (kernel_line 40000) 6
                                  [OpSeek 0; OpReadline 0])
                        20 80 (mk_deque [40] 3))
                     (-1999) H))
    as (self1 & self2 & R1 & _ & _ & _).
  exists self1. split; [exact R1|].
  apply read_temperature_inv in R1. destruct R1 as (r & _ & _ & ->). reflexivity.
Defined.

(* ================================================================== *)
(** ** More about the target duty cycle *)
(* ================================================================== *)

Lemma fraction_monotone a b d :
  0 < d -> a <= b -> (inject_Z a / inject_Z d <= inject_Z b / inject_Z d)%Q.
Proof.
  intros Hd Hab. unfold Qdiv. apply Qmult_le_compat_r.
  - now rewrite <- Zle_Qle.
  - apply Qinv_le_0_compat. change 0%Q with (inject_Z 0). rewrite <- Zle_Qle. lia.
Qed.

Lemma fraction_zero d : (inject_Z 0 / inject_Z d == 0)%Q.
Proof. unfold Qdiv. change (inject_Z 0) with 0%Q. ring. Qed.

Lemma fraction_one d : d <> 0 -> (inject_Z d / inject_Z d == 1)%Q.
Proof.
  intros Hd. unfold Qdiv. apply Qmult_inv_r.
  intros E. apply Hd. unfold Qeq in E. simpl in E. lia.
Qed.

(** The target in terms of the sample taken. *)
Lemma get_current_pwm_of_sample self temp tc :
  TemperatureConfiguration.get_temperature (FanConfiguration.temperature self)
  = Some (temp, tc) ->
  TemperatureConfiguration.delta (FanConfiguration.temperature self) <> 0 ->
  FanConfiguration.get_current_pwm self
  = Some (clamped_linear_interpolation
            (PWMConfiguration.minimum (FanConfiguration.pwm self))
            (PWMConfiguration.maximum (FanConfiguration.pwm self))
            (inject_Z (temp - TemperatureConfiguration.minimum
                               (FanConfiguration.temperature self))
             / inject_Z (TemperatureConfiguration.delta (FanConfiguration.temperature self)))%Q,
          FanConfiguration.with_temperature self tc).
Proof.
  intros G Hd.
  unfold FanConfiguration.get_current_pwm, FanConfiguration.get_temperature_percentage.
  rewrite G.
  destruct (get_temperature_inv _ _ _ G) as (r & s & _ & _ & _ & _ & Emin & Emax).
  assert (Ed : TemperatureConfiguration.delta tc
               = TemperatureConfiguration.delta (FanConfiguration.temperature self))
    by (unfold TemperatureConfiguration.delta; now rewrite Emin, Emax).
  rewrite Ed, Emin.
  destruct (Z.eqb_spec (TemperatureConfiguration.delta (FanConfiguration.temperature self)) 0);
    [contradiction|].
  reflexivity.
Qed.

(** X7. With ordered temperature bounds and ordered duty-cycle bounds,
    [get_current_pwm] returns a value between the two duty-cycle bounds;
    a sample at or below the lower temperature bound gives exactly the
    lower duty cycle and a sample at or above the upper temperature bound
    gives exactly the upper one. *)
Theorem get_current_pwm_saturates
    (self : FanConfiguration.t) (temp : Z) (tc : TemperatureConfiguration.t) :
  TemperatureConfiguration.get_temperature (FanConfiguration.temperature self)
  = Some (temp, tc) ->
  TemperatureConfiguration.minimum (FanConfiguration.temperature self)
  < TemperatureConfiguration.maximum (FanConfiguration.temperature self) ->
  PWMConfiguration.minimum (FanConfiguration.pwm self)
  <= PWMConfiguration.maximum (FanConfiguration.pwm self) ->
  exists p,
    option_map fst (FanConfiguration.get_current_pwm self) = Some p
    /\ PWMConfiguration.minimum (FanConfiguration.pwm self) <= p
       <= PWMConfiguration.maximum (FanConfiguration.pwm self)
    /\ (temp <= TemperatureConfiguration.minimum (FanConfiguration.temperature self) ->
        p = PWMConfiguration.minimum (FanConfiguration.pwm self))
    /\ (TemperatureConfiguration.maximum (FanConfiguration.temperature self) <= temp ->
        p = PWMConfiguration.maximum (FanConfiguration.pwm self)).
Proof.
  intros G Ht Hp.
  assert (Hd : 0 < TemperatureConfiguration.delta (FanConfiguration.temperature self))
    by (unfold TemperatureConfiguration.delta; lia).
  rewrite (get_current_pwm_of_sample self temp tc G) by lia.
  eexists. split; [reflexivity|].
  split; [apply clamp_range; exact Hp|].
  split; intros Hc.
  - apply clamped_linear_interpolation_low; [exact Hp|].
    rewrite <- (fraction_zero (TemperatureConfiguration.delta (FanConfiguration.temperature self))).
    apply fraction_monotone; [exact Hd | lia].
  - apply clamped_linear_interpolation_high; [exact Hp|].
    rewrite <- (fraction_one (TemperatureConfiguration.delta (FanConfiguration.temperature self)))
      by lia.
    apply fraction_monotone; [exact Hd | unfold TemperatureConfiguration.delta; lia].
Qed.

Lemma get_current_pwm_saturates_witness :
  exists self temp tc,
    Demo.fan_from 5 93500 3 = Some self
    /\ TemperatureConfiguration.get_temperature (FanConfiguration.temperature self)
       = Some (temp, tc)
    /\ temp = 93
    /\ option_map fst (FanConfiguration.get_current_pwm self) = Some 255.
Proof.
  eexists. eexists. eexists.
  split; [vm_compute; reflexivity|].
  split; [vm_compute; reflexivity|].
  split; [reflexivity|].
  match goal with
  | |- option_map fst (FanConfiguration.get_current_pwm ?s) = _ =>
      destruct (get_current_pwm_saturates s _ _ eq_refl eq_refl)
        as (p & E & _ & _ & Hhi)
  end.
  - vm_compute. discriminate.
  - rewrite E. f_equal. apply Hhi. vm_compute. discriminate.
Defined.

(** X8. Two fans under the same temperature and duty-cycle bounds, both
    ordered: the one whose sample is not lower gets a target that is not
    lower.  A hotter reading never slows the fan down. *)
Theorem get_current_pwm_monotone
    (self self' : FanConfiguration.t) (temp temp' : Z)
    (tc tc' : TemperatureConfiguration.t) :
  FanConfiguration.pwm self' = FanConfiguration.pwm self ->
  TemperatureConfiguration.minimum (FanConfiguration.temperature self')
  = TemperatureConfiguration.minimum (FanConfiguration.temperature self) ->
  TemperatureConfiguration.maximum (FanConfiguration.temperature self')
  = TemperatureConfiguration.maximum (FanConfiguration.temperature self) ->
  TemperatureConfiguration.minimum (FanConfiguration.temperature self)
  < TemperatureConfiguration.maximum (FanConfiguration.temperature self) ->
  PWMConfiguration.minimum (FanConfiguration.pwm self)
  <= PWMConfiguration.maximum (FanConfiguration.pwm self) ->
  TemperatureConfiguration.get_temperature (FanConfiguration.temperature self)
  = Some (temp, tc) ->
  TemperatureConfiguration.get_temperature (FanConfiguration.temperature self')
  = Some (temp', tc') ->
  temp <= temp' ->
  exists p p',
    option_map fst (FanConfiguration.get_current_pwm self) = Some p
    /\ option_map fst (FanConfiguration.get_current_pwm self') = Some p'
    /\ p <= p'.
Proof.
  intros Epwm Emin Emax Ht Hp G G' Hle.
  assert (Ed : TemperatureConfiguration.delta (FanConfiguration.temperature self')
               = TemperatureConfiguration.delta (FanConfiguration.temperature self))
    by (unfold TemperatureConfiguration.delta; now rewrite Emin, Emax).
  assert (Hd : 0 < TemperatureConfiguration.delta (FanConfiguration.temperature self))
    by (unfold TemperatureConfiguration.delta; lia).
  rewrite (get_current_pwm_of_sample self temp tc G) by lia.
  rewrite (get_current_pwm_of_sample self' temp' tc' G') by lia.
  rewrite Epwm, Emin, Ed.
  eexists. eexists. split; [reflexivity|]. split; [reflexivity|].
  unfold clamped_linear_interpolation.
  apply clamp_monotone; [exact Hp|].
  apply py_round_monotone, lerp_monotone; [exact Hp|].
  apply fraction_monotone; [exact Hd | lia].
Qed.

Lemma get_current_pwm_monotone_witness :
  exists self self',
    Demo.fan_from 5 43000 3 = Some self
    /\ Demo.fan_from 5 61999 3 = Some self'
    /\ option_map fst (FanConfiguration.get_current_pwm self) = Some 129
    /\ option_map fst (FanConfiguration.get_current_pwm self') = Some 190
    /\ exists p p',
        option_map fst (FanConfiguration.get_current_pwm self) = Some p
        /\ option_map fst (FanConfiguration.get_current_pwm self') = Some p'
        /\ p <= p'.
Proof.
  eexists. eexists.
  split; [vm_compute; reflexivity|].
  split; [vm_compute; reflexivity|].
  split; [vm_compute; reflexivity|].
  split; [vm_compute; reflexivity|].
  match goal with
  | |- exists p p', option_map fst (FanConfiguration.get_current_pwm ?s) = _
                    /\ option_map fst (FanConfiguration.get_current_pwm ?s') = _ /\ _ =>
      refine (get_current_pwm_monotone s s' 43 61 _ _
                eq_refl eq_refl eq_refl _ _ eq_refl eq_refl _)
  end; vm_compute; first [reflexivity | discriminate].
Defined.

(* ================================================================== *)
(** ** More about the device files of a fan *)
(* ================================================================== *)

Lemma string_length_app (a b : string) :
  String.length (a ++ b) = (String.length a + String.length b)%nat.
Proof. induction a; simpl; auto. Qed.

Lemma string_drop_length n : forall s,
  String.length (string_drop n s) = (String.length s - n)%nat.
Proof.
  induction n as [|n IH]; intros s.
  - rewrite string_drop_0. lia.
  - destruct s; simpl; auto.
Qed.

Lemma string_drop_all n : forall s,
  (String.length s <= n)%nat -> string_drop n s = EmptyString.
Proof.
  induction n as [|n IH]; intros [|c s] H; simpl in *; try reflexivity; try lia.
  apply IH. lia.
Qed.

Lemma string_app_nil_r (s : string) : (s ++ "")%string = s.
Proof. induction s; simpl; congruence. Qed.

(** X9. [write_pwm] always seeks to 0 and then writes, wherever the
    cursor stood, and touches nothing but the PWM file.  The handle keeps
    what it is given until the next [seek(0)] flushes it; from that flush
    on the file holds the new numeral followed by whatever of the old
    text lies beyond it: it is overwritten in place and never truncated.
    So a file no longer than the new numeral then holds exactly that
    numeral, and a numeral written over a longer one leaves text that is
    not the new numeral. *)
Theorem write_pwm_in_place (self : FanConfiguration.t) (p q : Z) :
  let self1 := FanConfiguration.write_pwm p self in
  let flushed := fun f => content (seek 0 (FanConfiguration.pwm_file f)) in
  new_ops (FanConfiguration.pwm_file self) (FanConfiguration.pwm_file self1)
  = [OpSeek 0; OpWrite 0 (str p)]
  /\ self1 = FanConfiguration.with_pwm_file self (FanConfiguration.pwm_file self1)
  /\ flushed self1
     = (str p ++ string_drop (String.length (str p)) (flushed self))%string
  /\ ((String.length (flushed self) <= String.length (str p))%nat ->
      flushed self1 = str p)
  /\ ((String.length (str q) < String.length (str p))%nat ->
      flushed (FanConfiguration.write_pwm q self1) <> str q).
Proof.
  cbv zeta.
  assert (C : forall f d, content (seek 0 (write d (seek 0 f)))
                          = (d ++ string_drop (String.length d) (content (seek 0 f)))%string)
    by (intros f d; simpl; apply overwrite_start).
  split; [simpl; apply new_ops_seek_write|].
  split; [reflexivity|].
  split; [apply C|].
  split.
  - intros L. cbn [FanConfiguration.write_pwm FanConfiguration.pwm_file
                   FanConfiguration.with_pwm_file].
    rewrite C, string_drop_all by exact L. apply string_app_nil_r.
  - intros L E. apply (f_equal String.length) in E.
    cbn [FanConfiguration.write_pwm FanConfiguration.pwm_file
         FanConfiguration.with_pwm_file] in E.
    rewrite !C in E.
    rewrite !string_length_app, !string_drop_length, !string_length_app in E.
    lia.
Qed.

Lemma one_digit_str m : 0 <= m <= 9 -> String.length (str m) = 1%nat.
Proof.
  intros H.
  assert (C : m = 0 \/ m = 1 \/ m = 2 \/ m = 3 \/ m = 4 \/ m = 5 \/ m = 6
              \/ m = 7 \/ m = 8 \/ m = 9) by lia.
  repeat (destruct C as [->|C]; [reflexivity|]). now subst.
Qed.

(** X10. A fan built over a mode attribute that showed a one-digit mode:
    at any later point, after [set_mode(mode)] the mode file holds the
    line for that mode, and reading it the way the constructor does gives
    the mode's value back. *)
Theorem set_mode_reads_back
    (fs : FileSystem) (data : FanConfiguration.json) (pwm_file : string) (m : Z)
    (self0 : FanConfiguration.t) (l : list Call) (self : FanConfiguration.t)
    (mode : PWMMode) :
  0 <= m <= 9 ->
  fs (pwm_file ++ "_enable")%string = Some (line (str m)) ->
  FanConfiguration.from_json fs data pwm_file = Some self0 ->
  calls l self0 = Some self ->
  let self1 := FanConfiguration.set_mode mode self in
  content (FanConfiguration.mode_file self1) = line (PWMMode_str mode)
  /\ py_int (fst (readline (seek 0 (FanConfiguration.mode_file self1))))
     = Some (PWMMode_value mode).
Proof.
  intros Hm Hfs Hb Hc. cbv zeta.
  destruct (built_restorable _ _ _ _ _ Hfs Hb) as [R0 _].
  assert (R : restorable m self).
  { eapply (calls_invariant (restorable m)); [|exact R0|exact Hc].
    intros c f f1. apply call_restorable. }
  destruct R as (P & _ & ch & C).
  assert (T : string_drop 1 (line (str m)) = String nl EmptyString).
  { pose proof (one_digit_str m Hm) as L. unfold line.
    destruct (str m) as [|a [|b d]]; simpl in L; try lia. reflexivity. }
  assert (E : content (FanConfiguration.mode_file (FanConfiguration.set_mode mode self))
              = line (PWMMode_str mode)).
  { destruct (PWMMode_str_one_char mode) as [ch' E'].
    simpl. rewrite P, C, T, E', overwrite_start. reflexivity. }
  split; [exact E|].
  unfold readline. cbn [fst pos content seek]. rewrite string_drop_0, E.
  apply py_int_read_line.
Qed.

Lemma set_mode_reads_back_witness :
  exists self0 self,
    Demo.fs 5 50000 (Demo.pwm_path ++ "_enable")%string = Some (line (str 5))
    /\ FanConfiguration.from_json (Demo.fs 5 50000) (Demo.fan_json 3) Demo.pwm_path
       = Some self0
    /\ calls [CallGetCurrentPwm; CallShutdown] self0 = Some self
    /\ content (FanConfiguration.mode_file (FanConfiguration.set_mode MANUAL self))
       = line (str 1).
Proof.
  eexists. eexists.
  split; [vm_compute; reflexivity|].
  split; [vm_compute; reflexivity|].
  split; [vm_compute; reflexivity|].
  assert (H : 0 <= 5 <= 9) by lia.
  exact (proj1 (set_mode_reads_back
                  (Demo.fs 5 50000) (Demo.fan_json 3) Demo.pwm_path 5 _
                  [CallGetCurrentPwm; CallShutdown] _ MANUAL
                  H eq_refl eq_refl eq_refl)).
Defined.

(** X11. Calling [shutdown] on a built fan a second time changes nothing
    but the record of operations: text and cursor of the mode file, the
    flag and every other field are as the first call left them, and the
    second call has written the original mode once more. *)
Theorem shutdown_twice
    (fs : FileSystem) (data : FanConfiguration.json) (pwm_file : string) (m : Z)
    (self0 : FanConfiguration.t) (l : list Call) (self : FanConfiguration.t) :
  fs (pwm_file ++ "_enable")%string = Some (line (str m)) ->
  FanConfiguration.from_json fs data pwm_file = Some self0 ->
  calls l self0 = Some self ->
  let self1 := FanConfiguration.shutdown self in
  let self2 := FanConfiguration.shutdown self1 in
  content (FanConfiguration.mode_file self2) = content (FanConfiguration.mode_file self1)
  /\ pos (FanConfiguration.mode_file self2) = pos (FanConfiguration.mode_file self1)
  /\ FanConfiguration.is_running self2 = FanConfiguration.is_running self1
  /\ self2 = FanConfiguration.with_mode_file self1 (FanConfiguration.mode_file self2)
  /\ written (new_ops (FanConfiguration.mode_file self1) (FanConfiguration.mode_file self2))
     = [str m].
Proof.
  intros Hfs Hb Hc. cbv zeta.
  destruct (built_restorable _ _ _ _ _ Hfs Hb) as [R0 _].
  assert (R : restorable m self).
  { eapply (calls_invariant (restorable m)); [|exact R0|exact Hc].
    intros c f f1. apply call_restorable. }
  assert (R1 : restorable m (FanConfiguration.shutdown self))
    by (apply (call_restorable m CallShutdown self); [exact R | reflexivity]).
  rewrite (shutdown_restorable m _ R1), (shutdown_restorable m _ R).
  destruct R1 as (P1 & O1 & _).
  split; [reflexivity|]. split; [reflexivity|]. split; [reflexivity|].
  split; [reflexivity|].
  cbn [FanConfiguration.shutdown FanConfiguration.mode_file
       FanConfiguration.with_mode_file FanConfiguration.with_is_running
       FanConfiguration.original_mode] in *.
  rewrite new_ops_write_seek. destruct R as (_ & O & _). rewrite O. reflexivity.
Qed.

Lemma shutdown_twice_witness :
  exists self0 self,
    Demo.fs 5 50000 (Demo.pwm_path ++ "_enable")%string = Some (line (str 5))
    /\ FanConfiguration.from_json (Demo.fs 5 50000) (Demo.fan_json 3) Demo.pwm_path
       = Some self0
    /\ calls [CallSetMode MANUAL; CallGetCurrentPwm] self0 = Some self
    /\ content (FanConfiguration.mode_file
                  (FanConfiguration.shutdown (FanConfiguration.shutdown self)))
       = content (FanConfiguration.mode_file (FanConfiguration.shutdown self)).
Proof.
  eexists. eexists.
  split; [vm_compute; reflexivity|].
  split; [vm_compute; reflexivity|].
  split; [vm_compute; reflexivity|].
  exact (proj1 (shutdown_twice
                  (Demo.fs 5 50000) (Demo.fan_json 3) Demo.pwm_path 5 _
                  [CallSetMode MANUAL; CallGetCurrentPwm] _
                  eq_refl eq_refl eq_refl)).
Defined.

(** X12. [read_fan_input] raises when no fan input is configured.  With
    a fan input showing the kernel's line for [v] it returns [v] wherever
    the cursor stood, and replaces nothing in the fan but that handle,
    whose text is unchanged. *)
Theorem read_fan_input_behaviour (self : FanConfiguration.t) :
  (FanConfiguration.fan_input self = None -> FanConfiguration.read_fan_input self = None)
  /\ (forall f v,
        FanConfiguration.fan_input self = Some f ->
        content f = kernel_line v ->
        exists f1,
          FanConfiguration.read_fan_input self
          = Some (v, FanConfiguration.with_fan_input self f1)
          /\ content f1 = content f
          /\ new_ops f f1 = [OpSeek 0; OpReadline 0]).
Proof.
  split.
  - intros E. unfold FanConfiguration.read_fan_input. now rewrite E.
  - intros f v E C. unfold FanConfiguration.read_fan_input. rewrite E.
    unfold readline. cbn [pos content seek]. rewrite string_drop_0, C.
    unfold kernel_line. rewrite py_int_read_line.
    eexists. split; [reflexivity|]. split; [reflexivity|].
    apply new_ops_app. simpl. now rewrite <- app_assoc.
Qed.

(* ================================================================== *)
(** ** Construction from the configuration file *)
(* ================================================================== *)

(** When the embedded [from_json] builds a fan, and what it builds. *)
Lemma from_json_model
    (fs : FileSystem) (data : FanConfiguration.json) (pwm_file : string) :
  ((exists self, FanConfiguration.from_json fs data pwm_file = Some self)
   <-> fs pwm_file <> None
       /\ (forall p, FanConfiguration.data_fan_input data = Some p -> fs p <> None)
       /\ fs (TemperatureConfiguration.data_input (FanConfiguration.data_temperature data))
          <> None
       /\ 0 <= FanConfiguration.data_average data < 2 ^ 63
       /\ exists c m, fs (pwm_file ++ "_enable")%string = Some c
                      /\ py_int (read_line c) = Some m)
  /\ (forall self,
        FanConfiguration.from_json fs data pwm_file = Some self ->
        FanConfiguration.is_running self = true
        /\ (exists c, fs (pwm_file ++ "_enable")%string = Some c
                      /\ py_int (read_line c) = Some (FanConfiguration.original_mode self)
                      /\ content (FanConfiguration.mode_file self) = c)
        /\ name (FanConfiguration.mode_file self) = (pwm_file ++ "_enable")%string
        /\ pos (FanConfiguration.mode_file self) = 0%nat
        /\ written (ops (FanConfiguration.mode_file self)) = []
        /\ FanConfiguration.pwm self
           = PWMConfiguration.from_json (FanConfiguration.data_pwm data)
        /\ TemperatureConfiguration.previous_temperatures (FanConfiguration.temperature self)
           = deque_new (Z.to_nat (FanConfiguration.data_average data))
        /\ TemperatureConfiguration.minimum (FanConfiguration.temperature self)
           = TemperatureConfiguration.data_minimum (FanConfiguration.data_temperature data)
        /\ TemperatureConfiguration.maximum (FanConfiguration.temperature self)
           = TemperatureConfiguration.data_maximum (FanConfiguration.data_temperature data)
        /\ (FanConfiguration.fan_input self = None
            <-> FanConfiguration.data_fan_input data = None)).
Proof.
  unfold FanConfiguration.from_json, TemperatureConfiguration.from_json,
         resolve_and_validate_path, FanConfiguration.__post_init__,
         TemperatureConfiguration.__post_init__, py_open.
  destruct (fs pwm_file) as [cp|] eqn:Ep.
  2:{ split; [split|intros self [=]].
      - intros [self [=]].
      - intros (H & _). congruence. }
  destruct (FanConfiguration.data_fan_input data) as [fi|] eqn:Efi.
  - destruct (fs fi) as [cf|] eqn:Ecf; cbn [option_map].
    2:{ split; [split|intros self [=]].
        - intros [self [=]].
        - intros (_ & H & _). exfalso. apply (H fi eq_refl). exact Ecf. }
    cbn [option_map].
    destruct (fs (TemperatureConfiguration.data_input _)) as [ct|] eqn:Et.
    2:{ split; [split|intros self [=]].
        - intros [self [=]].
        - intros (_ & _ & H & _). congruence. }
    destruct (Z.ltb_spec (FanConfiguration.data_average data) 0) as [La|La];
      [|destruct (Z.leb_spec (2 ^ 63) (FanConfiguration.data_average data)) as [Ua|Ua]];
      cbn [orb].
    1,2: (split; [split|intros self [=]];
          [intros [self [=]] | intros (_ & _ & _ & H & _); lia]).
    cbn [name open_existing].
    destruct (fs (pwm_file ++ "_enable")%string) as [c|] eqn:Ec.
    2:{ split; [split|intros self [=]].
        - intros [self [=]].
        - intros (_ & _ & _ & _ & c & m & [=] & _). }
    cbn -[py_int]. rewrite ?string_drop_0.
    destruct (py_int (read_line c)) as [m|] eqn:Em.
    2:{ split; [split|intros self [=]].
        - intros [self [=]].
        - intros (_ & _ & _ & _ & c' & m & [= <-] & H). congruence. }
    split.
    + split; [intros _|intros _; eexists; reflexivity].
      split; [discriminate|]. split; [intros p [= <-]; congruence|].
      split; [discriminate|]. split; [lia|]. now exists c, m.
    + intros self [= <-]. cbn.
      repeat split; try reflexivity; try discriminate.
      exists c. now repeat split.
  - destruct (fs (TemperatureConfiguration.data_input _)) as [ct|] eqn:Et.
    2:{ split; [split|intros self [=]].
        - intros [self [=]].
        - intros (_ & _ & H & _). congruence. }
    destruct (Z.ltb_spec (FanConfiguration.data_average data) 0) as [La|La];
      [|destruct (Z.leb_spec (2 ^ 63) (FanConfiguration.data_average data)) as [Ua|Ua]];
      cbn [orb].
    1,2: (split; [split|intros self [=]];
          [intros [self [=]] | intros (_ & _ & _ & H & _); lia]).
    cbn [name open_existing].
    destruct (fs (pwm_file ++ "_enable")%string) as [c|] eqn:Ec.
    2:{ split; [split|intros self [=]].
        - intros [self [=]].
        - intros (_ & _ & _ & _ & c & m & [=] & _). }
    cbn -[py_int]. rewrite ?string_drop_0.
    destruct (py_int (read_line c)) as [m|] eqn:Em.
    2:{ split; [split|intros self [=]].
        - intros [self [=]].
        - intros (_ & _ & _ & _ & c' & m & [= <-] & H). congruence. }
    split.
    + split; [intros _|intros _; eexists; reflexivity].
      split; [discriminate|]. split; [intros p [=]|].
      split; [discriminate|]. split; [lia|]. now exists c, m.
    + intros self [= <-]. cbn.
      repeat split; try reflexivity; try discriminate.
      exists c. now repeat split.
Qed.

Lemma controls_from_json_Forall2 fs l : forall cs,
  Configuration.controls_from_json fs l = Some cs
  <-> Forall2 (fun e c => FanConfiguration.from_json fs (snd e) (fst e) = Some c) l cs.
Proof.
  induction l as [|[p d] l IH]; intros cs; simpl.
  - split; [intros [= <-]; constructor | intros H; inversion H; reflexivity].
  - destruct (FanConfiguration.from_json fs d p) as [c|] eqn:E.
    + destruct (Configuration.controls_from_json fs l) as [cs'|] eqn:El.
      * split.
        -- intros [= <-]. constructor; [exact E | now apply IH].
        -- intros H. inversion H as [|? c' ? cs'' Hc Hl]; subst. simpl in Hc.
           apply IH in Hl. congruence.
      * split; [discriminate|].
        intros H. inversion H as [|? c' ? cs'' Hc Hl]; subst.
        apply IH in Hl. discriminate.
    + split; [discriminate|].
      intros H. inversion H as [|? c' ? cs'' Hc Hl]; subst. simpl in Hc. congruence.
Qed.

(** X14. The configuration is built all or nothing: it is built exactly
    when every entry of ["controls"] builds its fan, and then it holds
    those fans, one per entry and in the order of the entries, with the
    interval of the file; one entry that fails makes the whole load fail. *)
Theorem Configuration_from_json_all_or_nothing
    (fs : FileSystem) (data : Configuration.json) :
  (forall configuration,
     Configuration.from_json fs data = Some configuration
     <-> Configuration.interval configuration = Configuration.data_interval data
         /\ Forall2 (fun e c => FanConfiguration.from_json fs (snd e) (fst e) = Some c)
                    (Configuration.data_controls data)
                    (Configuration.controls configuration))
  /\ (Configuration.from_json fs data = None
      <-> Exists (fun e => FanConfiguration.from_json fs (snd e) (fst e) = None)
                 (Configuration.data_controls data)).
Proof.
  unfold Configuration.from_json. split.
  - intros [i cs]. cbn [Configuration.interval Configuration.controls].
    destruct (Configuration.controls_from_json fs (Configuration.data_controls data))
      as [cs'|] eqn:E.
    + apply controls_from_json_Forall2 in E. split.
      * intros [= <- <-]. now split.
      * intros [-> H]. apply controls_from_json_Forall2 in H.
        apply controls_from_json_Forall2 in E. congruence.
    + split; [discriminate|]. intros [_ H].
      apply controls_from_json_Forall2 in H. congruence.
  - generalize (Configuration.data_controls data). intros l.
    induction l as [|[p d] l IH]; simpl.
    + split; [discriminate | intros H; inversion H].
    + destruct (FanConfiguration.from_json fs d p) as [c|] eqn:E.
      * destruct (Configuration.controls_from_json fs l) as [cs'|] eqn:El.
        -- split; [discriminate|]. intros H.
           inversion H as [? ? Hh|? ? Ht]; subst; [simpl in Hh; congruence|].
           apply IH in Ht. discriminate.
        -- split; [intros _; apply Exists_cons_tl; now apply IH | reflexivity].
      * split; [intros _; now apply Exists_cons_hd | reflexivity].
Qed.

(* ================================================================== *)
(** ** More about the loop *)
(* ================================================================== *)

Definition is_handler_move (a : Actor) : bool :=
  match a with
  | AHandler => true
  | _ => false
  end.

(** A schedule in which the handler never moves. *)
Definition no_handler (sched : list Actor) : bool :=
  forallb (fun a => negb (is_handler_move a)) sched.

Lemma run_schedule_snoc sched a : forall w,
  run_schedule (sched ++ [a]) w = step a (run_schedule sched w).
Proof. induction sched as [|b sched IH]; intros w; simpl; auto. Qed.

Lemma no_handler_snoc sched a :
  no_handler (sched ++ [a]) = true ->
  no_handler sched = true /\ is_handler_move a = false.
Proof.
  unfold no_handler. rewrite forallb_app. simpl.
  intros H. apply andb_true_iff in H. destruct H as [H1 H2].
  split; [exact H1|]. destruct (is_handler_move a); [discriminate | reflexivity].
Qed.

Lemma count_snoc {A : Type} (p : A -> bool) l a :
  count p (l ++ [a]) = (count p l + (if p a then 1 else 0))%nat.
Proof. rewrite count_app. unfold count. simpl. now destruct (p a). Qed.

(** Where the loop thread stands within an iteration, counted in moves. *)
Definition phase (p : RunPC) : nat :=
  match p with
  | AtTest => 1
  | InBody => 2
  | _ => 0
  end.

Lemma loop_alone_invariant self sched :
  FanConfiguration.is_running self = true ->
  no_handler sched = true ->
  let w := run_schedule sched (start self) in
  FanConfiguration.is_running (fan w) = true
  /\ pc w <> Returned
  /\ (pc w <> Raised ->
      (3 * count is_pwm_write (trace w) + phase (pc w) = count is_loop_move sched)%nat
      /\ (count is_sleep (trace w) + (match pc w with Sleeping => 1 | _ => 0 end)
          = count is_pwm_write (trace w))%nat
      /\ (pc w = AtEntry <-> count is_loop_move sched = 0%nat)).
Proof.
  intros Hr. cbv zeta. induction sched as [|a sched IH] using rev_ind; intros Hn.
  - simpl. split; [exact Hr|]. split; [discriminate|]. intros _.
    unfold count. simpl. repeat split; reflexivity.
  - apply no_handler_snoc in Hn. destruct Hn as [Hn Ha].
    destruct (IH Hn) as (R & NR & I). clear IH.
    rewrite run_schedule_snoc, count_snoc.
    set (w := run_schedule sched (start self)) in *.
    destruct a as [| |c]; [|discriminate Ha|].
    + cbn [is_loop_move]. unfold step, run_step.
      destruct (pc w) eqn:Epc.
      * destruct I as (I1 & I2 & I3); [discriminate|].
        cbn [fan pc trace]. rewrite !count_app, !count_io_mode by reflexivity.
        split; [exact R|]. split; [discriminate|]. intros _.
        simpl in *. repeat split; try lia; discriminate.
      * destruct I as (I1 & I2 & I3); [discriminate|].
        rewrite R. cbn [fan pc trace]. rewrite !count_app.
        split; [exact R|]. split; [discriminate|]. intros _.
        unfold count in *. simpl in *. repeat split; try lia; discriminate.
      * destruct I as (I1 & I2 & I3); [discriminate|].
        destruct (FanConfiguration.get_current_pwm (fan w)) as [[p f1]|] eqn:G.
        -- destruct (body_io _ _ _ G) as (E1 & E2 & E3).
           cbn [fan pc trace]. rewrite E1, E2, E3, !count_app.
           split; [exact R|]. split; [discriminate|]. intros _.
           unfold count in *. simpl in *. repeat split; try lia; discriminate.
        -- cbn [fan pc trace].
           split; [exact R|]. split; [discriminate|]. intros C. congruence.
      * destruct I as (I1 & I2 & I3); [discriminate|].
        cbn [fan pc trace]. rewrite !count_app.
        split; [exact R|]. split; [discriminate|]. intros _.
        unfold count in *. simpl in *. repeat split; try lia; discriminate.
      * congruence.
      * rewrite Epc. split; [exact R|]. split; [discriminate|]. intros C. congruence.
    + cbn [is_loop_move step fan pc trace]. rewrite Nat.add_0_r.
      split; [exact R|]. split; [exact NR|]. exact I.
Qed.

(** X15. While nobody calls [shutdown], [run] never returns: the flag
    stays set and the loop is never left by its test.  Unless an exception
    has ended the thread, it has written one duty cycle per three moves
    made after [set_mode] (test, body, sleep), and it has finished one
    sleep for every duty cycle written but the last. *)
Theorem run_until_stopped (self : FanConfiguration.t) (sched : list Actor) :
  FanConfiguration.is_running self = true ->
  no_handler sched = true ->
  let w := run_schedule sched (start self) in
  FanConfiguration.is_running (fan w) = true
  /\ pc w <> Returned
  /\ (pc w <> Raised ->
      (3 * count is_pwm_write (trace w) + phase (pc w) = count is_loop_move sched)%nat
      /\ (count is_sleep (trace w) + (match pc w with Sleeping => 1 | _ => 0 end)
          = count is_pwm_write (trace w))%nat).
Proof.
  intros Hr Hn. cbv zeta.
  destruct (loop_alone_invariant self sched Hr Hn) as (R & NR & I).
  split; [exact R|]. split; [exact NR|].
  intros C. destruct (I C) as (I1 & I2 & _). now split.
Qed.

Lemma run_until_stopped_witness :
  exists self,
    Demo.fan_from 5 50000 3 = Some self
    /\ let w := run_schedule
                  [ALoop; ALoop; ALoop; ASensor (kernel_line 60000); ALoop; ALoop; ALoop; ALoop]
                  (start self) in
       pc w = AtTest
       /\ count is_pwm_write (trace w) = 2%nat
       /\ count is_sleep (trace w) = 2%nat
       /\ pc w <> Returned.
Proof.
  eexists. split; [vm_compute; reflexivity|]. cbv zeta.
  split; [vm_compute; reflexivity|].
  split; [vm_compute; reflexivity|].
  split; [vm_compute; reflexivity|].
  match goal with
  | |- pc (run_schedule ?s (start ?f)) <> _ =>
      exact (proj1 (proj2 (run_until_stopped f s eq_refl eq_refl)))
  end.
Defined.

Lemma zero_delta_raises self :
  TemperatureConfiguration.delta (FanConfiguration.temperature self) = 0 ->
  FanConfiguration.get_temperature_percentage self = None
  /\ FanConfiguration.get_current_pwm self = None.
Proof.
  intros Hd.
  assert (E : FanConfiguration.get_temperature_percentage self = None).
  { unfold FanConfiguration.get_temperature_percentage.
    destruct (TemperatureConfiguration.get_temperature (FanConfiguration.temperature self))
      as [[temp tc]|] eqn:G; [|reflexivity].
    destruct (get_temperature_inv _ _ _ G) as (r & s & _ & _ & _ & _ & Emin & Emax).
    assert (Ed : TemperatureConfiguration.delta tc = 0)
      by (unfold TemperatureConfiguration.delta in *; rewrite Emin, Emax; exact Hd).
    rewrite Ed. reflexivity. }
  split; [exact E|].
  unfold FanConfiguration.get_current_pwm. now rewrite E.
Qed.

Lemma zero_delta_invariant self sched :
  TemperatureConfiguration.delta (FanConfiguration.temperature self) = 0 ->
  FanConfiguration.is_running self = true ->
  no_handler sched = true ->
  let w := run_schedule sched (start self) in
  TemperatureConfiguration.delta (FanConfiguration.temperature (fan w)) = 0
  /\ FanConfiguration.is_running (fan w) = true
  /\ count is_pwm_write (trace w) = 0%nat
  /\ match count is_loop_move sched with
     | 0%nat => pc w = AtEntry
                /\ FanConfiguration.mode_file (fan w) = FanConfiguration.mode_file self
     | 1%nat => pc w = AtTest
                /\ FanConfiguration.mode_file (fan w)
                   = FanConfiguration.mode_file (FanConfiguration.set_mode MANUAL self)
     | 2%nat => pc w = InBody
                /\ FanConfiguration.mode_file (fan w)
                   = FanConfiguration.mode_file (FanConfiguration.set_mode MANUAL self)
     | _ => pc w = Raised
            /\ FanConfiguration.mode_file (fan w)
               = FanConfiguration.mode_file (FanConfiguration.set_mode MANUAL self)
     end.
Proof.
  intros Hd Hr. cbv zeta. induction sched as [|a sched IH] using rev_ind; intros Hn.
  - simpl. repeat split; assumption || reflexivity.
  - apply no_handler_snoc in Hn. destruct Hn as [Hn Ha].
    destruct (IH Hn) as (D & R & W & I). clear IH.
    rewrite run_schedule_snoc, count_snoc.
    set (w := run_schedule sched (start self)) in *.
    destruct a as [| |c]; [|discriminate Ha|].
    + cbn [is_loop_move]. unfold step, run_step.
      destruct (count is_loop_move sched) as [|[|[|n]]]; destruct I as [Epc M];
        rewrite Epc; cbn [Nat.add].
      * cbn [fan pc trace]. rewrite count_app, count_io_mode by reflexivity.
        repeat split; try assumption; try lia.
        cbn [FanConfiguration.set_mode FanConfiguration.mode_file
             FanConfiguration.with_mode_file]. now rewrite M.
      * rewrite R. cbn [fan pc trace]. rewrite count_app.
        repeat split; try assumption. unfold count in *. simpl. lia.
      * destruct (zero_delta_raises (fan w) D) as [_ G]. rewrite G.
        cbn [fan pc trace]. rewrite count_app.
        repeat split; try assumption. unfold count in *. simpl. lia.
      * replace (S (S (S n)) + 1)%nat with (S (S (S (S n)))) by lia.
        repeat split; assumption.
    + cbn [is_loop_move step fan pc trace]. rewrite Nat.add_0_r.
      split; [exact D|]. split; [exact R|]. split; [exact W|]. exact I.
Qed.

(** X16. Equal temperature bounds are not refused when the fan is built;
    they make every [get_current_pwm] raise on the division.  Started on
    such a fan, [run] sets the manual mode, passes the test once and is
    ended by the exception in its first body: no duty cycle is ever
    written, and the mode file is left as [set_mode(MANUAL)] left it. *)
Theorem zero_delta_ends_run (self : FanConfiguration.t) (sched : list Actor) :
  TemperatureConfiguration.delta (FanConfiguration.temperature self) = 0 ->
  FanConfiguration.is_running self = true ->
  no_handler sched = true ->
  (3 <= count is_loop_move sched)%nat ->
  FanConfiguration.get_current_pwm self = None
  /\ let w := run_schedule sched (start self) in
     pc w = Raised
     /\ count is_pwm_write (trace w) = 0%nat
     /\ FanConfiguration.mode_file (fan w)
        = FanConfiguration.mode_file (FanConfiguration.set_mode MANUAL self)
     /\ written (new_ops (FanConfiguration.mode_file self)
                         (FanConfiguration.mode_file (fan w)))
        = [PWMMode_str MANUAL].
Proof.
  intros Hd Hr Hn H3.
  split; [apply zero_delta_raises; exact Hd|]. cbv zeta.
  destruct (zero_delta_invariant self sched Hd Hr Hn) as (_ & _ & W & I).
  destruct (count is_loop_move sched) as [|[|[|n]]]; try lia.
  destruct I as [Epc M].
  split; [exact Epc|]. split; [exact W|]. split; [exact M|].
  rewrite M. cbn [FanConfiguration.set_mode FanConfiguration.mode_file
                  FanConfiguration.with_mode_file].
  now rewrite new_ops_write_seek.
Qed.

Lemma zero_delta_ends_run_witness :
  exists self0 self,
    Demo.fan_from 5 50000 3 = Some self0
    /\ self = FanConfiguration.with_temperature self0
                (TemperatureConfiguration.mk
                   (TemperatureConfiguration.input (FanConfiguration.temperature self0))
                   40 40
                   (TemperatureConfiguration.previous_temperatures
                      (FanConfiguration.temperature self0)))
    /\ let w := run_schedule [ALoop; ALoop; ASensor (kernel_line 41000); ALoop; ALoop]
                             (start self) in
       pc w = Raised
       /\ count is_pwm_write (trace w) = 0%nat
       /\ content (FanConfiguration.mode_file (fan w)) = line (str 1).
Proof.
  eexists. eexists.
  split; [vm_compute; reflexivity|].
  split; [reflexivity|]. cbv zeta.
  match goal with
  | |- pc (run_schedule ?s (start ?f)) = _ /\ _ =>
      assert (H3 : (3 <= count is_loop_move s)%nat) by (vm_compute; lia);
      destruct (zero_delta_ends_run f s eq_refl eq_refl eq_refl H3)
        as (_ & P & W & _ & _)
  end.
  split; [exact P|]. split; [exact W|].
  vm_compute. reflexivity.
Defined.

Lemma stopped_before_start_invariant self sched :
  no_handler sched = true ->
  let w := run_schedule sched (handler_step (start self)) in
  FanConfiguration.is_running (fan w) = false
  /\ count is_pwm_write (trace w) = 0%nat
  /\ match count is_loop_move sched with
     | 0%nat => pc w = AtEntry
                /\ FanConfiguration.mode_file (fan w)
                   = FanConfiguration.mode_file (FanConfiguration.shutdown self)
     | 1%nat => pc w = AtTest
                /\ FanConfiguration.mode_file (fan w)
                   = FanConfiguration.mode_file
                       (FanConfiguration.set_mode MANUAL (FanConfiguration.shutdown self))
     | _ => pc w = Returned
            /\ FanConfiguration.mode_file (fan w)
               = FanConfiguration.mode_file
                   (FanConfiguration.set_mode MANUAL (FanConfiguration.shutdown self))
     end.
Proof.
  cbv zeta. induction sched as [|a sched IH] using rev_ind; intros Hn.
  - unfold handler_step, start. cbn [run_schedule fan pc trace app].
    rewrite count_app, count_io_mode by reflexivity.
    repeat split; reflexivity.
  - apply no_handler_snoc in Hn. destruct Hn as [Hn Ha].
    destruct (IH Hn) as (R & W & I). clear IH.
    rewrite run_schedule_snoc, count_snoc.
    set (w := run_schedule sched (handler_step (start self))) in *.
    destruct a as [| |c]; [|discriminate Ha|].
    + cbn [is_loop_move]. unfold step, run_step.
      destruct (count is_loop_move sched) as [|[|n]]; destruct I as [Epc M];
        rewrite Epc; cbn [Nat.add].
      * cbn [fan pc trace]. rewrite count_app, count_io_mode by reflexivity.
        repeat split; try assumption; try lia.
        cbn [FanConfiguration.set_mode FanConfiguration.mode_file
             FanConfiguration.with_mode_file] in *. now rewrite M.
      * rewrite R. cbn [fan pc trace]. rewrite count_app.
        repeat split; try assumption. unfold count in *. simpl. lia.
      * replace (S (S n) + 1)%nat with (S (S (S n))) by lia.
        repeat split; assumption.
    + cbn [is_loop_move step fan pc trace]. rewrite Nat.add_0_r.
      split; [exact R|]. split; [exact W|]. exact I.
Qed.

(** X17. When [shutdown] is called on a built fan before the thread
    started on [run] has made its first move, [run] still sets the manual
    mode, then finds the flag cleared and returns without writing a duty
    cycle: the original mode that [shutdown] had written is overwritten,
    and the mode file is left showing the manual mode with no loop
    running. *)
Theorem shutdown_before_run_leaves_manual
    (fs : FileSystem) (data : FanConfiguration.json) (pwm_file : string) (m : Z)
    (self : FanConfiguration.t) (sched : list Actor) :
  fs (pwm_file ++ "_enable")%string = Some (line (str m)) ->
  FanConfiguration.from_json fs data pwm_file = Some self ->
  no_handler sched = true ->
  (2 <= count is_loop_move sched)%nat ->
  let w := run_schedule (AHandler :: sched) (start self) in
  pc w = Returned
  /\ FanConfiguration.is_running (fan w) = false
  /\ count is_pwm_write (trace w) = 0%nat
  /\ written (new_ops (FanConfiguration.mode_file self) (FanConfiguration.mode_file (fan w)))
     = [str m; PWMMode_str MANUAL]
  /\ content (FanConfiguration.mode_file (fan w))
     = (PWMMode_str MANUAL ++ string_drop 1 (line (str m)))%string
  /\ (0 <= m <= 9 -> content (FanConfiguration.mode_file (fan w)) = line (PWMMode_str MANUAL)).
Proof.
  intros Hfs Hb Hn H2. cbv zeta.
  change (run_schedule (AHandler :: sched) (start self))
    with (run_schedule sched (handler_step (start self))).
  destruct (stopped_before_start_invariant self sched Hn) as (R & W & I).
  destruct (count is_loop_move sched) as [|[|n]]; try lia.
  destruct I as [Epc M].
  destruct (built_restorable _ _ _ _ _ Hfs Hb) as [R0 _].
  pose proof (shutdown_restorable m self R0) as C1.
  assert (R1 : restorable m (FanConfiguration.shutdown self))
    by (apply (call_restorable m CallShutdown self); [exact R0 | reflexivity]).
  destruct R0 as (P0 & O0 & _). destruct R1 as (P1 & _ & _).
  assert (C : content (FanConfiguration.mode_file
                         (FanConfiguration.set_mode MANUAL (FanConfiguration.shutdown self)))
              = (PWMMode_str MANUAL ++ string_drop 1 (line (str m)))%string).
  { cbn [FanConfiguration.set_mode FanConfiguration.mode_file
         FanConfiguration.with_mode_file].
    cbn [content seek write]. rewrite P1, C1. apply overwrite_start. }
  split; [exact Epc|]. split; [exact R|]. split; [exact W|].
  rewrite M. split; [|split; [exact C|]].
  - cbn [FanConfiguration.set_mode FanConfiguration.shutdown FanConfiguration.mode_file
         FanConfiguration.with_mode_file FanConfiguration.with_is_running].
    rewrite O0.
    rewrite (new_ops_app (FanConfiguration.mode_file self) 
               [OpWrite (pos (FanConfiguration.mode_file self)) (str m); OpSeek 0;
                OpWrite 0 (PWMMode_str MANUAL); OpSeek 0]).
    + reflexivity.
    + simpl. rewrite <- !app_assoc. reflexivity.
  - intros Hm. rewrite C.
    pose proof (one_digit_str m Hm) as L. unfold line.
    destruct (str m) as [|a [|b d]]; simpl in L; try lia. reflexivity.
Qed.

Lemma shutdown_before_run_leaves_manual_witness :
  exists self,
    Demo.fs 5 50000 (Demo.pwm_path ++ "_enable")%string = Some (line (str 5))
    /\ FanConfiguration.from_json (Demo.fs 5 50000) (Demo.fan_json 3) Demo.pwm_path
       = Some self
    /\ let w := run_schedule [AHandler; ALoop; ALoop; ALoop] (start self) in
       pc w = Returned
       /\ content (FanConfiguration.mode_file (fan w)) = line (str 1).
Proof.
  eexists.
  split; [vm_compute; reflexivity|].
  split; [vm_compute; reflexivity|]. cbv zeta.
  assert (H2 : (2 <= count is_loop_move [ALoop; ALoop; ALoop])%nat) by (vm_compute; lia).
  assert (Hm : 0 <= 5 <= 9) by lia.
  destruct (shutdown_before_run_leaves_manual
              (Demo.fs 5 50000) (Demo.fan_json 3) Demo.pwm_path 5 _
              [ALoop; ALoop; ALoop] eq_refl eq_refl eq_refl H2)
    as (P & _ & _ & _ & _ & C).
  split; [exact P | exact (C Hm)].
Defined.

(** What is asked of a write to the PWM file: made by the loop thread, at
    offset 0, of the numeral of a duty cycle the hardware accepts. *)
Definition valid_pwm_event (e : Event) : Prop :=
  match e with
  | EvIO who DevPwm (OpWrite offset data) =>
      who = Loop /\ offset = 0%nat /\ exists p, data = str p /\ 0 <= p <= 255
  | _ => True
  end.

Lemma valid_pwm_event_other who dev l :
  dev <> DevPwm -> Forall valid_pwm_event (map (EvIO who dev) l).
Proof.
  intros Hd. apply Forall_forall. intros e He.
  apply in_map_iff in He. destruct He as (op & <- & _).
  destruct dev; [exact I | congruence | exact I].
Qed.

Lemma clamp_in_pwm_range a l h :
  0 <= l <= 255 -> 0 <= h <= 255 -> 0 <= clamp a l h <= 255.
Proof.
  intros Hl Hh. rewrite <- (pwm_clamp_clamp a l h Hl Hh). apply pwm_clamp_range.
Qed.

Definition pwm_bounds_in_range (self : FanConfiguration.t) : Prop :=
  0 <= PWMConfiguration.minimum (FanConfiguration.pwm self) <= 255
  /\ 0 <= PWMConfiguration.maximum (FanConfiguration.pwm self) <= 255.

Lemma step_valid_pwm a w :
  pwm_bounds_in_range (fan w) /\ Forall valid_pwm_event (trace w) ->
  pwm_bounds_in_range (fan (step a w)) /\ Forall valid_pwm_event (trace (step a w)).
Proof.
  intros [B T]. destruct a as [| |c].
  - unfold step, run_step. destruct (pc w).
    + cbn [fan trace]. split; [exact B|].
      apply Forall_app. split; [exact T|].
      apply valid_pwm_event_other. discriminate.
    + cbn [fan trace]. split; [exact B|].
      apply Forall_app. split; [exact T|]. repeat constructor.
    + destruct (FanConfiguration.get_current_pwm (fan w)) as [[p f1]|] eqn:G.
      * destruct (body_io _ _ _ G) as (_ & E2 & _).
        destruct (get_current_pwm_inv _ _ _ G) as (q & Gq & ->).
        apply get_temperature_percentage_inv in Gq.
        destruct Gq as (temp & tc & _ & _ & _ & ->).
        cbn [fan trace]. split; [exact B|].
        apply Forall_app. split; [exact T|].
        apply Forall_app. split; [apply valid_pwm_event_other; discriminate|].
        rewrite E2. constructor; [exact I|]. constructor; [|constructor].
        split; [reflexivity|]. split; [reflexivity|].
        eexists. split; [reflexivity|].
        destruct B as [Bl Bh]. now apply clamp_in_pwm_range.
      * cbn [fan trace]. split; [exact B|].
        apply Forall_app. split; [exact T|]. repeat constructor.
    + cbn [fan trace]. split; [exact B|].
      apply Forall_app. split; [exact T|]. repeat constructor.
    + split; assumption.
    + split; assumption.
  - unfold step, handler_step. cbn [fan trace]. split; [exact B|].
    apply Forall_app. split; [exact T|].
    apply Forall_app. split; [apply valid_pwm_event_other; discriminate|].
    repeat constructor.
  - unfold step. cbn [fan trace]. split; assumption.
Qed.

(** X18. For a fan built from its configuration entry, however the loop
    thread, the handler and the sensor are scheduled: every write the PWM
    file receives is made by the loop thread, lands at offset 0, and is
    the numeral of an integer between 0 and 255. *)
Theorem run_writes_valid_duty_cycles
    (fs : FileSystem) (data : FanConfiguration.json) (pwm_file : string)
    (self : FanConfiguration.t) (sched : list Actor) :
  FanConfiguration.from_json fs data pwm_file = Some self ->
  Forall valid_pwm_event (trace (run_schedule sched (start self))).
Proof.
  intros Hb.
  apply from_json_inv in Hb. destruct Hb as (pf & fi & tc & Hp & _).
  apply post_init_inv in Hp. destruct Hp as (c & m & _ & _ & ->).
  apply (run_schedule_invariant
           (fun w => pwm_bounds_in_range (fan w) /\ Forall valid_pwm_event (trace w))
           step_valid_pwm sched).
  split; [|constructor].
  apply from_json_pwm_range.
Qed.

Lemma run_writes_valid_duty_cycles_witness :
  exists self,
    Demo.fan_from 5 95000 3 = Some self
    /\ Forall valid_pwm_event
         (trace (run_schedule [ALoop; ALoop; ALoop; AHandler; ALoop] (start self)))
    /\ In (EvIO Loop DevPwm (OpWrite 0 (str 255)))
          (trace (run_schedule [ALoop; ALoop; ALoop; AHandler; ALoop] (start self))).
Proof.
  eexists. split; [vm_compute; reflexivity|].
  split.
  - apply (run_writes_valid_duty_cycles (Demo.fs 5 95000) (Demo.fan_json 3) Demo.pwm_path).
    vm_compute. reflexivity.
  - vm_compute. tauto.
Defined.

(* ================================================================== *)
(** ** [get]: a path of keys into nested dictionaries *)
(* ================================================================== *)

(** What [json.loads] produces.  A dictionary is the list of its items;
    looking a key up finds its item. *)
Local Unset Elimination Schemes.

Inductive Json : Type :=
| JNone
| JBool (b : bool)
| JInt (z : Z)
| JFloat (q : Q)
| JStr (s : string)
| JList (l : list Json)
| JDict (l : list (string * Json)).

Local Set Elimination Schemes.

(** How a call ends: with a value, or with a [TypeError] that nothing
    catches. *)
Inductive Outcome : Type :=
| Returns (v : Json)
| RaisesTypeError.

Fixpoint dict_lookup (key : string) (l : list (string * Json)) : option Json :=
  match l with
  | [] => None
  | (k, v) :: l' => if String.eqb k key then Some v else dict_lookup key l'
  end.

(** [d[key]] for a string [key]: only a dictionary can be subscripted with
    a string, and a dictionary without the key raises [KeyError]. *)
Inductive Subscript : Type :=
| Found (v : Json)
| KeyError
| TypeError.

Definition subscript (d : Json) (key : string) : Subscript :=
  match d with
  | JDict l =>
      match dict_lookup key l with
      | Some v => Found v
      | None => KeyError
      end
  | _ => TypeError
  end.

(** [get(d, *keys)]: the loop rebinds [d] key after key; [KeyError] is
    caught and turned into [None], any other exception escapes. *)
Fixpoint get (d : Json) (keys : list string) : Outcome :=
  match keys with
  | [] => Returns d
  | key :: keys' =>
      match subscript d key with
      | Found v => get v keys'
      | KeyError => Returns JNone
      | TypeError => RaisesTypeError
      end
  end.

Definition is_dict (d : Json) : bool :=
  match d with
  | JDict _ => true
  | _ => false
  end.

Lemma get_raise_extends keys : forall d more,
  get d keys = RaisesTypeError -> get d (keys ++ more) = RaisesTypeError.
Proof.
  induction keys as [|k keys IH]; intros d more H; [discriminate H|].
  simpl in *. destruct (subscript d k) as [v| |];
    [now apply IH | discriminate H | reflexivity].
Qed.

(** X19. [get] with no key returns its argument.  A key missing from a
    dictionary on the way gives [None], however many keys follow, which is
    also what a key bound to [None] gives when it is the last one.  A key
    applied to anything that is not a dictionary, a string or [None]
    included, is not caught: the call raises [TypeError], and a path that
    raises still raises when more keys are added to it. *)
Theorem get_outcomes (d : Json) (key : string) (keys : list string) :
  get d [] = Returns d
  /\ (forall more, get d keys = RaisesTypeError ->
                   get d (keys ++ more) = RaisesTypeError)
  /\ (forall l, d = JDict l -> dict_lookup key l = None ->
                get d (key :: keys) = Returns JNone)
  /\ (forall l, d = JDict l -> dict_lookup key l = Some JNone ->
                get d [key] = Returns JNone
                /\ (keys <> [] -> get d (key :: keys) = RaisesTypeError))
  /\ (forall l v, d = JDict l -> dict_lookup key l = Some v ->
                  get d (key :: keys) = get v keys)
  /\ (is_dict d = false -> get d (key :: keys) = RaisesTypeError).
Proof.
  split; [reflexivity|].
  split; [intros more; apply get_raise_extends|].
  split; [intros l -> E; simpl; now rewrite E|].
  split.
  - intros l -> E. simpl. rewrite E. split; [reflexivity|].
    intros Hk. destruct keys; [congruence | reflexivity].
  - split.
    + intros l v -> E. simpl. now rewrite E.
    + intros Hd. destruct d; try reflexivity. discriminate Hd.
Qed.

(** X20. Looking up a path of keys in two calls gives what one call
    gives, as long as the first call found something other than [None]:
    [get(get(d, *ks1), *ks2)] is [get(d, *ks1, *ks2)]. *)
Theorem get_compose (d v : Json) (ks1 ks2 : list string) :
  get d ks1 = Returns v ->
  v <> JNone ->
  get d (ks1 ++ ks2) = get v ks2.
Proof.
  revert d. induction ks1 as [|k ks1 IH]; intros d H Hv.
  - simpl in *. now injection H as ->.
  - simpl in *. destruct (subscript d k) as [v'| |].
    + now apply IH.
    + injection H as <-. congruence.
    + discriminate H.
Qed.

Lemma get_compose_witness :
  let d := JDict [("controls"%string,
                   JDict [("pwm1"%string,
                           JDict [("average"%string, JInt 3);
                                  ("fan_input"%string, JNone)])]);
                  ("interval"%string, JFloat (5 # 2))] in
  get d ["controls"%string; "pwm1"%string]
  = Returns (JDict [("average"%string, JInt 3); ("fan_input"%string, JNone)])
  /\ get d (["controls"%string; "pwm1"%string] ++ ["average"%string]) = Returns (JInt 3)
  /\ get d ["controls"%string; "pwm2"%string; "average"%string] = Returns JNone
  /\ get d ["controls"%string; "pwm1"%string; "fan_input"%string; "x"%string]
     = RaisesTypeError.
Proof.
  cbv zeta.
  split; [reflexivity|].
  split; [|split; reflexivity].
  rewrite (get_compose _ (JDict [("average"%string, JInt 3); ("fan_input"%string, JNone)])
             ["controls"%string; "pwm1"%string] ["average"%string]);
    [reflexivity | reflexivity | discriminate].
Defined.

(* ================================================================== *)
(** ** Path resolution *)
(* ================================================================== *)

Module Paths.

Definition PATH_AUTO_RESOLVE_SYMBOL : string := "::"%string.

(** [sep in s]. *)
Fixpoint contains (sep s : string) : bool :=
  String.prefix sep s
  || match s with
     | EmptyString => false
     | String _ s' => contains sep s'
     end.

(** [s.split(sep)] for a non-empty [sep]: the text is cut at every
    occurrence of [sep] found from the left, occurrences not overlapping.
    [skip] counts the characters of a separator still to be passed over
    and [cur] is the part collected so far. *)
Fixpoint split_go (sep s : string) (skip : nat) (cur : string) : list string :=
  match s with
  | EmptyString => [cur]
  | String c s' =>
      match skip with
      | S k => split_go sep s' k cur
      | O =>
          if String.prefix sep s
          then cur :: split_go sep s' (String.length sep - 1) EmptyString
          else split_go sep s' 0 (cur ++ String c EmptyString)%string
      end
  end.

Definition split (sep s : string) : list string := split_go sep s 0 EmptyString.

(** [os.listdir]: the entries of a directory in the order the system
    gives them, or an [OSError] for what is not a directory. *)
Definition ListDir : Type := string -> option (list string).

(** A path without the symbol is returned as it is (the warning printed
    is left out).  Otherwise the first entry of the directory named by
    the first part goes between the first and the second part; an empty
    directory raises [IndexError] on [listdir(...)[0]]. *)
Definition _resolve_path (listdir : ListDir) (path : string) : option string :=
  if negb (contains PATH_AUTO_RESOLVE_SYMBOL path) then Some path
  else
    match split PATH_AUTO_RESOLVE_SYMBOL path with
    | part0 :: part1 :: _ =>
        match listdir part0 with
        | Some (entry :: _) => Some (part0 ++ entry ++ part1)%string
        | _ => None
        end
    | _ => None
    end.

(** [resolve_and_validate_path] with the resolution in front: a resolved
    path that does not exist ends the process. *)
Definition resolve_and_validate_path
    (listdir : ListDir) (fs : FileSystem) (path : string) (mode : OpenMode)
  : option TextIO :=
  match _resolve_path listdir path with
  | None => None
  | Some p =>
      match fs p with
      | None => None
      | Some _ => py_open fs p mode
      end
  end.

End Paths.

Fixpoint no_colon (s : string) : bool :=
  match s with
  | EmptyString => true
  | String c s' => negb (c =? ":")%char && no_colon s'
  end.

Lemma contains_no_colon s : no_colon s = true -> Paths.contains "::" s = false.
Proof.
  induction s as [|c s IH]; intros H; [reflexivity|].
  simpl in H. apply andb_true_iff in H. destruct H as [Hc Hs].
  cbn [Paths.contains]. rewrite (IH Hs), orb_false_r.
  cbn [String.prefix]. destruct (Ascii.eqb_spec ":" c) as [<-|Hn]; [discriminate Hc|].
  destruct (ascii_dec ":" c); [contradiction | reflexivity].
Qed.

Lemma contains_symbol a rest :
  Paths.contains "::" (a ++ "::" ++ rest)%string = true.
Proof.
  change (a ++ "::" ++ rest)%string with (a ++ String ":" (String ":" rest))%string.
  induction a as [|c a IH].
  - destruct rest; reflexivity.
  - cbn [append Paths.contains]. rewrite IH. apply orb_true_r.
Qed.

Lemma prefix_symbol_no_colon c s :
  (c =? ":")%char = false -> String.prefix "::" (String c s) = false.
Proof.
  intros Hc. cbn [String.prefix].
  destruct (ascii_dec ":" c) as [<-|Hn]; [discriminate Hc | reflexivity].
Qed.

Lemma split_go_no_colon a : forall cur,
  no_colon a = true ->
  Paths.split_go "::" a 0 cur = [(cur ++ a)%string].
Proof.
  induction a as [|c a IH]; intros cur H.
  - simpl. now rewrite string_app_nil_r.
  - simpl in H. apply andb_true_iff in H. destruct H as [Hc Ha].
    apply negb_true_iff in Hc.
    cbn [Paths.split_go]. rewrite (prefix_symbol_no_colon c a Hc).
    rewrite (IH _ Ha). f_equal.
    clear. induction cur; simpl; congruence.
Qed.

Lemma split_go_symbol a rest : forall cur,
  no_colon a = true ->
  Paths.split_go "::" (a ++ "::" ++ rest)%string 0 cur
  = (cur ++ a)%string :: Paths.split_go "::" rest 0 EmptyString.
Proof.
  change (a ++ "::" ++ rest)%string with (a ++ String ":" (String ":" rest))%string.
  induction a as [|c a IH]; intros cur H.
  - rewrite string_app_nil_r. cbn [append Paths.split_go].
    replace (String.prefix "::" (String ":" (String ":" rest))) with true
      by (destruct rest; reflexivity).
    reflexivity.
  - simpl in H. apply andb_true_iff in H. destruct H as [Hc Ha].
    apply negb_true_iff in Hc.
    cbn [append Paths.split_go]. rewrite (prefix_symbol_no_colon c _ Hc).
    rewrite (IH _ Ha). f_equal.
    clear. induction cur; simpl; congruence.
Qed.

Lemma resolve_path_plain listdir path :
  Paths.contains Paths.PATH_AUTO_RESOLVE_SYMBOL path = false ->
  Paths._resolve_path listdir path = Some path.
Proof. intros H. unfold Paths._resolve_path. now rewrite H. Qed.

Lemma resolve_path_symbol listdir a b :
  no_colon a = true -> no_colon b = true ->
  Paths._resolve_path listdir (a ++ "::" ++ b)%string
  = match listdir a with
    | Some (entry :: _) => Some (a ++ entry ++ b)%string
    | _ => None
    end.
Proof.
  intros Ha Hb.
  unfold Paths._resolve_path, Paths.PATH_AUTO_RESOLVE_SYMBOL, Paths.split.
  rewrite contains_symbol. cbn [negb].
  rewrite (split_go_symbol a b _ Ha), (split_go_no_colon b _ Hb). reflexivity.
Qed.

(** X21. A path without the symbol [::] resolves to itself, whatever the
    directories hold.  A path [a::b], [a] and [b] free of colons, resolves
    to [a], the first entry the system lists for directory [a], and [b],
    joined; it raises when [a] cannot be listed or is empty.  In a path
    [a::b::c] everything from the second symbol on is dropped: it resolves
    like [a::b]. *)
Theorem resolve_path_behaviour (listdir : Paths.ListDir) (path a b c : string) :
  (Paths.contains Paths.PATH_AUTO_RESOLVE_SYMBOL path = false ->
   Paths._resolve_path listdir path = Some path)
  /\ (no_colon a = true -> no_colon b = true ->
      Paths._resolve_path listdir (a ++ "::" ++ b)%string
      = match listdir a with
        | Some (entry :: _) => Some (a ++ entry ++ b)%string
        | _ => None
        end
      /\ Paths._resolve_path listdir (a ++ "::" ++ b ++ "::" ++ c)%string
         = Paths._resolve_path listdir (a ++ "::" ++ b)%string).
Proof.
  split.
  - apply resolve_path_plain.
  - intros Ha Hb.
    pose proof (resolve_path_symbol listdir a b Ha Hb) as E1.
    split; [exact E1|]. rewrite E1.
    unfold Paths._resolve_path, Paths.PATH_AUTO_RESOLVE_SYMBOL, Paths.split.
    rewrite contains_symbol. cbn [negb].
    rewrite (split_go_symbol a _ _ Ha), (split_go_symbol b c _ Hb). reflexivity.
Qed.

(** X22. Opening through the resolution: for a path without the symbol
    it is the plain existence check followed by [open]; for [a::b] the
    file opened, and the name the handle carries, is the resolved path,
    and a resolved path that does not exist opens nothing. *)
Theorem resolve_and_validate_path_resolved
    (listdir : Paths.ListDir) (fs : FileSystem) (mode : OpenMode)
    (path a b entry : string) (rest : list string) :
  (Paths.contains Paths.PATH_AUTO_RESOLVE_SYMBOL path = false ->
   Paths.resolve_and_validate_path listdir fs path mode
   = resolve_and_validate_path fs path mode)
  /\ (no_colon a = true -> no_colon b = true ->
      listdir a = Some (entry :: rest) ->
      Paths.resolve_and_validate_path listdir fs (a ++ "::" ++ b)%string mode
      = resolve_and_validate_path fs (a ++ entry ++ b)%string mode
      /\ (forall f,
            Paths.resolve_and_validate_path listdir fs (a ++ "::" ++ b)%string mode = Some f ->
            name f = (a ++ entry ++ b)%string /\ pos f = 0%nat
            /\ fs (a ++ entry ++ b)%string <> None)).
Proof.
  split.
  - intros H. unfold Paths.resolve_and_validate_path.
    rewrite (resolve_path_plain listdir path H). reflexivity.
  - intros Ha Hb Hl.
    assert (E : Paths.resolve_and_validate_path listdir fs (a ++ "::" ++ b)%string mode
                = resolve_and_validate_path fs (a ++ entry ++ b)%string mode).
    { unfold Paths.resolve_and_validate_path.
      rewrite (resolve_path_symbol listdir a b Ha Hb), Hl. reflexivity. }
    split; [exact E|]. intros f. rewrite E.
    unfold resolve_and_validate_path, py_open.
    destruct (fs (a ++ entry ++ b)%string) as [c|]; [|discriminate].
    intros [= <-]. repeat split. discriminate.
Qed.

(** X13. For paths without the symbol [::], which resolve to themselves:
    a fan is built whenever the PWM file, the fan input when one is named
    and the sensor file exist, the window is not negative and fits the
    signed machine word, and the mode file exists and shows the kernel's
    line for an integer, which becomes its original mode.  No fan is built
    when one of those files is missing or the window is out of range.  A
    fan that is built is running, remembers the integer read from the
    mode file, has an empty history with the window as its maximum
    length, the clamped PWM bounds, and its mode file, named after the PWM
    file, at the start with nothing written to it. *)
Theorem FanConfiguration_from_json_succeeds
    (fs : FileSystem) (data : FanConfiguration.json) (pwm_file : string) :
  Paths.contains Paths.PATH_AUTO_RESOLVE_SYMBOL pwm_file = false ->
  Paths.contains Paths.PATH_AUTO_RESOLVE_SYMBOL
    (TemperatureConfiguration.data_input (FanConfiguration.data_temperature data)) = false ->
  (forall p, FanConfiguration.data_fan_input data = Some p ->
             Paths.contains Paths.PATH_AUTO_RESOLVE_SYMBOL p = false) ->
  (forall m,
     fs pwm_file <> None ->
     (forall p, FanConfiguration.data_fan_input data = Some p -> fs p <> None) ->
     fs (TemperatureConfiguration.data_input (FanConfiguration.data_temperature data))
     <> None ->
     0 <= FanConfiguration.data_average data < 2 ^ 63 ->
     fs (pwm_file ++ "_enable")%string = Some (kernel_line m) ->
     exists self,
       FanConfiguration.from_json fs data pwm_file = Some self
       /\ FanConfiguration.original_mode self = m)
  /\ (fs pwm_file = None
      \/ (exists p, FanConfiguration.data_fan_input data = Some p /\ fs p = None)
      \/ fs (TemperatureConfiguration.data_input (FanConfiguration.data_temperature data))
         = None
      \/ FanConfiguration.data_average data < 0
      \/ 2 ^ 63 <= FanConfiguration.data_average data
      \/ fs (pwm_file ++ "_enable")%string = None ->
      FanConfiguration.from_json fs data pwm_file = None)
  /\ (forall self,
        FanConfiguration.from_json fs data pwm_file = Some self ->
        FanConfiguration.is_running self = true
        /\ (exists c, fs (pwm_file ++ "_enable")%string = Some c
                      /\ py_int (read_line c) = Some (FanConfiguration.original_mode self)
                      /\ content (FanConfiguration.mode_file self) = c)
        /\ name (FanConfiguration.mode_file self) = (pwm_file ++ "_enable")%string
        /\ pos (FanConfiguration.mode_file self) = 0%nat
        /\ written (ops (FanConfiguration.mode_file self)) = []
        /\ FanConfiguration.pwm self
           = PWMConfiguration.from_json (FanConfiguration.data_pwm data)
        /\ TemperatureConfiguration.previous_temperatures (FanConfiguration.temperature self)
           = deque_new (Z.to_nat (FanConfiguration.data_average data))
        /\ TemperatureConfiguration.minimum (FanConfiguration.temperature self)
           = TemperatureConfiguration.data_minimum (FanConfiguration.data_temperature data)
        /\ TemperatureConfiguration.maximum (FanConfiguration.temperature self)
           = TemperatureConfiguration.data_maximum (FanConfiguration.data_temperature data)
        /\ (FanConfiguration.fan_input self = None
            <-> FanConfiguration.data_fan_input data = None)).
Proof.
  intros _ _ _.
  destruct (from_json_model fs data pwm_file) as [M F].
  split; [|split; [|exact F]].
  - intros m H1 H2 H3 H4 H5.
    assert (E : exists self, FanConfiguration.from_json fs data pwm_file = Some self).
    { apply M. repeat split; try assumption; try lia.
      exists (kernel_line m), m. split; [exact H5|]. apply py_int_read_line. }
    destruct E as [self E]. exists self. split; [exact E|].
    destruct (F self E) as (_ & (c & Hc & Hm & _) & _).
    rewrite H5 in Hc. injection Hc as <-.
    unfold kernel_line in Hm. rewrite py_int_read_line in Hm. congruence.
  - intros H.
    destruct (FanConfiguration.from_json fs data pwm_file) as [self|] eqn:E;
      [|reflexivity].
    exfalso.
    destruct (proj1 M (ex_intro _ self eq_refl)) as (A1 & A2 & A3 & A4 & c & m & A5 & _).
    destruct H as [H|[(p & Hp & H)|[H|[H|[H|H]]]]]; try congruence; try lia.
    exact (A2 p Hp H).
Qed.

Lemma FanConfiguration_from_json_succeeds_witness :
  exists self,
    FanConfiguration.from_json (Demo.fs 5 50000) (Demo.fan_json 3) Demo.pwm_path = Some self
    /\ FanConfiguration.original_mode self = 5
    /\ FanConfiguration.is_running self = true
    /\ FanConfiguration.from_json (Demo.fs 5 50000) (Demo.fan_json (-1)) Demo.pwm_path = None.
Proof.
  destruct (FanConfiguration_from_json_succeeds
              (Demo.fs 5 50000) (Demo.fan_json 3) Demo.pwm_path) as (S & _ & F);
    [reflexivity | reflexivity | intros p H; discriminate H |].
  destruct (S 5) as (self & E & O);
    [vm_compute; discriminate | intros p H; discriminate H
     | vm_compute; discriminate
     | vm_compute; split; [discriminate | reflexivity]
     | reflexivity |].
  exists self. split; [exact E|]. split; [exact O|].
  split; [exact (proj1 (F self E))|].
  destruct (FanConfiguration_from_json_succeeds
              (Demo.fs 5 50000) (Demo.fan_json (-1)) Demo.pwm_path) as (_ & N & _);
    [reflexivity | reflexivity | intros p H; discriminate H |].
  apply N. right. right. right. left. vm_compute. reflexivity.
Defined.

Lemma resolve_path_behaviour_witness :
  let listdir : Paths.ListDir :=
    fun d => if String.eqb d "/sys/devices/platform/nct6775.2592/hwmon/"
             then Some ["hwmon4"%string; "hwmon7"%string] else None in
  Paths._resolve_path listdir "/sys/devices/platform/nct6775.2592/hwmon/::/pwm1"
  = Some "/sys/devices/platform/nct6775.2592/hwmon/hwmon4/pwm1"%string
  /\ Paths._resolve_path listdir "/sys/devices/platform/nct6775.2592/hwmon/::/pwm1::_enable"
     = Some "/sys/devices/platform/nct6775.2592/hwmon/hwmon4/pwm1"%string
  /\ Paths._resolve_path listdir "/sys/class/hwmon/hwmon4/pwm1"
     = Some "/sys/class/hwmon/hwmon4/pwm1"%string.
Proof.
  cbv zeta.
  set (listdir := fun d => if String.eqb d "/sys/devices/platform/nct6775.2592/hwmon/"
                           then Some ["hwmon4"%string; "hwmon7"%string] else None).
  destruct (resolve_path_behaviour listdir "/sys/class/hwmon/hwmon4/pwm1"
              "/sys/devices/platform/nct6775.2592/hwmon/" "/pwm1" "_enable")
    as [P S].
  destruct (S eq_refl eq_refl) as [S1 S2].
  split; [exact S1|]. split; [exact (eq_trans S2 S1)|].
  apply P. reflexivity.
Defined.

(* ================================================================== *)
(** ** The comment lines of the configuration file *)
(* ================================================================== *)

(** [line.strip().startswith("//")]. *)
Definition is_comment_line (l : string) : bool := String.prefix "//" (strip l).

(** The loop of [read_configuration] over [range(len(lines))]: a line
    that is a comment is passed over, any other line is appended. *)
Fixpoint no_comment_loop (lines : list string) (indices : list nat) (acc : list string)
  : list string :=
  match indices with
  | [] => acc
  | i :: indices' =>
      let l := nth i lines EmptyString in
      if is_comment_line l then no_comment_loop lines indices' acc
      else no_comment_loop lines indices' (acc ++ [l])
  end.

Definition no_comment_lines (lines : list string) : list string :=
  no_comment_loop lines (seq 0 (List.length lines)) [].

(** The text handed to [json.loads]. *)
Definition configuration_text (lines : list string) : string :=
  String.concat EmptyString (no_comment_lines lines).

Lemma no_comment_loop_filter pre rest : forall acc,
  no_comment_loop (pre ++ rest) (seq (List.length pre) (List.length rest)) acc
  = acc ++ filter (fun l => negb (is_comment_line l)) rest.
Proof.
  revert pre. induction rest as [|l rest IH]; intros pre acc.
  - simpl. now rewrite app_nil_r.
  - cbn [List.length seq no_comment_loop filter].
    rewrite app_nth2, Nat.sub_diag by lia. cbn [nth].
    replace (pre ++ l :: rest) with ((pre ++ [l]) ++ rest) by now rewrite <- app_assoc.
    replace (S (List.length pre)) with (List.length (pre ++ [l]))
      by (rewrite length_app; simpl; lia).
    destruct (is_comment_line l); cbn [negb]; rewrite IH; [reflexivity|].
    now rewrite <- app_assoc.
Qed.

(** Text whose characters are all ASCII, the text on which the byte
    strings of this file and Python's [str] agree. *)
Fixpoint is_ascii_text (s : string) : bool :=
  match s with
  | EmptyString => true
  | String c s' => (nat_of_ascii c <? 128)%nat && is_ascii_text s'
  end.

(** X23. For a configuration file in ASCII: the lines kept are, in their
    order, exactly the lines whose text after stripping white space does
    not start with [//].  A line that carries [//] after other text is
    kept as it is, comment included.  Stripping a second time changes
    nothing. *)
Theorem no_comment_lines_filter (lines : list string) :
  Forall (fun l => is_ascii_text l = true) lines ->
  no_comment_lines lines = filter (fun l => negb (is_comment_line l)) lines
  /\ (forall l, In l (no_comment_lines lines)
                <-> In l lines /\ String.prefix "//" (strip l) = false)
  /\ no_comment_lines (no_comment_lines lines) = no_comment_lines lines
  /\ (List.length (no_comment_lines lines) <= List.length lines)%nat
  /\ Forall (fun l => is_ascii_text l = true) (no_comment_lines lines).
Proof.
  intros Hascii.
  assert (E : forall ls, no_comment_lines ls
                         = filter (fun l => negb (is_comment_line l)) ls).
  { intros ls. unfold no_comment_lines.
    apply (no_comment_loop_filter [] ls []). }
  split; [apply E|].
  split.
  - intros l. rewrite E, filter_In. unfold is_comment_line.
    now rewrite negb_true_iff.
  - split; [|split].
    + rewrite !E. clear Hascii. induction lines as [|l lines IH]; [reflexivity|].
      simpl. destruct (is_comment_line l) eqn:C; simpl; [exact IH|].
      rewrite C. simpl. now rewrite IH.
    + rewrite E. apply filter_length_le.
    + rewrite E. apply Forall_forall. intros l Hl.
      apply filter_In in Hl. destruct Hl as [Hl _].
      rewrite Forall_forall in Hascii. now apply Hascii.
Qed.

Lemma no_comment_lines_filter_witness :
  let lines := [line "{"; line "  // the interval, in seconds";
                line "  interval: 2.5, // kept with its comment";
                line "//}"; line "}"]%string in
  Forall (fun l => is_ascii_text l = true) lines
  /\ no_comment_lines lines
     = [line "{"; line "  interval: 2.5, // kept with its comment"; line "}"]%string.
Proof.
  cbv zeta.
  assert (H : Forall (fun l => is_ascii_text l = true)
                [line "{"; line "  // the interval, in seconds";
                 line "  interval: 2.5, // kept with its comment";
                 line "//}"; line "}"]%string)
    by (repeat constructor).
  split; [exact H|].
  rewrite (proj1 (no_comment_lines_filter _ H)). vm_compute. reflexivity.
Defined.

(* ================================================================== *)
(** ** Reversed temperature bounds *)
(* ================================================================== *)

Lemma fraction_opp a d :
  d <> 0 -> (inject_Z a / inject_Z d == inject_Z (- a) / inject_Z (- d))%Q.
Proof.
  intros Hd. rewrite !inject_Z_opp.
  assert (Hq : ~ (inject_Z d == 0)%Q)
    by (intros E; apply Hd; unfold Qeq in E; simpl in E; lia).
  field. exact Hq.
Qed.

Lemma fraction_antitone a b d :
  d < 0 -> a <= b -> (inject_Z b / inject_Z d <= inject_Z a / inject_Z d)%Q.
Proof.
  intros Hd Hab.
  rewrite (fraction_opp a d), (fraction_opp b d) by lia.
  apply fraction_monotone; lia.
Qed.

(** X24. Nothing checks that the lower temperature bound is below the
    upper one.  With the two bounds the other way round (and the
    duty-cycle bounds ordered) the response is inverted: of two fans under
    the same bounds, the one whose sample is not lower gets a target that
    is not higher. *)
Theorem get_current_pwm_reversed_bounds
    (self self' : FanConfiguration.t) (temp temp' : Z)
    (tc tc' : TemperatureConfiguration.t) :
  FanConfiguration.pwm self' = FanConfiguration.pwm self ->
  TemperatureConfiguration.minimum (FanConfiguration.temperature self')
  = TemperatureConfiguration.minimum (FanConfiguration.temperature self) ->
  TemperatureConfiguration.maximum (FanConfiguration.temperature self')
  = TemperatureConfiguration.maximum (FanConfiguration.temperature self) ->
  TemperatureConfiguration.maximum (FanConfiguration.temperature self)
  < TemperatureConfiguration.minimum (FanConfiguration.temperature self) ->
  PWMConfiguration.minimum (FanConfiguration.pwm self)
  <= PWMConfiguration.maximum (FanConfiguration.pwm self) ->
  TemperatureConfiguration.get_temperature (FanConfiguration.temperature self)
  = Some (temp, tc) ->
  TemperatureConfiguration.get_temperature (FanConfiguration.temperature self')
  = Some (temp', tc') ->
  temp <= temp' ->
  exists p p',
    option_map fst (FanConfiguration.get_current_pwm self) = Some p
    /\ option_map fst (FanConfiguration.get_current_pwm self') = Some p'
    /\ p' <= p.
Proof.
  intros Epwm Emin Emax Ht Hp G G' Hle.
  assert (Ed : TemperatureConfiguration.delta (FanConfiguration.temperature self')
               = TemperatureConfiguration.delta (FanConfiguration.temperature self))
    by (unfold TemperatureConfiguration.delta; now rewrite Emin, Emax).
  assert (Hd : TemperatureConfiguration.delta (FanConfiguration.temperature self) < 0)
    by (unfold TemperatureConfiguration.delta; lia).
  rewrite (get_current_pwm_of_sample self temp tc G) by lia.
  rewrite (get_current_pwm_of_sample self' temp' tc' G') by lia.
  rewrite Epwm, Emin, Ed.
  eexists. eexists. split; [reflexivity|]. split; [reflexivity|].
  unfold clamped_linear_interpolation.
  apply clamp_monotone; [exact Hp|].
  apply py_round_monotone, lerp_monotone; [exact Hp|].
  apply fraction_antitone; [exact Hd | lia].
Qed.

Lemma get_current_pwm_reversed_bounds_witness :
  exists self0 self0' self self',
    Demo.fan_from 5 30000 3 = Some self0
    /\ Demo.fan_from 5 70000 3 = Some self0'
    /\ self = FanConfiguration.with_temperature self0
                (TemperatureConfiguration.mk
                   (TemperatureConfiguration.input (FanConfiguration.temperature self0))
                   80 20 (deque_new 3))
    /\ self' = FanConfiguration.with_temperature self0'
                 (TemperatureConfiguration.mk
                    (TemperatureConfiguration.input (FanConfiguration.temperature self0'))
                    80 20 (deque_new 3))
    /\ option_map fst (FanConfiguration.get_current_pwm self) = Some 221
    /\ option_map fst (FanConfiguration.get_current_pwm self') = Some 84
    /\ exists p p',
        option_map fst (FanConfiguration.get_current_pwm self) = Some p
        /\ option_map fst (FanConfiguration.get_current_pwm self') = Some p'
        /\ p' <= p.
Proof.
  eexists. eexists. eexists. eexists.
  split; [vm_compute; reflexivity|].
  split; [vm_compute; reflexivity|].
  split; [reflexivity|].
  split; [reflexivity|].
  split; [vm_compute; reflexivity|].
  split; [vm_compute; reflexivity|].
  match goal with
  | |- exists p p', option_map fst (FanConfiguration.get_current_pwm ?s) = _
                    /\ option_map fst (FanConfiguration.get_current_pwm ?s') = _ /\ _ =>
      refine (get_current_pwm_reversed_bounds s s' 30 70 _ _
                eq_refl eq_refl eq_refl _ _ eq_refl eq_refl _)
  end; vm_compute; first [reflexivity | discriminate].
Defined.
